(** * Pipeline-profile matching and shader-option overrides

    A shallow embedding of [icd/api/app_shader_optimizer.cpp]: the pattern
    matcher [ProfilePatternMatchesPipeline], the per-stage override pass
    [ApplyProfileToShaderCreateInfo] with its driver
    [OverrideShaderCreateInfo], the compute pass
    [OverrideComputePipelineCreateInfo] and the settings-driven builder
    [BuildTuningProfile].

    Conventions.  Unsigned machine integers are [Z]; the functions below only
    compare and copy them, so no wrap-around arises.  A C bit-field union is
    its 32-bit word [u32All] together with one accessor per named bit.  A
    pointer is an [option]: [None] is [nullptr].  A function that would
    dereference a null pointer or index outside an array returns [None]. *)

From Stdlib Require Import String ZArith List Bool Lia.
Import ListNotations.
Local Open Scope Z_scope.

(** ** Compile-time configuration

    The three preprocessor symbols the file branches on. *)

Record BuildConfig : Type := mkBuildConfig {
  ICD_RUNTIME_APP_PROFILE : bool;
  LLPC_CLIENT_INTERFACE_MAJOR_VERSION : Z;
  PAL_ENABLE_PRINTS_ASSERTS : bool
}.

(** ** Bit-fields *)

(** Reading and assigning a one-bit field at position [i] of the word [w]. *)
Definition bf_get (w i : Z) : bool := Z.testbit w i.

Definition bf_set (w i : Z) (b : bool) : Z :=
  if b then Z.setbit w i else Z.clearbit w i.

(** ** Shader stages and per-stage arrays *)

(** Modelled from the spec: the enumeration [ShaderStage] is declared in a
    header that is not among the sources; its six members are listed here in
    the order of the spec's [ShaderStageId] (the order in which
    [PrintProfileEntryMatch] switches over them as well). *)
Inductive ShaderStage : Type :=
  | ShaderStageVertex
  | ShaderStageTessControl
  | ShaderStageTessEvaluation
  | ShaderStageGeometry
  | ShaderStageFragment
  | ShaderStageCompute.

Definition ShaderStageCount : Z := 6.

Definition stageIndex (s : ShaderStage) : Z :=
  match s with
  | ShaderStageVertex => 0
  | ShaderStageTessControl => 1
  | ShaderStageTessEvaluation => 2
  | ShaderStageGeometry => 3
  | ShaderStageFragment => 4
  | ShaderStageCompute => 5
  end.

(** The stage an unsigned index denotes, when it is below [ShaderStageCount]. *)
Definition stageOfIndex (i : Z) : option ShaderStage :=
  if i =? 0 then Some ShaderStageVertex
  else if i =? 1 then Some ShaderStageTessControl
  else if i =? 2 then Some ShaderStageTessEvaluation
  else if i =? 3 then Some ShaderStageGeometry
  else if i =? 4 then Some ShaderStageFragment
  else if i =? 5 then Some ShaderStageCompute
  else None.

(** The indices [0 .. ShaderStageCount - 1] a stage loop runs through. *)
Definition allStages : list ShaderStage :=
  [ShaderStageVertex; ShaderStageTessControl; ShaderStageTessEvaluation;
   ShaderStageGeometry; ShaderStageFragment; ShaderStageCompute].

Definition ShaderStage_eq_dec (a b : ShaderStage) : {a = b} + {a <> b}.
Proof. decide equality. Defined.

(** An array [T x[ShaderStageCount]]. *)
Record PerStage (T : Type) : Type := mkPerStage {
  atVertex : T;
  atTessControl : T;
  atTessEvaluation : T;
  atGeometry : T;
  atFragment : T;
  atCompute : T
}.
Arguments mkPerStage {T}.
Arguments atVertex {T}.
Arguments atTessControl {T}.
Arguments atTessEvaluation {T}.
Arguments atGeometry {T}.
Arguments atFragment {T}.
Arguments atCompute {T}.

Definition idx {T : Type} (a : PerStage T) (s : ShaderStage) : T :=
  match s with
  | ShaderStageVertex => atVertex a
  | ShaderStageTessControl => atTessControl a
  | ShaderStageTessEvaluation => atTessEvaluation a
  | ShaderStageGeometry => atGeometry a
  | ShaderStageFragment => atFragment a
  | ShaderStageCompute => atCompute a
  end.

Definition upd {T : Type} (a : PerStage T) (s : ShaderStage) (v : T) : PerStage T :=
  match s with
  | ShaderStageVertex =>
      mkPerStage v (atTessControl a) (atTessEvaluation a) (atGeometry a) (atFragment a) (atCompute a)
  | ShaderStageTessControl =>
      mkPerStage (atVertex a) v (atTessEvaluation a) (atGeometry a) (atFragment a) (atCompute a)
  | ShaderStageTessEvaluation =>
      mkPerStage (atVertex a) (atTessControl a) v (atGeometry a) (atFragment a) (atCompute a)
  | ShaderStageGeometry =>
      mkPerStage (atVertex a) (atTessControl a) (atTessEvaluation a) v (atFragment a) (atCompute a)
  | ShaderStageFragment =>
      mkPerStage (atVertex a) (atTessControl a) (atTessEvaluation a) (atGeometry a) v (atCompute a)
  | ShaderStageCompute =>
      mkPerStage (atVertex a) (atTessControl a) (atTessEvaluation a) (atGeometry a) (atFragment a) v
  end.

Definition fill {T : Type} (v : T) : PerStage T := mkPerStage v v v v v v.

(** ** The pipeline key *)

Record ShaderHash : Type := mkShaderHash {
  lower : Z;
  upper : Z
}.

Module Key.
Record ShaderOptimizerKey : Type := mkShaderOptimizerKey {
  codeHash : ShaderHash;
  codeSize : Z
}.

Record PipelineOptimizerKey : Type := mkPipelineOptimizerKey {
  shaders : PerStage ShaderOptimizerKey
}.
End Key.
Export Key(ShaderOptimizerKey, PipelineOptimizerKey).

(** ** Patterns *)

(** Modelled from the spec: the bit-field layout of [ShaderProfilePattern::match]
    is declared in a header that is not among the sources.  The four tests are
    given the positions 0 to 3, in the order in which the matcher evaluates
    them; the remaining bits of [u32All] are reserved. *)
Module ShaderMatch.
Record t : Type := mk { u32All : Z }.

Definition bit_stageActive : Z := 0.
Definition bit_stageInactive : Z := 1.
Definition bit_codeHash : Z := 2.
Definition bit_codeSizeLessThan : Z := 3.

Definition stageActive (m : t) : bool := bf_get (u32All m) bit_stageActive.
Definition stageInactive (m : t) : bool := bf_get (u32All m) bit_stageInactive.
Definition codeHash (m : t) : bool := bf_get (u32All m) bit_codeHash.
Definition codeSizeLessThan (m : t) : bool := bf_get (u32All m) bit_codeSizeLessThan.

Definition set_codeHash (m : t) (b : bool) : t := mk (bf_set (u32All m) bit_codeHash b).
Definition set_codeSizeLessThan (m : t) (b : bool) : t :=
  mk (bf_set (u32All m) bit_codeSizeLessThan b).
End ShaderMatch.

(** Modelled from the spec: [PipelineProfilePattern::match] is a bit-field union
    as well, declared in the same missing header; [always] is its bit 0. *)
Module PipelineMatch.
Record t : Type := mk { u32All : Z }.

Definition bit_always : Z := 0.

Definition always (m : t) : bool := bf_get (u32All m) bit_always.
Definition set_always (m : t) (b : bool) : t := mk (bf_set (u32All m) bit_always b).
End PipelineMatch.

(** [match] is a keyword here: the member is [match_] in a stage pattern and
    [pmatch] in a pipeline pattern. *)
Module Pattern.
Record ShaderProfilePattern : Type := mkShaderProfilePattern {
  match_ : ShaderMatch.t;
  codeHash : ShaderHash;
  codeSizeLessThanValue : Z
}.

Record PipelineProfilePattern : Type := mkPipelineProfilePattern {
  pmatch : PipelineMatch.t;
  shaders : PerStage ShaderProfilePattern
}.
End Pattern.
Export Pattern(ShaderProfilePattern, PipelineProfilePattern).

(** ** The matcher: [ShaderOptimizer::ProfilePatternMatchesPipeline] *)

(** The conditions of the four [if]s of the stage loop; each one, when true,
    makes the function [return false]. *)

Definition stageActiveTestFails (shaderPattern : ShaderProfilePattern)
    (shaderKey : ShaderOptimizerKey) : bool :=
  ShaderMatch.stageActive (Pattern.match_ shaderPattern)
  && (Key.codeSize shaderKey =? 0).

Definition stageInactiveTestFails (shaderPattern : ShaderProfilePattern)
    (shaderKey : ShaderOptimizerKey) : bool :=
  ShaderMatch.stageInactive (Pattern.match_ shaderPattern)
  && negb (Key.codeSize shaderKey =? 0).

Definition codeHashTestFails (shaderPattern : ShaderProfilePattern)
    (shaderKey : ShaderOptimizerKey) : bool :=
  ShaderMatch.codeHash (Pattern.match_ shaderPattern)
  && (negb (lower (Pattern.codeHash shaderPattern) =? lower (Key.codeHash shaderKey))
      || negb (upper (Pattern.codeHash shaderPattern) =? upper (Key.codeHash shaderKey))).

Definition codeSizeLessThanTestFails (shaderPattern : ShaderProfilePattern)
    (shaderKey : ShaderOptimizerKey) : bool :=
  negb (Z.b2z (ShaderMatch.codeSizeLessThan (Pattern.match_ shaderPattern)) =? 0)
  && (Pattern.codeSizeLessThanValue shaderPattern >=? Key.codeSize shaderKey).

(** The body of the stage loop for one stage: [false] stands for
    [return false], [true] for falling through to the next iteration. *)
Definition stageBody (shaderPattern : ShaderProfilePattern)
    (shaderKey : ShaderOptimizerKey) : bool :=
  if negb (ShaderMatch.u32All (Pattern.match_ shaderPattern) =? 0) then
    if stageActiveTestFails shaderPattern shaderKey then false
    else if stageInactiveTestFails shaderPattern shaderKey then false
    else if codeHashTestFails shaderPattern shaderKey then false
    else if codeSizeLessThanTestFails shaderPattern shaderKey then false
    else true
  else true.

(** The stage loop over the remaining stages, ending in [return true]. *)
Fixpoint stageLoop (stages : list ShaderStage) (pattern : PipelineProfilePattern)
    (pipelineKey : PipelineOptimizerKey) : bool :=
  match stages with
  | [] => true
  | stage :: rest =>
      if stageBody (idx (Pattern.shaders pattern) stage) (idx (Key.shaders pipelineKey) stage)
      then stageLoop rest pattern pipelineKey
      else false
  end.

Definition ProfilePatternMatchesPipeline (pattern : PipelineProfilePattern)
    (pipelineKey : PipelineOptimizerKey) : bool :=
  if PipelineMatch.always (Pattern.pmatch pattern) then true
  else stageLoop allStages pattern pipelineKey.

(** The same function with a ghost trace: next to the result, the stages whose
    tests were evaluated (those for which the guard [u32All != 0] held), in the
    order of evaluation. *)
Fixpoint stageLoopTraced (stages : list ShaderStage) (pattern : PipelineProfilePattern)
    (pipelineKey : PipelineOptimizerKey) : bool * list ShaderStage :=
  match stages with
  | [] => (true, [])
  | stage :: rest =>
      let shaderPattern := idx (Pattern.shaders pattern) stage in
      let shaderKey := idx (Key.shaders pipelineKey) stage in
      if negb (ShaderMatch.u32All (Pattern.match_ shaderPattern) =? 0) then
        if stageBody shaderPattern shaderKey then
          let r := stageLoopTraced rest pattern pipelineKey in (fst r, stage :: snd r)
        else (false, [stage])
      else stageLoopTraced rest pattern pipelineKey
  end.

Definition ProfilePatternMatchesPipelineTraced (pattern : PipelineProfilePattern)
    (pipelineKey : PipelineOptimizerKey) : bool * list ShaderStage :=
  if PipelineMatch.always (Pattern.pmatch pattern) then (true, [])
  else stageLoopTraced allStages pattern pipelineKey.

(** ** Shader-create actions and the compiler's option structures *)

(** [ShaderTuningOptions]: the value payloads of a shader-create action (the
    members this file reads or writes). *)
Module Tuning.
Record ShaderTuningOptions : Type := mk {
  vgprLimit : Z;
  sgprLimit : Z;
  ldsSpillLimitDwords : Z;
  userDataSpillThreshold : Z;
  maxThreadGroupsPerComputeUnit : Z;
  waveSize : Z;
  waveBreakSize : Z;
  useSiScheduler : bool;
  reconfigWorkgroupLayout : bool;
  enableLoadScalarizer : bool;
  disableLicm : bool;
  forceLoopUnrollCount : Z;
  unrollThreshold : Z;
  fp32DenormalMode : Z
}.

Definition set_vgprLimit (v : Z) (o : ShaderTuningOptions) : ShaderTuningOptions :=
  mk v (sgprLimit o) (ldsSpillLimitDwords o) (userDataSpillThreshold o)
     (maxThreadGroupsPerComputeUnit o) (waveSize o) (waveBreakSize o) (useSiScheduler o)
     (reconfigWorkgroupLayout o) (enableLoadScalarizer o) (disableLicm o)
     (forceLoopUnrollCount o) (unrollThreshold o) (fp32DenormalMode o).
Definition set_ldsSpillLimitDwords (v : Z) (o : ShaderTuningOptions) : ShaderTuningOptions :=
  mk (vgprLimit o) (sgprLimit o) v (userDataSpillThreshold o)
     (maxThreadGroupsPerComputeUnit o) (waveSize o) (waveBreakSize o) (useSiScheduler o)
     (reconfigWorkgroupLayout o) (enableLoadScalarizer o) (disableLicm o)
     (forceLoopUnrollCount o) (unrollThreshold o) (fp32DenormalMode o).
Definition set_userDataSpillThreshold (v : Z) (o : ShaderTuningOptions) : ShaderTuningOptions :=
  mk (vgprLimit o) (sgprLimit o) (ldsSpillLimitDwords o) v
     (maxThreadGroupsPerComputeUnit o) (waveSize o) (waveBreakSize o) (useSiScheduler o)
     (reconfigWorkgroupLayout o) (enableLoadScalarizer o) (disableLicm o)
     (forceLoopUnrollCount o) (unrollThreshold o) (fp32DenormalMode o).
Definition set_useSiScheduler (v : bool) (o : ShaderTuningOptions) : ShaderTuningOptions :=
  mk (vgprLimit o) (sgprLimit o) (ldsSpillLimitDwords o) (userDataSpillThreshold o)
     (maxThreadGroupsPerComputeUnit o) (waveSize o) (waveBreakSize o) v
     (reconfigWorkgroupLayout o) (enableLoadScalarizer o) (disableLicm o)
     (forceLoopUnrollCount o) (unrollThreshold o) (fp32DenormalMode o).
Definition set_reconfigWorkgroupLayout (v : bool) (o : ShaderTuningOptions) : ShaderTuningOptions :=
  mk (vgprLimit o) (sgprLimit o) (ldsSpillLimitDwords o) (userDataSpillThreshold o)
     (maxThreadGroupsPerComputeUnit o) (waveSize o) (waveBreakSize o) (useSiScheduler o) v
     (enableLoadScalarizer o) (disableLicm o) (forceLoopUnrollCount o) (unrollThreshold o)
     (fp32DenormalMode o).
Definition set_disableLicm (v : bool) (o : ShaderTuningOptions) : ShaderTuningOptions :=
  mk (vgprLimit o) (sgprLimit o) (ldsSpillLimitDwords o) (userDataSpillThreshold o)
     (maxThreadGroupsPerComputeUnit o) (waveSize o) (waveBreakSize o) (useSiScheduler o)
     (reconfigWorkgroupLayout o) (enableLoadScalarizer o) v (forceLoopUnrollCount o)
     (unrollThreshold o) (fp32DenormalMode o).
Definition set_enableLoadScalarizer (v : bool) (o : ShaderTuningOptions) : ShaderTuningOptions :=
  mk (vgprLimit o) (sgprLimit o) (ldsSpillLimitDwords o) (userDataSpillThreshold o)
     (maxThreadGroupsPerComputeUnit o) (waveSize o) (waveBreakSize o) (useSiScheduler o)
     (reconfigWorkgroupLayout o) v (disableLicm o) (forceLoopUnrollCount o)
     (unrollThreshold o) (fp32DenormalMode o).
Definition set_waveSize (v : Z) (o : ShaderTuningOptions) : ShaderTuningOptions :=
  mk (vgprLimit o) (sgprLimit o) (ldsSpillLimitDwords o) (userDataSpillThreshold o)
     (maxThreadGroupsPerComputeUnit o) v (waveBreakSize o) (useSiScheduler o)
     (reconfigWorkgroupLayout o) (enableLoadScalarizer o) (disableLicm o)
     (forceLoopUnrollCount o) (unrollThreshold o) (fp32DenormalMode o).
End Tuning.

(** Modelled from the spec: the apply bit-field of [shaderCreate] is declared in
    a header that is not among the sources.  Every apply bit this file names
    gets a position of its own; the functions below depend on the positions
    only through their being pairwise distinct. *)
Module CreateApply.
Record t : Type := mk { u32All : Z }.

Definition bit_vgprLimit : Z := 0.
Definition bit_sgprLimit : Z := 1.
Definition bit_ldsSpillLimitDwords : Z := 2.
Definition bit_userDataSpillThreshold : Z := 3.
Definition bit_maxThreadGroupsPerComputeUnit : Z := 4.
Definition bit_debugMode : Z := 5.
Definition bit_trapPresent : Z := 6.
Definition bit_allowReZ : Z := 7.
Definition bit_disableLoopUnrolls : Z := 8.
Definition bit_enableSelectiveInline : Z := 9.
Definition bit_fp32DenormalMode : Z := 10.
Definition bit_waveSize : Z := 11.
Definition bit_wgpMode : Z := 12.
Definition bit_waveBreakSize : Z := 13.
Definition bit_nggDisable : Z := 14.
Definition bit_nggFasterLaunchRate : Z := 15.
Definition bit_nggVertexReuse : Z := 16.
Definition bit_nggEnableFrustumCulling : Z := 17.
Definition bit_nggEnableBoxFilterCulling : Z := 18.
Definition bit_nggEnableSphereCulling : Z := 19.
Definition bit_nggEnableBackfaceCulling : Z := 20.
Definition bit_nggEnableSmallPrimFilter : Z := 21.
Definition bit_enableSubvector : Z := 22.

Definition vgprLimit (m : t) : bool := bf_get (u32All m) bit_vgprLimit.
Definition sgprLimit (m : t) : bool := bf_get (u32All m) bit_sgprLimit.
Definition ldsSpillLimitDwords (m : t) : bool := bf_get (u32All m) bit_ldsSpillLimitDwords.
Definition userDataSpillThreshold (m : t) : bool := bf_get (u32All m) bit_userDataSpillThreshold.
Definition maxThreadGroupsPerComputeUnit (m : t) : bool := bf_get (u32All m) bit_maxThreadGroupsPerComputeUnit.
Definition debugMode (m : t) : bool := bf_get (u32All m) bit_debugMode.
Definition trapPresent (m : t) : bool := bf_get (u32All m) bit_trapPresent.
Definition allowReZ (m : t) : bool := bf_get (u32All m) bit_allowReZ.
Definition disableLoopUnrolls (m : t) : bool := bf_get (u32All m) bit_disableLoopUnrolls.
Definition enableSelectiveInline (m : t) : bool := bf_get (u32All m) bit_enableSelectiveInline.
Definition fp32DenormalMode (m : t) : bool := bf_get (u32All m) bit_fp32DenormalMode.
Definition waveSize (m : t) : bool := bf_get (u32All m) bit_waveSize.
Definition wgpMode (m : t) : bool := bf_get (u32All m) bit_wgpMode.
Definition waveBreakSize (m : t) : bool := bf_get (u32All m) bit_waveBreakSize.
Definition nggDisable (m : t) : bool := bf_get (u32All m) bit_nggDisable.
Definition nggFasterLaunchRate (m : t) : bool := bf_get (u32All m) bit_nggFasterLaunchRate.
Definition nggVertexReuse (m : t) : bool := bf_get (u32All m) bit_nggVertexReuse.
Definition nggEnableFrustumCulling (m : t) : bool := bf_get (u32All m) bit_nggEnableFrustumCulling.
Definition nggEnableBoxFilterCulling (m : t) : bool := bf_get (u32All m) bit_nggEnableBoxFilterCulling.
Definition nggEnableSphereCulling (m : t) : bool := bf_get (u32All m) bit_nggEnableSphereCulling.
Definition nggEnableBackfaceCulling (m : t) : bool := bf_get (u32All m) bit_nggEnableBackfaceCulling.
Definition nggEnableSmallPrimFilter (m : t) : bool := bf_get (u32All m) bit_nggEnableSmallPrimFilter.
Definition enableSubvector (m : t) : bool := bf_get (u32All m) bit_enableSubvector.

Definition set_vgprLimit (m : t) (b : bool) : t :=
  mk (bf_set (u32All m) bit_vgprLimit b).
Definition set_ldsSpillLimitDwords (m : t) (b : bool) : t :=
  mk (bf_set (u32All m) bit_ldsSpillLimitDwords b).
Definition set_userDataSpillThreshold (m : t) (b : bool) : t :=
  mk (bf_set (u32All m) bit_userDataSpillThreshold b).
Definition set_allowReZ (m : t) (b : bool) : t :=
  mk (bf_set (u32All m) bit_allowReZ b).
Definition set_enableSelectiveInline (m : t) (b : bool) : t :=
  mk (bf_set (u32All m) bit_enableSelectiveInline b).
Definition set_disableLoopUnrolls (m : t) (b : bool) : t :=
  mk (bf_set (u32All m) bit_disableLoopUnrolls b).
Definition set_waveSize (m : t) (b : bool) : t :=
  mk (bf_set (u32All m) bit_waveSize b).
Definition set_wgpMode (m : t) (b : bool) : t :=
  mk (bf_set (u32All m) bit_wgpMode b).
Definition set_nggDisable (m : t) (b : bool) : t :=
  mk (bf_set (u32All m) bit_nggDisable b).
Definition set_enableSubvector (m : t) (b : bool) : t :=
  mk (bf_set (u32All m) bit_enableSubvector b).
End CreateApply.

(** The compiler's per-shader options ([options.pOptions] points to one): the
    members [ApplyProfileToShaderCreateInfo] writes. *)
Module Options.
Record PipelineShaderOptions : Type := mk {
  vgprLimit : Z;
  sgprLimit : Z;
  maxThreadGroupsPerComputeUnit : Z;
  debugMode : bool;
  trapPresent : bool;
  allowReZ : bool;
  disableLoopUnroll : bool;
  useSiScheduler : bool;
  enableLoadScalarizer : bool;
  forceLoopUnrollCount : Z;
  disableLicm : bool;
  unrollThreshold : Z;
  fp32DenormalMode : Z;
  waveSize : Z;
  wgpMode : bool;
  waveBreakSize : Z
}.

Definition set_vgprLimit (v : Z) (o : PipelineShaderOptions) : PipelineShaderOptions :=
  mk v (sgprLimit o) (maxThreadGroupsPerComputeUnit o) (debugMode o) (trapPresent o)
     (allowReZ o) (disableLoopUnroll o) (useSiScheduler o) (enableLoadScalarizer o)
     (forceLoopUnrollCount o) (disableLicm o) (unrollThreshold o) (fp32DenormalMode o)
     (waveSize o) (wgpMode o) (waveBreakSize o).
Definition set_sgprLimit (v : Z) (o : PipelineShaderOptions) : PipelineShaderOptions :=
  mk (vgprLimit o) v (maxThreadGroupsPerComputeUnit o) (debugMode o) (trapPresent o)
     (allowReZ o) (disableLoopUnroll o) (useSiScheduler o) (enableLoadScalarizer o)
     (forceLoopUnrollCount o) (disableLicm o) (unrollThreshold o) (fp32DenormalMode o)
     (waveSize o) (wgpMode o) (waveBreakSize o).
Definition set_maxThreadGroupsPerComputeUnit (v : Z) (o : PipelineShaderOptions) : PipelineShaderOptions :=
  mk (vgprLimit o) (sgprLimit o) v (debugMode o) (trapPresent o) (allowReZ o)
     (disableLoopUnroll o) (useSiScheduler o) (enableLoadScalarizer o)
     (forceLoopUnrollCount o) (disableLicm o) (unrollThreshold o) (fp32DenormalMode o)
     (waveSize o) (wgpMode o) (waveBreakSize o).
Definition set_debugMode (v : bool) (o : PipelineShaderOptions) : PipelineShaderOptions :=
  mk (vgprLimit o) (sgprLimit o) (maxThreadGroupsPerComputeUnit o) v (trapPresent o)
     (allowReZ o) (disableLoopUnroll o) (useSiScheduler o) (enableLoadScalarizer o)
     (forceLoopUnrollCount o) (disableLicm o) (unrollThreshold o) (fp32DenormalMode o)
     (waveSize o) (wgpMode o) (waveBreakSize o).
Definition set_trapPresent (v : bool) (o : PipelineShaderOptions) : PipelineShaderOptions :=
  mk (vgprLimit o) (sgprLimit o) (maxThreadGroupsPerComputeUnit o) (debugMode o) v
     (allowReZ o) (disableLoopUnroll o) (useSiScheduler o) (enableLoadScalarizer o)
     (forceLoopUnrollCount o) (disableLicm o) (unrollThreshold o) (fp32DenormalMode o)
     (waveSize o) (wgpMode o) (waveBreakSize o).
Definition set_allowReZ (v : bool) (o : PipelineShaderOptions) : PipelineShaderOptions :=
  mk (vgprLimit o) (sgprLimit o) (maxThreadGroupsPerComputeUnit o) (debugMode o)
     (trapPresent o) v (disableLoopUnroll o) (useSiScheduler o) (enableLoadScalarizer o)
     (forceLoopUnrollCount o) (disableLicm o) (unrollThreshold o) (fp32DenormalMode o)
     (waveSize o) (wgpMode o) (waveBreakSize o).
Definition set_disableLoopUnroll (v : bool) (o : PipelineShaderOptions) : PipelineShaderOptions :=
  mk (vgprLimit o) (sgprLimit o) (maxThreadGroupsPerComputeUnit o) (debugMode o)
     (trapPresent o) (allowReZ o) v (useSiScheduler o) (enableLoadScalarizer o)
     (forceLoopUnrollCount o) (disableLicm o) (unrollThreshold o) (fp32DenormalMode o)
     (waveSize o) (wgpMode o) (waveBreakSize o).
Definition set_useSiScheduler (v : bool) (o : PipelineShaderOptions) : PipelineShaderOptions :=
  mk (vgprLimit o) (sgprLimit o) (maxThreadGroupsPerComputeUnit o) (debugMode o)
     (trapPresent o) (allowReZ o) (disableLoopUnroll o) v (enableLoadScalarizer o)
     (forceLoopUnrollCount o) (disableLicm o) (unrollThreshold o) (fp32DenormalMode o)
     (waveSize o) (wgpMode o) (waveBreakSize o).
Definition set_enableLoadScalarizer (v : bool) (o : PipelineShaderOptions) : PipelineShaderOptions :=
  mk (vgprLimit o) (sgprLimit o) (maxThreadGroupsPerComputeUnit o) (debugMode o)
     (trapPresent o) (allowReZ o) (disableLoopUnroll o) (useSiScheduler o) v
     (forceLoopUnrollCount o) (disableLicm o) (unrollThreshold o) (fp32DenormalMode o)
     (waveSize o) (wgpMode o) (waveBreakSize o).
Definition set_forceLoopUnrollCount (v : Z) (o : PipelineShaderOptions) : PipelineShaderOptions :=
  mk (vgprLimit o) (sgprLimit o) (maxThreadGroupsPerComputeUnit o) (debugMode o)
     (trapPresent o) (allowReZ o) (disableLoopUnroll o) (useSiScheduler o)
     (enableLoadScalarizer o) v (disableLicm o) (unrollThreshold o) (fp32DenormalMode o)
     (waveSize o) (wgpMode o) (waveBreakSize o).
Definition set_disableLicm (v : bool) (o : PipelineShaderOptions) : PipelineShaderOptions :=
  mk (vgprLimit o) (sgprLimit o) (maxThreadGroupsPerComputeUnit o) (debugMode o)
     (trapPresent o) (allowReZ o) (disableLoopUnroll o) (useSiScheduler o)
     (enableLoadScalarizer o) (forceLoopUnrollCount o) v (unrollThreshold o)
     (fp32DenormalMode o) (waveSize o) (wgpMode o) (waveBreakSize o).
Definition set_unrollThreshold (v : Z) (o : PipelineShaderOptions) : PipelineShaderOptions :=
  mk (vgprLimit o) (sgprLimit o) (maxThreadGroupsPerComputeUnit o) (debugMode o)
     (trapPresent o) (allowReZ o) (disableLoopUnroll o) (useSiScheduler o)
     (enableLoadScalarizer o) (forceLoopUnrollCount o) (disableLicm o) v
     (fp32DenormalMode o) (waveSize o) (wgpMode o) (waveBreakSize o).
Definition set_fp32DenormalMode (v : Z) (o : PipelineShaderOptions) : PipelineShaderOptions :=
  mk (vgprLimit o) (sgprLimit o) (maxThreadGroupsPerComputeUnit o) (debugMode o)
     (trapPresent o) (allowReZ o) (disableLoopUnroll o) (useSiScheduler o)
     (enableLoadScalarizer o) (forceLoopUnrollCount o) (disableLicm o) (unrollThreshold o)
     v (waveSize o) (wgpMode o) (waveBreakSize o).
Definition set_waveSize (v : Z) (o : PipelineShaderOptions) : PipelineShaderOptions :=
  mk (vgprLimit o) (sgprLimit o) (maxThreadGroupsPerComputeUnit o) (debugMode o)
     (trapPresent o) (allowReZ o) (disableLoopUnroll o) (useSiScheduler o)
     (enableLoadScalarizer o) (forceLoopUnrollCount o) (disableLicm o) (unrollThreshold o)
     (fp32DenormalMode o) v (wgpMode o) (waveBreakSize o).
Definition set_wgpMode (v : bool) (o : PipelineShaderOptions) : PipelineShaderOptions :=
  mk (vgprLimit o) (sgprLimit o) (maxThreadGroupsPerComputeUnit o) (debugMode o)
     (trapPresent o) (allowReZ o) (disableLoopUnroll o) (useSiScheduler o)
     (enableLoadScalarizer o) (forceLoopUnrollCount o) (disableLicm o) (unrollThreshold o)
     (fp32DenormalMode o) (waveSize o) v (waveBreakSize o).
Definition set_waveBreakSize (v : Z) (o : PipelineShaderOptions) : PipelineShaderOptions :=
  mk (vgprLimit o) (sgprLimit o) (maxThreadGroupsPerComputeUnit o) (debugMode o)
     (trapPresent o) (allowReZ o) (disableLoopUnroll o) (useSiScheduler o)
     (enableLoadScalarizer o) (forceLoopUnrollCount o) (disableLicm o) (unrollThreshold o)
     (fp32DenormalMode o) (waveSize o) (wgpMode o) v.
End Options.

(** The compiler's NGG state ([options.pNggState] points to one). *)
Module Ngg.
Record NggState : Type := mk {
  enableNgg : bool;
  enableFastLaunch : bool;
  enableVertexReuse : bool;
  enableFrustumCulling : bool;
  enableBoxFilterCulling : bool;
  enableSphereCulling : bool;
  enableBackfaceCulling : bool;
  enableSmallPrimFilter : bool
}.

Definition set_enableNgg (v : bool) (o : NggState) : NggState :=
  mk v (enableFastLaunch o) (enableVertexReuse o) (enableFrustumCulling o)
     (enableBoxFilterCulling o) (enableSphereCulling o) (enableBackfaceCulling o)
     (enableSmallPrimFilter o).
Definition set_enableFastLaunch (v : bool) (o : NggState) : NggState :=
  mk (enableNgg o) v (enableVertexReuse o) (enableFrustumCulling o)
     (enableBoxFilterCulling o) (enableSphereCulling o) (enableBackfaceCulling o)
     (enableSmallPrimFilter o).
Definition set_enableVertexReuse (v : bool) (o : NggState) : NggState :=
  mk (enableNgg o) (enableFastLaunch o) v (enableFrustumCulling o)
     (enableBoxFilterCulling o) (enableSphereCulling o) (enableBackfaceCulling o)
     (enableSmallPrimFilter o).
Definition set_enableFrustumCulling (v : bool) (o : NggState) : NggState :=
  mk (enableNgg o) (enableFastLaunch o) (enableVertexReuse o) v (enableBoxFilterCulling o)
     (enableSphereCulling o) (enableBackfaceCulling o) (enableSmallPrimFilter o).
Definition set_enableBoxFilterCulling (v : bool) (o : NggState) : NggState :=
  mk (enableNgg o) (enableFastLaunch o) (enableVertexReuse o) (enableFrustumCulling o) v
     (enableSphereCulling o) (enableBackfaceCulling o) (enableSmallPrimFilter o).
Definition set_enableSphereCulling (v : bool) (o : NggState) : NggState :=
  mk (enableNgg o) (enableFastLaunch o) (enableVertexReuse o) (enableFrustumCulling o)
     (enableBoxFilterCulling o) v (enableBackfaceCulling o) (enableSmallPrimFilter o).
Definition set_enableBackfaceCulling (v : bool) (o : NggState) : NggState :=
  mk (enableNgg o) (enableFastLaunch o) (enableVertexReuse o) (enableFrustumCulling o)
     (enableBoxFilterCulling o) (enableSphereCulling o) v (enableSmallPrimFilter o).
Definition set_enableSmallPrimFilter (v : bool) (o : NggState) : NggState :=
  mk (enableNgg o) (enableFastLaunch o) (enableVertexReuse o) (enableFrustumCulling o)
     (enableBoxFilterCulling o) (enableSphereCulling o) (enableBackfaceCulling o) v.
End Ngg.

(** ** Actions, profile entries and profiles *)

(** Modelled from the spec: the apply bit-field of [dynamicShaderInfo], declared
    in the missing header; one position per bit this file names. *)
Module DynApply.
Record t : Type := mk { u32All : Z }.

Definition bit_maxWavesPerCu : Z := 0.
Definition bit_cuEnableMask : Z := 1.
Definition bit_maxThreadGroupsPerCu : Z := 2.

Definition maxWavesPerCu (m : t) : bool := bf_get (u32All m) bit_maxWavesPerCu.
Definition cuEnableMask (m : t) : bool := bf_get (u32All m) bit_cuEnableMask.
Definition maxThreadGroupsPerCu (m : t) : bool := bf_get (u32All m) bit_maxThreadGroupsPerCu.

Definition set_maxWavesPerCu (m : t) (b : bool) : t :=
  mk (bf_set (u32All m) bit_maxWavesPerCu b).
Definition set_maxThreadGroupsPerCu (m : t) (b : bool) : t :=
  mk (bf_set (u32All m) bit_maxThreadGroupsPerCu b).
End DynApply.

Module DynamicShaderInfo.
Record t : Type := mk {
  apply : DynApply.t;
  maxWavesPerCu : Z;
  cuEnableMask : Z;
  maxThreadGroupsPerCu : Z
}.
End DynamicShaderInfo.

Module ShaderCreate.
Record t : Type := mk {
  apply : CreateApply.t;
  tuningOptions : Tuning.ShaderTuningOptions
}.
End ShaderCreate.

Record ShaderProfileAction : Type := mkShaderProfileAction {
  dynamicShaderInfo : DynamicShaderInfo.t;
  shaderCreate : ShaderCreate.t
}.

(** [Pal::BinningOverride]; [Default] is its zero value. *)
Inductive BinningOverride : Type :=
  | BinningOverride_Default
  | BinningOverride_Disable
  | BinningOverride_Enable.

(** Modelled from the spec: the apply bit-field of the pipeline-level action
    [createInfo], declared in the missing header. *)
Module CreateInfoApply.
Record t : Type := mk { u32All : Z }.

Definition bit_lateAllocVsLimit : Z := 0.
Definition bit_binningOverride : Z := 1.

Definition lateAllocVsLimit (m : t) : bool := bf_get (u32All m) bit_lateAllocVsLimit.
Definition binningOverride (m : t) : bool := bf_get (u32All m) bit_binningOverride.

Definition set_binningOverride (m : t) (b : bool) : t :=
  mk (bf_set (u32All m) bit_binningOverride b).
End CreateInfoApply.

Module CreateInfo.
Record t : Type := mk {
  apply : CreateInfoApply.t;
  lateAllocVsLimit : Z;
  binningOverride : BinningOverride
}.
End CreateInfo.

Module Action.
Record PipelineProfileAction : Type := mk {
  shaders : PerStage ShaderProfileAction;
  createInfo : CreateInfo.t
}.
End Action.
Export Action(PipelineProfileAction).

Record PipelineProfileEntry : Type := mkPipelineProfileEntry {
  pattern : PipelineProfilePattern;
  action : PipelineProfileAction
}.

(** A profile: the number of entries in use, the capacity of the backing
    array, and the array itself ([None] when the allocation failed). *)
Record PipelineProfile : Type := mkPipelineProfile {
  entryCount : nat;
  entryCapacity : nat;
  pEntries : option (list PipelineProfileEntry)
}.

(** [profile.pEntries[entry]]: undefined for a null array or an index outside
    the allocated block. *)
Definition entryAt (profile : PipelineProfile) (entry : nat) : option PipelineProfileEntry :=
  match pEntries profile with
  | Some block => nth_error block entry
  | None => None
  end.

(** The value [memset(p, 0, n)] leaves in each structure. *)
Definition zeroShaderProfilePattern : ShaderProfilePattern :=
  Pattern.mkShaderProfilePattern (ShaderMatch.mk 0) (mkShaderHash 0 0) 0.

Definition zeroShaderTuningOptions : Tuning.ShaderTuningOptions :=
  Tuning.mk 0 0 0 0 0 0 0 false false false false 0 0 0.

Definition zeroShaderProfileAction : ShaderProfileAction :=
  mkShaderProfileAction
    (DynamicShaderInfo.mk (DynApply.mk 0) 0 0 0)
    (ShaderCreate.mk (CreateApply.mk 0) zeroShaderTuningOptions).

Definition zeroPipelineProfileEntry : PipelineProfileEntry :=
  mkPipelineProfileEntry
    (Pattern.mkPipelineProfilePattern (PipelineMatch.mk 0) (fill zeroShaderProfilePattern))
    (Action.mk (fill zeroShaderProfileAction)
               (CreateInfo.mk (CreateInfoApply.mk 0) 0 BinningOverride_Default)).

(** ** Mutation of caller-owned state

    A statement is a partial state transformer: [None] is undefined behaviour
    (a null dereference or an access outside an array). *)

Definition Update (St : Type) : Type := St -> option St.

Definition skip {St : Type} : Update St := fun s => Some s.

Definition andThen {St : Type} (a b : Update St) : Update St :=
  fun s => match a s with
           | Some s' => b s'
           | None => None
           end.

Notation "a ;; b" := (andThen a b) (at level 61, right associativity).

Definition when {St : Type} (c : bool) (a : Update St) : Update St :=
  if c then a else skip.

(** [for (uint32_t entry = first; entry < first + count; ++entry) body(entry)] *)
Fixpoint forEntries {St : Type} (count : nat) (entry : nat) (body : nat -> Update St)
    : Update St :=
  match count with
  | O => skip
  | S n => body entry ;; forEntries n (S entry) body
  end.

(** ** The target of the shader-stage pass *)

(** The compiler's pipeline options ([options.pPipelineOptions]). *)
Record PipelineOptions : Type := mkPipelineOptions {
  reconfigWorkgroupLayout : bool
}.

(** [PipelineShaderOptionsPtr]: three pointers into the create-info under
    construction, passed by value; the pointees are what the pass mutates. *)
Record PipelineShaderOptionsPtr : Type := mkPipelineShaderOptionsPtr {
  pPipelineOptions : option PipelineOptions;
  pOptions : option Options.PipelineShaderOptions;
  pNggState : option Ngg.NggState
}.

(** [options.pOptions->m = ...], with the member update [f]. *)
Definition via_pOptions (f : Options.PipelineShaderOptions -> Options.PipelineShaderOptions)
    : Update PipelineShaderOptionsPtr :=
  fun options =>
    match pOptions options with
    | Some o => Some (mkPipelineShaderOptionsPtr
                        (pPipelineOptions options) (Some (f o)) (pNggState options))
    | None => None
    end.

(** [options.pPipelineOptions->m = ...] *)
Definition via_pPipelineOptions (f : PipelineOptions -> PipelineOptions)
    : Update PipelineShaderOptionsPtr :=
  fun options =>
    match pPipelineOptions options with
    | Some o => Some (mkPipelineShaderOptionsPtr
                        (Some (f o)) (pOptions options) (pNggState options))
    | None => None
    end.

(** [options.pNggState->m = ...] *)
Definition via_pNggState (f : Ngg.NggState -> Ngg.NggState)
    : Update PipelineShaderOptionsPtr :=
  fun options =>
    match pNggState options with
    | Some o => Some (mkPipelineShaderOptionsPtr
                        (pPipelineOptions options) (pOptions options) (Some (f o)))
    | None => None
    end.

(** ** [ShaderOptimizer::ApplyProfileToShaderCreateInfo] *)

(** The statements guarded by [options.pOptions != nullptr], in source order. *)
Definition applyShaderCreate (cfg : BuildConfig) (shaderCreate : ShaderCreate.t)
    : Update PipelineShaderOptionsPtr :=
  let apply := ShaderCreate.apply shaderCreate in
  let tuningOptions := ShaderCreate.tuningOptions shaderCreate in
  when (CreateApply.vgprLimit apply)
    (via_pOptions (Options.set_vgprLimit (Tuning.vgprLimit tuningOptions))) ;;
  when (CreateApply.sgprLimit apply)
    (via_pOptions (Options.set_sgprLimit (Tuning.sgprLimit tuningOptions))) ;;
  when (CreateApply.maxThreadGroupsPerComputeUnit apply)
    (via_pOptions (Options.set_maxThreadGroupsPerComputeUnit
                     (Tuning.maxThreadGroupsPerComputeUnit tuningOptions))) ;;
  when (CreateApply.debugMode apply)
    (via_pOptions (Options.set_debugMode true)) ;;
  when (CreateApply.trapPresent apply)
    (via_pOptions (Options.set_trapPresent true)) ;;
  when (CreateApply.allowReZ apply)
    (via_pOptions (Options.set_allowReZ true)) ;;
  when (CreateApply.disableLoopUnrolls apply)
    (via_pOptions (Options.set_disableLoopUnroll true)) ;;
  when (Tuning.useSiScheduler tuningOptions)
    (via_pOptions (Options.set_useSiScheduler true)) ;;
  when (Tuning.reconfigWorkgroupLayout tuningOptions)
    (via_pPipelineOptions (fun _ => mkPipelineOptions true)) ;;
  when (Tuning.enableLoadScalarizer tuningOptions)
    (via_pOptions (Options.set_enableLoadScalarizer true)) ;;
  when (negb (Tuning.forceLoopUnrollCount tuningOptions =? 0))
    (via_pOptions (Options.set_forceLoopUnrollCount
                     (Tuning.forceLoopUnrollCount tuningOptions))) ;;
  when (Tuning.disableLicm tuningOptions)
    (via_pOptions (Options.set_disableLicm true)) ;;
  when (negb (Tuning.unrollThreshold tuningOptions =? 0))
    (via_pOptions (Options.set_unrollThreshold (Tuning.unrollThreshold tuningOptions))) ;;
  when (CreateApply.fp32DenormalMode apply)
    (via_pOptions (Options.set_fp32DenormalMode (Tuning.fp32DenormalMode tuningOptions))) ;;
  when (CreateApply.waveSize apply)
    (via_pOptions (Options.set_waveSize (Tuning.waveSize tuningOptions))) ;;
  when (CreateApply.wgpMode apply)
    (via_pOptions (Options.set_wgpMode true)) ;;
  when (CreateApply.waveBreakSize apply)
    (via_pOptions (Options.set_waveBreakSize (Tuning.waveBreakSize tuningOptions))) ;;
  when (CreateApply.nggDisable apply)
    (via_pNggState (Ngg.set_enableNgg false)) ;;
  (if LLPC_CLIENT_INTERFACE_MAJOR_VERSION cfg <? 45
   then when (CreateApply.nggFasterLaunchRate apply)
          (via_pNggState (Ngg.set_enableFastLaunch true))
   else skip) ;;
  when (CreateApply.nggVertexReuse apply)
    (via_pNggState (Ngg.set_enableVertexReuse true)) ;;
  when (CreateApply.nggEnableFrustumCulling apply)
    (via_pNggState (Ngg.set_enableFrustumCulling true)) ;;
  when (CreateApply.nggEnableBoxFilterCulling apply)
    (via_pNggState (Ngg.set_enableBoxFilterCulling true)) ;;
  when (CreateApply.nggEnableSphereCulling apply)
    (via_pNggState (Ngg.set_enableSphereCulling true)) ;;
  when (CreateApply.nggEnableBackfaceCulling apply)
    (via_pNggState (Ngg.set_enableBackfaceCulling true)) ;;
  when (CreateApply.nggEnableSmallPrimFilter apply)
    (via_pNggState (Ngg.set_enableSmallPrimFilter true)).

(** What one profile entry does to the options: the body of the entry loop
    once [profileEntry] is bound. *)
Definition applyEntryToShaderCreateInfo (cfg : BuildConfig)
    (profileEntry : PipelineProfileEntry) (pipelineKey : PipelineOptimizerKey)
    (shaderStage : ShaderStage) : Update PipelineShaderOptionsPtr :=
  fun options =>
    if ProfilePatternMatchesPipeline (pattern profileEntry) pipelineKey then
      let shaderCreate :=
        shaderCreate (idx (Action.shaders (action profileEntry)) shaderStage) in
      match pOptions options with
      | Some _ => applyShaderCreate cfg shaderCreate options
      | None => Some options
      end
    else Some options.

Definition ApplyProfileToShaderCreateInfo (cfg : BuildConfig) (profile : PipelineProfile)
    (pipelineKey : PipelineOptimizerKey) (shaderStage : ShaderStage)
    : Update PipelineShaderOptionsPtr :=
  forEntries (entryCount profile) 0
    (fun entry options =>
       match entryAt profile entry with
       | Some profileEntry =>
           applyEntryToShaderCreateInfo cfg profileEntry pipelineKey shaderStage options
       | None => None
       end).

(** ** The optimizer object *)

(** Enumerated settings.  The [default:] arms of the switches over the first
    two ([VK_NEVER_CALLED]) have no value of these types to run on. *)
Inductive ShaderWaveSize : Type := WaveSizeAuto | WaveSize64 | WaveSize32.

Inductive WgpMode : Type := WgpModeAuto | WgpModeCu | WgpModeWgp.

(** [PipelineBinningModeOther] is any value of the setting that is none of the
    three enumerators: the [default:] arm of the switch over it stores a
    value, so the arm is kept. *)
Inductive PipelineBinningMode : Type :=
  | PipelineBinningModeDefault
  | PipelineBinningModeEnable
  | PipelineBinningModeDisable
  | PipelineBinningModeOther.

(** The runtime settings this file reads. *)
Record RuntimeSettings : Type := mkRuntimeSettings {
  overrideShaderParams : bool;
  overrideShaderHashLower : Z;
  overrideShaderHashUpper : Z;
  overrideShaderStage : Z;
  overrideNumVGPRsAvailable : Z;
  overrideMaxLdsSpillDwords : Z;
  overrideUserDataSpillThreshold : bool;
  overrideAllowReZ : bool;
  overrideEnableSelectiveInline : bool;
  overrideDisableLoopUnrolls : bool;
  overrideUseSiScheduler : bool;
  overrideReconfigWorkgroupLayout : bool;
  overrideDisableLicm : bool;
  overrideEnableLoadScalarizer : bool;
  overrideWaveSize : ShaderWaveSize;
  overrideWgpMode : WgpMode;
  overrideUseNgg : bool;
  overrideEnableSubvector : bool;
  overrideWavesPerCu : Z;
  overrideCsTgPerCu : Z;
  overrideUsePbbPerCrc : PipelineBinningMode;
  pipelineProfileDbgPrintProfileMatch : bool
}.

Record ShaderOptimizer : Type := mkShaderOptimizer {
  m_settings : RuntimeSettings;
  m_appProfile : PipelineProfile;
  m_tuningProfile : PipelineProfile;
  m_runtimeProfile : PipelineProfile
}.

(** ** [ShaderOptimizer::OverrideShaderCreateInfo] *)

Definition OverrideShaderCreateInfo (cfg : BuildConfig) (this : ShaderOptimizer)
    (pipelineKey : PipelineOptimizerKey) (shaderStage : ShaderStage)
    : Update PipelineShaderOptionsPtr :=
  ApplyProfileToShaderCreateInfo cfg (m_appProfile this) pipelineKey shaderStage ;;
  ApplyProfileToShaderCreateInfo cfg (m_tuningProfile this) pipelineKey shaderStage ;;
  (if ICD_RUNTIME_APP_PROFILE cfg
   then ApplyProfileToShaderCreateInfo cfg (m_runtimeProfile this) pipelineKey shaderStage
   else skip).

(** ** The compute pass *)

(** A [const PipelineProfile&] argument that [PrintProfileEntryMatch] compares
    by address: the member of the optimizer it refers to. *)
Inductive ProfileMember : Type :=
  | member_appProfile
  | member_tuningProfile
  | member_runtimeProfile.

Definition profileOf (this : ShaderOptimizer) (profile : ProfileMember) : PipelineProfile :=
  match profile with
  | member_appProfile => m_appProfile this
  | member_tuningProfile => m_tuningProfile this
  | member_runtimeProfile => m_runtimeProfile this
  end.

(** What the diagnostic path emits: the arguments of each [DbgPrintf], and a
    marker for a [VK_NEVER_CALLED] that was reached. *)
Inductive DbgLine : Type :=
  | DbgEntryTriggered (pProfile : string) (index : nat)
  | DbgStage (pStage : string) (hashUpper hashLower codeSize : Z)
  | DbgNeverCalled.

Definition stageLabel (stageIdx : ShaderStage) : string :=
  match stageIdx with
  | ShaderStageVertex => "VS"%string
  | ShaderStageTessControl => "HS"%string
  | ShaderStageTessEvaluation => "DS"%string
  | ShaderStageGeometry => "GS"%string
  | ShaderStageFragment => "PS"%string
  | ShaderStageCompute => "CS"%string
  end.

(** [ShaderOptimizer::PrintProfileEntryMatch]: the lines it prints. *)
Definition PrintProfileEntryMatch (cfg : BuildConfig) (profile : ProfileMember)
    (index : nat) (key : PipelineOptimizerKey) : list DbgLine :=
  let named :=
    match profile with
    | member_appProfile => ("Application"%string, [])
    | member_runtimeProfile =>
        if ICD_RUNTIME_APP_PROFILE cfg then ("Runtime"%string, [])
        else ("Unknown profile"%string, [DbgNeverCalled])
    | member_tuningProfile => ("Unknown profile"%string, [DbgNeverCalled])
    end in
  snd named
  ++ [DbgEntryTriggered (fst named) index]
  ++ flat_map
       (fun stageIdx =>
          let shader := idx (Key.shaders key) stageIdx in
          if negb (Key.codeSize shader =? 0) then
            [DbgStage (stageLabel stageIdx)
                      (upper (Key.codeHash shader)) (lower (Key.codeHash shader))
                      (Key.codeSize shader)]
          else [])
       allStages.

(** The state the compute pass runs on: what [pDynamicComputeShaderInfo]
    points to ([None] for a null pointer), of whatever type [D] the
    [Pal::DynamicComputeShaderInfo] structure is, and the debug output. *)
Record ComputePassState (D : Type) : Type := mkComputePassState {
  dynamicComputeShaderInfo : option D;
  dbgOutput : list DbgLine
}.
Arguments mkComputePassState {D}.
Arguments dynamicComputeShaderInfo {D}.
Arguments dbgOutput {D}.

(** [ShaderOptimizer::ApplyProfileToDynamicComputeShaderInfo]: the body is
    empty. *)
Definition ApplyProfileToDynamicComputeShaderInfo {D : Type} (action : ShaderProfileAction)
    : Update (ComputePassState D) :=
  skip.

Definition dbgPrint {D : Type} (lines : list DbgLine) : Update (ComputePassState D) :=
  fun st => Some (mkComputePassState (dynamicComputeShaderInfo st) (dbgOutput st ++ lines)).

Definition ApplyProfileToComputePipelineCreateInfo {D : Type} (cfg : BuildConfig)
    (this : ShaderOptimizer) (profile : ProfileMember) (pipelineKey : PipelineOptimizerKey)
    : Update (ComputePassState D) :=
  forEntries (entryCount (profileOf this profile)) 0
    (fun entry =>
       fun st =>
         match entryAt (profileOf this profile) entry with
         | Some profileEntry =>
             if ProfilePatternMatchesPipeline (pattern profileEntry) pipelineKey then
               (ApplyProfileToDynamicComputeShaderInfo
                  (idx (Action.shaders (action profileEntry)) ShaderStageCompute) ;;
                (if PAL_ENABLE_PRINTS_ASSERTS cfg
                 then when (pipelineProfileDbgPrintProfileMatch (m_settings this))
                        (dbgPrint (PrintProfileEntryMatch cfg profile entry pipelineKey))
                 else skip)) st
             else Some st
         | None => None
         end).

Definition OverrideComputePipelineCreateInfo {D : Type} (cfg : BuildConfig)
    (this : ShaderOptimizer) (pipelineKey : PipelineOptimizerKey)
    : Update (ComputePassState D) :=
  ApplyProfileToComputePipelineCreateInfo cfg this member_appProfile pipelineKey ;;
  ApplyProfileToComputePipelineCreateInfo cfg this member_tuningProfile pipelineKey ;;
  (if ICD_RUNTIME_APP_PROFILE cfg
   then ApplyProfileToComputePipelineCreateInfo cfg this member_runtimeProfile pipelineKey
   else skip).

(** ** [ShaderOptimizer::BuildTuningProfile]

    [InitialPipelineProfileEntries] is a constant of the missing header and is
    taken as a parameter.  [pMemory] is what the allocation callback returned
    for [entryCapacity * sizeof(PipelineProfileEntry)] bytes: [None] for
    [nullptr], otherwise the block with whatever it held.  The result is the
    optimizer with [m_tuningProfile] rebuilt; it is [None] when the function
    indexes outside an array ([pEntries[0]] of an empty block, or a stage
    index that [VK_ASSERT] rejects). *)

Definition set_m_tuningProfile (this : ShaderOptimizer) (p : PipelineProfile)
    : ShaderOptimizer :=
  mkShaderOptimizer (m_settings this) (m_appProfile this) p (m_runtimeProfile this).

Definition BuildTuningProfile (InitialPipelineProfileEntries : nat) (this : ShaderOptimizer)
    (pMemory : option (list PipelineProfileEntry)) : option ShaderOptimizer :=
  let settings := m_settings this in
  (* entryCount = 0; entryCapacity = InitialPipelineProfileEntries; pEntries = pMemory *)
  let unbuilt := mkPipelineProfile 0 InitialPipelineProfileEntries pMemory in
  if negb (overrideShaderParams settings)
     || match pMemory with Some _ => false | None => true end
  then Some (set_m_tuningProfile this unbuilt)
  else
    (* memset(pMemory, 0, newSize); entryCount = 1; entry = pEntries[0] *)
    match repeat zeroPipelineProfileEntry InitialPipelineProfileEntries with
    | [] => None
    | entry :: others =>
        let matchHash :=
          negb (overrideShaderHashLower settings =? 0)
          || negb (overrideShaderHashUpper settings =? 0) in
        let patternMatch :=
          if matchHash then Pattern.pmatch (pattern entry)
          else PipelineMatch.set_always (Pattern.pmatch (pattern entry)) true in
        match stageOfIndex (overrideShaderStage settings) with
        | None => None
        | Some shaderStage =>
            (* the references [pattern] and [action] into the entry *)
            let stagePattern := idx (Pattern.shaders (pattern entry)) shaderStage in
            let stageAction := idx (Action.shaders (action entry)) shaderStage in
            let stagePattern :=
              Pattern.mkShaderProfilePattern
                (ShaderMatch.set_codeHash (Pattern.match_ stagePattern) matchHash)
                (mkShaderHash (overrideShaderHashLower settings)
                              (overrideShaderHashUpper settings))
                (Pattern.codeSizeLessThanValue stagePattern) in
            let apply := ShaderCreate.apply (shaderCreate stageAction) in
            let tuningOptions := ShaderCreate.tuningOptions (shaderCreate stageAction) in
            let apply :=
              if negb (overrideNumVGPRsAvailable settings =? 0)
              then CreateApply.set_vgprLimit apply true else apply in
            let tuningOptions :=
              if negb (overrideNumVGPRsAvailable settings =? 0)
              then Tuning.set_vgprLimit (overrideNumVGPRsAvailable settings) tuningOptions
              else tuningOptions in
            let apply :=
              if negb (overrideMaxLdsSpillDwords settings =? 0)
              then CreateApply.set_ldsSpillLimitDwords apply true else apply in
            let tuningOptions :=
              if negb (overrideMaxLdsSpillDwords settings =? 0)
              then Tuning.set_ldsSpillLimitDwords (overrideMaxLdsSpillDwords settings)
                     tuningOptions
              else tuningOptions in
            let apply :=
              if overrideUserDataSpillThreshold settings
              then CreateApply.set_userDataSpillThreshold apply true else apply in
            let tuningOptions :=
              if overrideUserDataSpillThreshold settings
              then Tuning.set_userDataSpillThreshold 0 tuningOptions else tuningOptions in
            let apply := CreateApply.set_allowReZ apply (overrideAllowReZ settings) in
            let apply :=
              CreateApply.set_enableSelectiveInline apply
                (overrideEnableSelectiveInline settings) in
            let apply :=
              CreateApply.set_disableLoopUnrolls apply (overrideDisableLoopUnrolls settings) in
            let tuningOptions :=
              if overrideUseSiScheduler settings
              then Tuning.set_useSiScheduler true tuningOptions else tuningOptions in
            let tuningOptions :=
              if overrideReconfigWorkgroupLayout settings
              then Tuning.set_reconfigWorkgroupLayout true tuningOptions
              else tuningOptions in
            let tuningOptions :=
              if overrideDisableLicm settings
              then Tuning.set_disableLicm true tuningOptions else tuningOptions in
            let tuningOptions :=
              if overrideEnableLoadScalarizer settings
              then Tuning.set_enableLoadScalarizer true tuningOptions else tuningOptions in
            let apply :=
              match overrideWaveSize settings with
              | WaveSizeAuto => apply
              | WaveSize64 => CreateApply.set_waveSize apply true
              | WaveSize32 => CreateApply.set_waveSize apply true
              end in
            let tuningOptions :=
              match overrideWaveSize settings with
              | WaveSizeAuto => tuningOptions
              | WaveSize64 => Tuning.set_waveSize 64 tuningOptions
              | WaveSize32 => Tuning.set_waveSize 32 tuningOptions
              end in
            let apply :=
              match overrideWgpMode settings with
              | WgpModeAuto => apply
              | WgpModeCu => apply
              | WgpModeWgp => CreateApply.set_wgpMode apply true
              end in
            let apply := CreateApply.set_nggDisable apply (overrideUseNgg settings) in
            let apply :=
              CreateApply.set_enableSubvector apply (overrideEnableSubvector settings) in
            let dyn := dynamicShaderInfo stageAction in
            let dyn :=
              if negb (overrideWavesPerCu settings =? 0)
              then DynamicShaderInfo.mk
                     (DynApply.set_maxWavesPerCu (DynamicShaderInfo.apply dyn) true)
                     (overrideWavesPerCu settings)
                     (DynamicShaderInfo.cuEnableMask dyn)
                     (DynamicShaderInfo.maxThreadGroupsPerCu dyn)
              else dyn in
            let dyn :=
              if negb (overrideCsTgPerCu settings =? 0)
                 && (if ShaderStage_eq_dec shaderStage ShaderStageCompute then true else false)
              then DynamicShaderInfo.mk
                     (DynApply.set_maxThreadGroupsPerCu (DynamicShaderInfo.apply dyn) true)
                     (DynamicShaderInfo.maxWavesPerCu dyn)
                     (DynamicShaderInfo.cuEnableMask dyn)
                     (overrideCsTgPerCu settings)
              else dyn in
            let stageAction :=
              mkShaderProfileAction dyn (ShaderCreate.mk apply tuningOptions) in
            let createInfo := Action.createInfo (action entry) in
            let createInfo :=
              match overrideUsePbbPerCrc settings with
              | PipelineBinningModeDefault => createInfo
              | PipelineBinningModeEnable =>
                  CreateInfo.mk
                    (CreateInfoApply.set_binningOverride (CreateInfo.apply createInfo) true)
                    (CreateInfo.lateAllocVsLimit createInfo) BinningOverride_Enable
              | PipelineBinningModeDisable =>
                  CreateInfo.mk
                    (CreateInfoApply.set_binningOverride (CreateInfo.apply createInfo) true)
                    (CreateInfo.lateAllocVsLimit createInfo) BinningOverride_Disable
              | PipelineBinningModeOther =>
                  (* case PipelineBinningModeDefault: default: *)
                  CreateInfo.mk
                    (CreateInfoApply.set_binningOverride (CreateInfo.apply createInfo) true)
                    (CreateInfo.lateAllocVsLimit createInfo) BinningOverride_Default
              end in
            let entry :=
              mkPipelineProfileEntry
                (Pattern.mkPipelineProfilePattern patternMatch
                   (upd (Pattern.shaders (pattern entry)) shaderStage stagePattern))
                (Action.mk (upd (Action.shaders (action entry)) shaderStage stageAction)
                   createInfo) in
            Some (set_m_tuningProfile this
                    (mkPipelineProfile 1 InitialPipelineProfileEntries
                       (Some (entry :: others))))
        end
    end.

(** ** Vocabulary of the statements *)

(** The class invariant of a profile: the entries in use lie inside the
    allocated block. *)
Definition validProfile (profile : PipelineProfile) : Prop :=
  exists block, pEntries profile = Some block /\ (entryCount profile <= length block)%nat.

(** The entries in use, in array order. *)
Definition entriesInUse (profile : PipelineProfile) : list PipelineProfileEntry :=
  match pEntries profile with
  | Some block => firstn (entryCount profile) block
  | None => []
  end.

(** The profiles the passes walk are valid; [m_runtimeProfile] exists only
    under [ICD_RUNTIME_APP_PROFILE]. *)
Definition validOptimizer (cfg : BuildConfig) (this : ShaderOptimizer) : Prop :=
  validProfile (m_appProfile this)
  /\ validProfile (m_tuningProfile this)
  /\ (ICD_RUNTIME_APP_PROFILE cfg = true -> validProfile (m_runtimeProfile this)).

(** All three handles of the options are non-null. *)
Definition validOptions (options : PipelineShaderOptionsPtr) : Prop :=
  pPipelineOptions options <> None /\ pOptions options <> None /\ pNggState options <> None.

(** The members of the target that [ApplyProfileToShaderCreateInfo] can write. *)
Inductive OptionField : Type :=
  | F_vgprLimit
  | F_sgprLimit
  | F_maxThreadGroupsPerComputeUnit
  | F_debugMode
  | F_trapPresent
  | F_allowReZ
  | F_disableLoopUnroll
  | F_useSiScheduler
  | F_reconfigWorkgroupLayout
  | F_enableLoadScalarizer
  | F_forceLoopUnrollCount
  | F_disableLicm
  | F_unrollThreshold
  | F_fp32DenormalMode
  | F_waveSize
  | F_wgpMode
  | F_waveBreakSize
  | F_enableNgg
  | F_enableFastLaunch
  | F_enableVertexReuse
  | F_enableFrustumCulling
  | F_enableBoxFilterCulling
  | F_enableSphereCulling
  | F_enableBackfaceCulling
  | F_enableSmallPrimFilter.

Definition viaOptions (p : Options.PipelineShaderOptions -> Z)
    (options : PipelineShaderOptionsPtr) : option Z :=
  option_map p (pOptions options).

Definition viaNgg (p : Ngg.NggState -> bool) (options : PipelineShaderOptionsPtr)
    : option Z :=
  option_map (fun o => Z.b2z (p o)) (pNggState options).

(** The value a member holds, read through its handle ([None] when the handle
    is null); booleans read as 0 and 1. *)
Definition fieldValue (f : OptionField) (options : PipelineShaderOptionsPtr) : option Z :=
  match f with
  | F_vgprLimit => viaOptions Options.vgprLimit options
  | F_sgprLimit => viaOptions Options.sgprLimit options
  | F_maxThreadGroupsPerComputeUnit =>
      viaOptions Options.maxThreadGroupsPerComputeUnit options
  | F_debugMode => viaOptions (fun o => Z.b2z (Options.debugMode o)) options
  | F_trapPresent => viaOptions (fun o => Z.b2z (Options.trapPresent o)) options
  | F_allowReZ => viaOptions (fun o => Z.b2z (Options.allowReZ o)) options
  | F_disableLoopUnroll => viaOptions (fun o => Z.b2z (Options.disableLoopUnroll o)) options
  | F_useSiScheduler => viaOptions (fun o => Z.b2z (Options.useSiScheduler o)) options
  | F_reconfigWorkgroupLayout =>
      option_map (fun o => Z.b2z (reconfigWorkgroupLayout o)) (pPipelineOptions options)
  | F_enableLoadScalarizer =>
      viaOptions (fun o => Z.b2z (Options.enableLoadScalarizer o)) options
  | F_forceLoopUnrollCount => viaOptions Options.forceLoopUnrollCount options
  | F_disableLicm => viaOptions (fun o => Z.b2z (Options.disableLicm o)) options
  | F_unrollThreshold => viaOptions Options.unrollThreshold options
  | F_fp32DenormalMode => viaOptions Options.fp32DenormalMode options
  | F_waveSize => viaOptions Options.waveSize options
  | F_wgpMode => viaOptions (fun o => Z.b2z (Options.wgpMode o)) options
  | F_waveBreakSize => viaOptions Options.waveBreakSize options
  | F_enableNgg => viaNgg Ngg.enableNgg options
  | F_enableFastLaunch => viaNgg Ngg.enableFastLaunch options
  | F_enableVertexReuse => viaNgg Ngg.enableVertexReuse options
  | F_enableFrustumCulling => viaNgg Ngg.enableFrustumCulling options
  | F_enableBoxFilterCulling => viaNgg Ngg.enableBoxFilterCulling options
  | F_enableSphereCulling => viaNgg Ngg.enableSphereCulling options
  | F_enableBackfaceCulling => viaNgg Ngg.enableBackfaceCulling options
  | F_enableSmallPrimFilter => viaNgg Ngg.enableSmallPrimFilter options
  end.

(** The position of the apply bit that guards the write to a member, for the
    members whose write the source guards by an apply bit; [None] for the six
    members whose write is guarded by the payload itself. *)
Definition applyBitOf (f : OptionField) : option Z :=
  match f with
  | F_vgprLimit => Some CreateApply.bit_vgprLimit
  | F_sgprLimit => Some CreateApply.bit_sgprLimit
  | F_maxThreadGroupsPerComputeUnit => Some CreateApply.bit_maxThreadGroupsPerComputeUnit
  | F_debugMode => Some CreateApply.bit_debugMode
  | F_trapPresent => Some CreateApply.bit_trapPresent
  | F_allowReZ => Some CreateApply.bit_allowReZ
  | F_disableLoopUnroll => Some CreateApply.bit_disableLoopUnrolls
  | F_useSiScheduler => None
  | F_reconfigWorkgroupLayout => None
  | F_enableLoadScalarizer => None
  | F_forceLoopUnrollCount => None
  | F_disableLicm => None
  | F_unrollThreshold => None
  | F_fp32DenormalMode => Some CreateApply.bit_fp32DenormalMode
  | F_waveSize => Some CreateApply.bit_waveSize
  | F_wgpMode => Some CreateApply.bit_wgpMode
  | F_waveBreakSize => Some CreateApply.bit_waveBreakSize
  | F_enableNgg => Some CreateApply.bit_nggDisable
  | F_enableFastLaunch => Some CreateApply.bit_nggFasterLaunchRate
  | F_enableVertexReuse => Some CreateApply.bit_nggVertexReuse
  | F_enableFrustumCulling => Some CreateApply.bit_nggEnableFrustumCulling
  | F_enableBoxFilterCulling => Some CreateApply.bit_nggEnableBoxFilterCulling
  | F_enableSphereCulling => Some CreateApply.bit_nggEnableSphereCulling
  | F_enableBackfaceCulling => Some CreateApply.bit_nggEnableBackfaceCulling
  | F_enableSmallPrimFilter => Some CreateApply.bit_nggEnableSmallPrimFilter
  end.

(** The payload that travels with a payload-guarded member, as a number. *)
Definition payloadGuard (f : OptionField) (tuningOptions : Tuning.ShaderTuningOptions)
    : option Z :=
  match f with
  | F_useSiScheduler => Some (Z.b2z (Tuning.useSiScheduler tuningOptions))
  | F_reconfigWorkgroupLayout => Some (Z.b2z (Tuning.reconfigWorkgroupLayout tuningOptions))
  | F_enableLoadScalarizer => Some (Z.b2z (Tuning.enableLoadScalarizer tuningOptions))
  | F_forceLoopUnrollCount => Some (Tuning.forceLoopUnrollCount tuningOptions)
  | F_disableLicm => Some (Z.b2z (Tuning.disableLicm tuningOptions))
  | F_unrollThreshold => Some (Tuning.unrollThreshold tuningOptions)
  | _ => None
  end.

(** Whether a shader-create action writes the member: the guard of its [if]. *)
Definition writes (cfg : BuildConfig) (f : OptionField) (shaderCreate : ShaderCreate.t)
    : bool :=
  match applyBitOf f, payloadGuard f (ShaderCreate.tuningOptions shaderCreate) with
  | Some bit, _ =>
      bf_get (CreateApply.u32All (ShaderCreate.apply shaderCreate)) bit
      && match f with
         | F_enableFastLaunch => LLPC_CLIENT_INTERFACE_MAJOR_VERSION cfg <? 45
         | _ => true
         end
  | None, Some v => negb (v =? 0)
  | None, None => false
  end.

(** The value the action writes into the member when it writes it. *)
Definition written (f : OptionField) (shaderCreate : ShaderCreate.t) : Z :=
  let tuningOptions := ShaderCreate.tuningOptions shaderCreate in
  match f with
  | F_vgprLimit => Tuning.vgprLimit tuningOptions
  | F_sgprLimit => Tuning.sgprLimit tuningOptions
  | F_maxThreadGroupsPerComputeUnit => Tuning.maxThreadGroupsPerComputeUnit tuningOptions
  | F_forceLoopUnrollCount => Tuning.forceLoopUnrollCount tuningOptions
  | F_unrollThreshold => Tuning.unrollThreshold tuningOptions
  | F_fp32DenormalMode => Tuning.fp32DenormalMode tuningOptions
  | F_waveSize => Tuning.waveSize tuningOptions
  | F_waveBreakSize => Tuning.waveBreakSize tuningOptions
  | F_enableNgg => 0
  | _ => 1
  end.

(** The shader-create action of an entry for a stage. *)
Definition shaderCreateOf (profileEntry : PipelineProfileEntry) (shaderStage : ShaderStage)
    : ShaderCreate.t :=
  shaderCreate (idx (Action.shaders (action profileEntry)) shaderStage).

(** An entry that matches the key and writes the member for the stage. *)
Definition setsField (cfg : BuildConfig) (f : OptionField) (pipelineKey : PipelineOptimizerKey)
    (shaderStage : ShaderStage) (profileEntry : PipelineProfileEntry) : bool :=
  ProfilePatternMatchesPipeline (pattern profileEntry) pipelineKey
  && writes cfg f (shaderCreateOf profileEntry shaderStage).

(** The value of a member after a run of entries, from its value before. *)
Definition afterEntries (cfg : BuildConfig) (f : OptionField)
    (pipelineKey : PipelineOptimizerKey) (shaderStage : ShaderStage)
    (entries : list PipelineProfileEntry) (before : Z) : Z :=
  fold_left
    (fun v profileEntry =>
       if setsField cfg f pipelineKey shaderStage profileEntry
       then written f (shaderCreateOf profileEntry shaderStage)
       else v)
    entries before.

(** [profileEntry] is the last entry in use of [profile] that matches the key
    and has the apply bit at position [bit] set for the stage. *)
Definition lastWithApplyBit (profile : PipelineProfile) (pipelineKey : PipelineOptimizerKey)
    (shaderStage : ShaderStage) (bit : Z) (profileEntry : PipelineProfileEntry) : Prop :=
  exists before after,
    entriesInUse profile = before ++ profileEntry :: after
    /\ ProfilePatternMatchesPipeline (pattern profileEntry) pipelineKey = true
    /\ bf_get (CreateApply.u32All (ShaderCreate.apply (shaderCreateOf profileEntry shaderStage)))
              bit = true
    /\ forall later, In later after ->
         ProfilePatternMatchesPipeline (pattern later) pipelineKey = true ->
         bf_get (CreateApply.u32All (ShaderCreate.apply (shaderCreateOf later shaderStage)))
                bit = false.

(** A pattern with one test of one stage switched off. *)
Definition withoutCodeSizeLessThan (pattern : PipelineProfilePattern) (stage : ShaderStage)
    : PipelineProfilePattern :=
  let shaderPattern := idx (Pattern.shaders pattern) stage in
  Pattern.mkPipelineProfilePattern (Pattern.pmatch pattern)
    (upd (Pattern.shaders pattern) stage
       (Pattern.mkShaderProfilePattern
          (ShaderMatch.set_codeSizeLessThan (Pattern.match_ shaderPattern) false)
          (Pattern.codeHash shaderPattern)
          (Pattern.codeSizeLessThanValue shaderPattern))).

(** ** Proof vocabulary *)

Definition OptionField_eq_dec (f g : OptionField) : {f = g} + {f <> g}.
Proof. decide equality. Defined.

(** The effect on member values of a guarded store to member [g]. *)
Definition assign (g : OptionField) (c : bool) (x : Z) : OptionField -> Z -> Z :=
  fun f v => if OptionField_eq_dec f g then (if c then x else v) else v.

(** No handle changes between null and non-null. *)
Definition sameHandles (t t' : PipelineShaderOptionsPtr) : Prop :=
  (pPipelineOptions t = None <-> pPipelineOptions t' = None)
  /\ (pOptions t = None <-> pOptions t' = None)
  /\ (pNggState t = None <-> pNggState t' = None).

(** A statement that, whenever it completes, keeps the handles and maps every
    member value through [E]; and that completes when all handles are valid. *)
Definition transforms (m : Update PipelineShaderOptionsPtr) (E : OptionField -> Z -> Z)
    : Prop :=
  (forall t t', m t = Some t' ->
     sameHandles t t' /\ forall f, fieldValue f t' = option_map (E f) (fieldValue f t))
  /\ (forall t, validOptions t -> m t <> None).

(** The entry loop over the entries in use, as a list. *)
Fixpoint runEntries {St : Type} (g : PipelineProfileEntry -> Update St)
    (entries : list PipelineProfileEntry) : Update St :=
  match entries with
  | [] => skip
  | profileEntry :: rest => g profileEntry ;; runEntries g rest
  end.

(** ** Sample inputs *)

Definition inactiveShader : ShaderOptimizerKey :=
  Key.mkShaderOptimizerKey (mkShaderHash 0 0) 0.

(** A graphics pipeline whose only active stage is the fragment shader. *)
Definition fragmentOnlyKey : PipelineOptimizerKey :=
  Key.mkPipelineOptimizerKey
    (upd (fill inactiveShader) ShaderStageFragment
       (Key.mkShaderOptimizerKey (mkShaderHash 0xdd6c573c46e6adf8 0x751207727c904749) 4096)).

(** A pattern that tests the fragment stage only: [always] is the word of the
    pipeline-level match, [tests] the word of the fragment stage's match. *)
Definition fragmentPattern (always tests : Z) (hash : ShaderHash) (threshold : Z)
    : PipelineProfilePattern :=
  Pattern.mkPipelineProfilePattern (PipelineMatch.mk always)
    (upd (fill zeroShaderProfilePattern) ShaderStageFragment
       (Pattern.mkShaderProfilePattern (ShaderMatch.mk tests) hash threshold)).

Definition sampleConfig : BuildConfig := mkBuildConfig true 44 true.

(** Options with all three handles valid. *)
Definition sampleOptions : PipelineShaderOptionsPtr :=
  {| pPipelineOptions := Some {| reconfigWorkgroupLayout := false |};
     pOptions :=
       Some {| Options.vgprLimit := 64;
               Options.sgprLimit := 100;
               Options.maxThreadGroupsPerComputeUnit := 0;
               Options.debugMode := false;
               Options.trapPresent := false;
               Options.allowReZ := false;
               Options.disableLoopUnroll := false;
               Options.useSiScheduler := false;
               Options.enableLoadScalarizer := false;
               Options.forceLoopUnrollCount := 4;
               Options.disableLicm := false;
               Options.unrollThreshold := 700;
               Options.fp32DenormalMode := 0;
               Options.waveSize := 0;
               Options.wgpMode := false;
               Options.waveBreakSize := 0 |};
     pNggState :=
       Some {| Ngg.enableNgg := true;
               Ngg.enableFastLaunch := false;
               Ngg.enableVertexReuse := false;
               Ngg.enableFrustumCulling := false;
               Ngg.enableBoxFilterCulling := false;
               Ngg.enableSphereCulling := false;
               Ngg.enableBackfaceCulling := false;
               Ngg.enableSmallPrimFilter := false |} |}.

(** Options whose compiler-options handle is null. *)
Definition nullOptions : PipelineShaderOptionsPtr :=
  {| pPipelineOptions := Some {| reconfigWorkgroupLayout := false |};
     pOptions := None;
     pNggState := None |}.

(** An entry that matches every pipeline and carries, for every stage, the
    apply word [applyWord] and the payloads [tuningOptions]. *)
Definition alwaysEntry (applyWord : Z) (tuningOptions : Tuning.ShaderTuningOptions)
    : PipelineProfileEntry :=
  mkPipelineProfileEntry
    (Pattern.mkPipelineProfilePattern (PipelineMatch.mk 1) (fill zeroShaderProfilePattern))
    (Action.mk
       (fill (mkShaderProfileAction
                (DynamicShaderInfo.mk (DynApply.mk 0) 0 0 0)
                (ShaderCreate.mk (CreateApply.mk applyWord) tuningOptions)))
       (CreateInfo.mk (CreateInfoApply.mk 0) 0 BinningOverride_Default)).

(** A profile whose block holds exactly the given entries, all in use. *)
Definition profileWith (entries : list PipelineProfileEntry) : PipelineProfile :=
  mkPipelineProfile (length entries) (length entries) (Some entries).

(** Payloads with a VGPR limit only. *)
Definition vgprPayload (limit : Z) : Tuning.ShaderTuningOptions :=
  Tuning.set_vgprLimit limit zeroShaderTuningOptions.

(** Payloads for the scheduler and the two unroll controls, and nothing else. *)
Definition schedulerPayload : Tuning.ShaderTuningOptions :=
  {| Tuning.vgprLimit := 0;
     Tuning.sgprLimit := 0;
     Tuning.ldsSpillLimitDwords := 0;
     Tuning.userDataSpillThreshold := 0;
     Tuning.maxThreadGroupsPerComputeUnit := 0;
     Tuning.waveSize := 0;
     Tuning.waveBreakSize := 0;
     Tuning.useSiScheduler := true;
     Tuning.reconfigWorkgroupLayout := false;
     Tuning.enableLoadScalarizer := false;
     Tuning.disableLicm := false;
     Tuning.forceLoopUnrollCount := 8;
     Tuning.unrollThreshold := 1000;
     Tuning.fp32DenormalMode := 0 |}.

(** No apply bit set, non-zero payloads. *)
Definition payloadOnlyEntry : PipelineProfileEntry := alwaysEntry 0 schedulerPayload.

(** Every apply bit set. *)
Definition allBitsEntry : PipelineProfileEntry := alwaysEntry 8388607 (vgprPayload 24).

Definition emptyProfile : PipelineProfile := mkPipelineProfile 0 0 None.

(** Settings that ask for one rule on the fragment stage (index 4), keyed by
    a hash whose upper half is zero. *)
Definition sampleSettings : RuntimeSettings :=
  {| overrideShaderParams := true;
     overrideShaderHashLower := 0xdd6c573c46e6adf8;
     overrideShaderHashUpper := 0;
     overrideShaderStage := 4;
     overrideNumVGPRsAvailable := 48;
     overrideMaxLdsSpillDwords := 0;
     overrideUserDataSpillThreshold := false;
     overrideAllowReZ := false;
     overrideEnableSelectiveInline := false;
     overrideDisableLoopUnrolls := false;
     overrideUseSiScheduler := false;
     overrideReconfigWorkgroupLayout := false;
     overrideDisableLicm := false;
     overrideEnableLoadScalarizer := false;
     overrideWaveSize := WaveSize64;
     overrideWgpMode := WgpModeAuto;
     overrideUseNgg := false;
     overrideEnableSubvector := false;
     overrideWavesPerCu := 0;
     overrideCsTgPerCu := 0;
     overrideUsePbbPerCrc := PipelineBinningModeDefault;
     pipelineProfileDbgPrintProfileMatch := true |}.

(** Settings with the governing switch off and every other scalar away from
    its default. *)
Definition switchedOffSettings : RuntimeSettings :=
  {| overrideShaderParams := false;
     overrideShaderHashLower := 1;
     overrideShaderHashUpper := 2;
     overrideShaderStage := 4;
     overrideNumVGPRsAvailable := 48;
     overrideMaxLdsSpillDwords := 16;
     overrideUserDataSpillThreshold := true;
     overrideAllowReZ := true;
     overrideEnableSelectiveInline := true;
     overrideDisableLoopUnrolls := true;
     overrideUseSiScheduler := true;
     overrideReconfigWorkgroupLayout := true;
     overrideDisableLicm := true;
     overrideEnableLoadScalarizer := true;
     overrideWaveSize := WaveSize32;
     overrideWgpMode := WgpModeWgp;
     overrideUseNgg := true;
     overrideEnableSubvector := true;
     overrideWavesPerCu := 8;
     overrideCsTgPerCu := 4;
     overrideUsePbbPerCrc := PipelineBinningModeEnable;
     pipelineProfileDbgPrintProfileMatch := true |}.

Definition switchedOffOptimizer : ShaderOptimizer :=
  mkShaderOptimizer switchedOffSettings emptyProfile emptyProfile emptyProfile.

(** An optimizer whose three profiles each set the VGPR limit, to 32, 48, 96. *)
Definition sampleOptimizer : ShaderOptimizer :=
  mkShaderOptimizer sampleSettings
    (profileWith [alwaysEntry 1 (vgprPayload 32)])
    (profileWith [alwaysEntry 1 (vgprPayload 48)])
    (profileWith [alwaysEntry 1 (vgprPayload 96)]).

(** * The remaining functions of the file *)

(** ** [ShaderOptimizer::GetFirstMatchingShaderHash]

    [Pal::ShaderHashesEqual] belongs to the PAL library and is taken as the
    parameter [ShaderHashesEqual]. *)

Definition emptyHash : ShaderHash := mkShaderHash 0 0.

Fixpoint firstMatchingLoop (ShaderHashesEqual : ShaderHash -> ShaderHash -> bool)
    (stages : list ShaderStage) (pattern : PipelineProfilePattern)
    (pipelineKey : PipelineOptimizerKey) : ShaderHash :=
  match stages with
  | [] => emptyHash
  | stage :: rest =>
      let shaderPattern := idx (Pattern.shaders pattern) stage in
      if negb (ShaderMatch.u32All (Pattern.match_ shaderPattern) =? 0) then
        let shaderKey := idx (Key.shaders pipelineKey) stage in
        if ShaderMatch.codeHash (Pattern.match_ shaderPattern)
           && ShaderHashesEqual (Pattern.codeHash shaderPattern) (Key.codeHash shaderKey)
        then Key.codeHash shaderKey
        else firstMatchingLoop ShaderHashesEqual rest pattern pipelineKey
      else firstMatchingLoop ShaderHashesEqual rest pattern pipelineKey
  end.

Definition GetFirstMatchingShaderHash (ShaderHashesEqual : ShaderHash -> ShaderHash -> bool)
    (pattern : PipelineProfilePattern) (pipelineKey : PipelineOptimizerKey) : ShaderHash :=
  firstMatchingLoop ShaderHashesEqual allStages pattern pipelineKey.

(** What the functions below need of [Pal::ShaderHashesEqual]: it compares
    both halves. *)
Definition comparesBothHalves (ShaderHashesEqual : ShaderHash -> ShaderHash -> bool) : Prop :=
  forall a b, ShaderHashesEqual a b = true <-> lower a = lower b /\ upper a = upper b.

(** No test of the stage fails for the key. *)
Definition stagePasses (shaderPattern : ShaderProfilePattern) (shaderKey : ShaderOptimizerKey)
    : Prop :=
  stageActiveTestFails shaderPattern shaderKey = false
  /\ stageInactiveTestFails shaderPattern shaderKey = false
  /\ codeHashTestFails shaderPattern shaderKey = false
  /\ codeSizeLessThanTestFails shaderPattern shaderKey = false.

(** The first stage, in index order, whose hash-equality test is enabled. *)
Definition firstHashTestedStage (pattern : PipelineProfilePattern) : option ShaderStage :=
  find (fun stage => ShaderMatch.codeHash (Pattern.match_ (idx (Pattern.shaders pattern) stage)))
       allStages.

(** A comparison of both halves, for the sample runs. *)
Definition halvesEqual (a b : ShaderHash) : bool :=
  (lower a =? lower b) && (upper a =? upper b).

(** ** Vocabulary for the shader-stage pass *)

(** The members the pass only ever sets to true. *)
Definition setOnlyFlag (f : OptionField) : bool :=
  match f with
  | F_debugMode | F_trapPresent | F_allowReZ | F_disableLoopUnroll | F_useSiScheduler
  | F_reconfigWorkgroupLayout | F_enableLoadScalarizer | F_disableLicm | F_wgpMode
  | F_enableFastLaunch | F_enableVertexReuse | F_enableFrustumCulling
  | F_enableBoxFilterCulling | F_enableSphereCulling | F_enableBackfaceCulling
  | F_enableSmallPrimFilter => true
  | _ => false
  end.

(** Options with all handles valid, the scheduler flag already set and NGG
    already disabled. *)
Definition flaggedOptions : PipelineShaderOptionsPtr :=
  mkPipelineShaderOptionsPtr
    (pPipelineOptions sampleOptions)
    (option_map (Options.set_useSiScheduler true) (pOptions sampleOptions))
    (option_map (Ngg.set_enableNgg false) (pNggState sampleOptions)).

(** ** Vocabulary for [BuildTuningProfile] *)

(** The entries in use lie inside the allocated block (a profile with no
    entries in use may have a null block). *)
Definition inUseInsideBlock (profile : PipelineProfile) : Prop :=
  forall i, (i < entryCount profile)%nat -> entryAt profile i <> None.

(** What the rule synthesized from the settings writes into a member of the
    compiler options, if anything. *)
Definition tuningOverride (settings : RuntimeSettings) (f : OptionField) : option Z :=
  match f with
  | F_vgprLimit =>
      if negb (overrideNumVGPRsAvailable settings =? 0)
      then Some (overrideNumVGPRsAvailable settings) else None
  | F_allowReZ => if overrideAllowReZ settings then Some 1 else None
  | F_disableLoopUnroll => if overrideDisableLoopUnrolls settings then Some 1 else None
  | F_useSiScheduler => if overrideUseSiScheduler settings then Some 1 else None
  | F_reconfigWorkgroupLayout =>
      if overrideReconfigWorkgroupLayout settings then Some 1 else None
  | F_enableLoadScalarizer => if overrideEnableLoadScalarizer settings then Some 1 else None
  | F_disableLicm => if overrideDisableLicm settings then Some 1 else None
  | F_waveSize =>
      match overrideWaveSize settings with
      | WaveSizeAuto => None
      | WaveSize64 => Some 64
      | WaveSize32 => Some 32
      end
  | F_wgpMode =>
      match overrideWgpMode settings with
      | WgpModeWgp => Some 1
      | _ => None
      end
  | F_enableNgg => if overrideUseNgg settings then Some 0 else None
  | _ => None
  end.

(** The keys the synthesized rule matches at the configured stage. *)
Definition tuningRuleMatches (settings : RuntimeSettings) (stage : ShaderStage)
    (pipelineKey : PipelineOptimizerKey) : Prop :=
  (overrideShaderHashLower settings = 0 /\ overrideShaderHashUpper settings = 0)
  \/ Key.codeHash (idx (Key.shaders pipelineKey) stage)
     = mkShaderHash (overrideShaderHashLower settings) (overrideShaderHashUpper settings).

(** The rule [BuildTuningProfile] synthesizes from the settings, read off a
    run of the function itself on a block of one entry. *)
Definition tuningRuleOf (settings : RuntimeSettings) : option PipelineProfileEntry :=
  match BuildTuningProfile 1
          (mkShaderOptimizer settings emptyProfile emptyProfile emptyProfile) (Some []) with
  | Some this' =>
      match pEntries (m_tuningProfile this') with
      | Some (entry :: _) => Some entry
      | _ => None
      end
  | None => None
  end.

(** A pipeline whose fragment shader has the hash the sample settings name. *)
Definition tunedKey : PipelineOptimizerKey :=
  Key.mkPipelineOptimizerKey
    (upd (fill inactiveShader) ShaderStageFragment
       (Key.mkShaderOptimizerKey (mkShaderHash 0xdd6c573c46e6adf8 0) 512)).

(** ** The graphics pass *)

(** [VkShaderStageFlagBits], as the Vulkan API fixes them. *)
Definition VK_SHADER_STAGE_VERTEX_BIT : Z := 1.
Definition VK_SHADER_STAGE_TESSELLATION_CONTROL_BIT : Z := 2.
Definition VK_SHADER_STAGE_TESSELLATION_EVALUATION_BIT : Z := 4.
Definition VK_SHADER_STAGE_GEOMETRY_BIT : Z := 8.
Definition VK_SHADER_STAGE_FRAGMENT_BIT : Z := 16.

(** [shaderStages & bit], as a condition. *)
Definition hasStage (shaderStages bit : Z) : bool :=
  negb (Z.land shaderStages bit =? 0).

(** The PAL structures the pass writes to.  Only the members this file names
    are spelled out; whatever else a structure holds is its last member, of a
    type the pass is generic in. *)
Module Pal.
Record DynamicGraphicsShaderInfo (R : Type) : Type := mkDynamicGraphicsShaderInfo {
  cuEnableMask : Z;
  otherShaderInfo : R
}.
Arguments mkDynamicGraphicsShaderInfo {R}.
Arguments cuEnableMask {R}.
Arguments otherShaderInfo {R}.

Record DynamicGraphicsShaderInfos (R : Type) : Type := mkDynamicGraphicsShaderInfos {
  vs : DynamicGraphicsShaderInfo R;
  hs : DynamicGraphicsShaderInfo R;
  ds : DynamicGraphicsShaderInfo R;
  gs : DynamicGraphicsShaderInfo R;
  ps : DynamicGraphicsShaderInfo R
}.
Arguments mkDynamicGraphicsShaderInfos {R}.
Arguments vs {R}.
Arguments hs {R}.
Arguments ds {R}.
Arguments gs {R}.
Arguments ps {R}.

(** [binningOverride] stands for [rsState.binningOverride]. *)
Record GraphicsPipelineCreateInfo (C : Type) : Type := mkGraphicsPipelineCreateInfo {
  useLateAllocVsLimit : bool;
  lateAllocVsLimit : Z;
  binningOverride : BinningOverride;
  otherCreateInfo : C
}.
Arguments mkGraphicsPipelineCreateInfo {C}.
Arguments useLateAllocVsLimit {C}.
Arguments lateAllocVsLimit {C}.
Arguments binningOverride {C}.
Arguments otherCreateInfo {C}.
End Pal.

(** The five members of [Pal::DynamicGraphicsShaderInfos] an address can be
    taken of. *)
Inductive GraphicsSlot : Type := slot_vs | slot_hs | slot_ds | slot_gs | slot_ps.

Definition slotInfo {R : Type} (slot : GraphicsSlot) (infos : Pal.DynamicGraphicsShaderInfos R)
    : Pal.DynamicGraphicsShaderInfo R :=
  match slot with
  | slot_vs => Pal.vs infos
  | slot_hs => Pal.hs infos
  | slot_ds => Pal.ds infos
  | slot_gs => Pal.gs infos
  | slot_ps => Pal.ps infos
  end.

Definition setSlotInfo {R : Type} (slot : GraphicsSlot) (v : Pal.DynamicGraphicsShaderInfo R)
    (infos : Pal.DynamicGraphicsShaderInfos R) : Pal.DynamicGraphicsShaderInfos R :=
  match slot with
  | slot_vs =>
      Pal.mkDynamicGraphicsShaderInfos v (Pal.hs infos) (Pal.ds infos) (Pal.gs infos)
        (Pal.ps infos)
  | slot_hs =>
      Pal.mkDynamicGraphicsShaderInfos (Pal.vs infos) v (Pal.ds infos) (Pal.gs infos)
        (Pal.ps infos)
  | slot_ds =>
      Pal.mkDynamicGraphicsShaderInfos (Pal.vs infos) (Pal.hs infos) v (Pal.gs infos)
        (Pal.ps infos)
  | slot_gs =>
      Pal.mkDynamicGraphicsShaderInfos (Pal.vs infos) (Pal.hs infos) (Pal.ds infos) v
        (Pal.ps infos)
  | slot_ps =>
      Pal.mkDynamicGraphicsShaderInfos (Pal.vs infos) (Pal.hs infos) (Pal.ds infos)
        (Pal.gs infos) v
  end.

(** The state the graphics pass runs on: what [pPalCreateInfo] and
    [pGraphicsShaderInfos] point to ([None] for a null pointer) and the debug
    output. *)
Record GraphicsPassState (R C : Type) : Type := mkGraphicsPassState {
  palCreateInfo : option (Pal.GraphicsPipelineCreateInfo C);
  graphicsShaderInfos : option (Pal.DynamicGraphicsShaderInfos R);
  graphicsDbgOutput : list DbgLine
}.
Arguments mkGraphicsPassState {R C}.
Arguments palCreateInfo {R C}.
Arguments graphicsShaderInfos {R C}.
Arguments graphicsDbgOutput {R C}.

(** A store through [pGraphicsShaderInfos] into one of its members. *)
Definition via_slot {R C : Type} (slot : GraphicsSlot)
    (f : Pal.DynamicGraphicsShaderInfo R -> Pal.DynamicGraphicsShaderInfo R)
    : Update (GraphicsPassState R C) :=
  fun st =>
    match graphicsShaderInfos st with
    | Some infos =>
        Some (mkGraphicsPassState (palCreateInfo st)
                (Some (setSlotInfo slot (f (slotInfo slot infos)) infos))
                (graphicsDbgOutput st))
    | None => None
    end.

(** A store through [pPalCreateInfo]. *)
Definition via_pPalCreateInfo {R C : Type}
    (f : Pal.GraphicsPipelineCreateInfo C -> Pal.GraphicsPipelineCreateInfo C)
    : Update (GraphicsPassState R C) :=
  fun st =>
    match palCreateInfo st with
    | Some info =>
        Some (mkGraphicsPassState (Some (f info)) (graphicsShaderInfos st)
                (graphicsDbgOutput st))
    | None => None
    end.

Definition graphicsDbgPrint {R C : Type} (lines : list DbgLine)
    : Update (GraphicsPassState R C) :=
  fun st =>
    Some (mkGraphicsPassState (palCreateInfo st) (graphicsShaderInfos st)
            (graphicsDbgOutput st ++ lines)).

(** [&pGraphicsShaderInfos->m], the argument of a call: the member is reached
    through the pointer, which is undefined for a null pointer whether or not
    the callee then stores anything. *)
Definition addressOfSlot {R C : Type} (slot : GraphicsSlot)
    : Update (GraphicsPassState R C) :=
  fun st =>
    match graphicsShaderInfos st with
    | Some _ => Some st
    | None => None
    end.

(** [ShaderOptimizer::ApplyProfileToDynamicGraphicsShaderInfo]; the argument
    [pGraphicsShaderInfo] is the address of the member [slot]. *)
Definition ApplyProfileToDynamicGraphicsShaderInfo {R C : Type} (action : ShaderProfileAction)
    (slot : GraphicsSlot) : Update (GraphicsPassState R C) :=
  when (DynApply.cuEnableMask (DynamicShaderInfo.apply (dynamicShaderInfo action)))
    (via_slot slot
       (fun info =>
          Pal.mkDynamicGraphicsShaderInfo
            (DynamicShaderInfo.cuEnableMask (dynamicShaderInfo action))
            (Pal.otherShaderInfo info))).

(** What one matching profile entry does in the graphics pass: the body of
    the [if] inside the entry loop. *)
Definition applyEntryToGraphicsPipelineCreateInfo {R C : Type} (cfg : BuildConfig)
    (this : ShaderOptimizer) (profile : ProfileMember) (entry : nat)
    (profileEntry : PipelineProfileEntry) (pipelineKey : PipelineOptimizerKey)
    (shaderStages : Z) : Update (GraphicsPassState R C) :=
  let shaders := Action.shaders (action profileEntry) in
  let createInfo := Action.createInfo (action profileEntry) in
  when (hasStage shaderStages VK_SHADER_STAGE_VERTEX_BIT)
    (addressOfSlot slot_vs ;;
     ApplyProfileToDynamicGraphicsShaderInfo (idx shaders ShaderStageVertex) slot_vs) ;;
  when (hasStage shaderStages VK_SHADER_STAGE_TESSELLATION_CONTROL_BIT)
    (addressOfSlot slot_hs ;;
     ApplyProfileToDynamicGraphicsShaderInfo (idx shaders ShaderStageTessControl) slot_hs) ;;
  when (hasStage shaderStages VK_SHADER_STAGE_TESSELLATION_EVALUATION_BIT)
    (addressOfSlot slot_ds ;;
     ApplyProfileToDynamicGraphicsShaderInfo (idx shaders ShaderStageTessEvaluation) slot_ds) ;;
  when (hasStage shaderStages VK_SHADER_STAGE_GEOMETRY_BIT)
    (addressOfSlot slot_gs ;;
     ApplyProfileToDynamicGraphicsShaderInfo (idx shaders ShaderStageGeometry) slot_gs) ;;
  when (hasStage shaderStages VK_SHADER_STAGE_FRAGMENT_BIT)
    (addressOfSlot slot_ps ;;
     ApplyProfileToDynamicGraphicsShaderInfo (idx shaders ShaderStageFragment) slot_ps) ;;
  when (CreateInfoApply.lateAllocVsLimit (CreateInfo.apply createInfo))
    (via_pPalCreateInfo
       (fun info =>
          Pal.mkGraphicsPipelineCreateInfo true (CreateInfo.lateAllocVsLimit createInfo)
            (Pal.binningOverride info) (Pal.otherCreateInfo info))) ;;
  when (CreateInfoApply.binningOverride (CreateInfo.apply createInfo))
    (via_pPalCreateInfo
       (fun info =>
          Pal.mkGraphicsPipelineCreateInfo (Pal.useLateAllocVsLimit info)
            (Pal.lateAllocVsLimit info) (CreateInfo.binningOverride createInfo)
            (Pal.otherCreateInfo info))) ;;
  (if PAL_ENABLE_PRINTS_ASSERTS cfg
   then when (pipelineProfileDbgPrintProfileMatch (m_settings this))
          (graphicsDbgPrint (PrintProfileEntryMatch cfg profile entry pipelineKey))
   else skip).

Definition ApplyProfileToGraphicsPipelineCreateInfo {R C : Type} (cfg : BuildConfig)
    (this : ShaderOptimizer) (profile : ProfileMember) (pipelineKey : PipelineOptimizerKey)
    (shaderStages : Z) : Update (GraphicsPassState R C) :=
  forEntries (entryCount (profileOf this profile)) 0
    (fun entry =>
       fun st =>
         match entryAt (profileOf this profile) entry with
         | Some profileEntry =>
             if ProfilePatternMatchesPipeline (pattern profileEntry) pipelineKey then
               applyEntryToGraphicsPipelineCreateInfo cfg this profile entry profileEntry
                 pipelineKey shaderStages st
             else Some st
         | None => None
         end).

Definition OverrideGraphicsPipelineCreateInfo {R C : Type} (cfg : BuildConfig)
    (this : ShaderOptimizer) (pipelineKey : PipelineOptimizerKey) (shaderStages : Z)
    : Update (GraphicsPassState R C) :=
  ApplyProfileToGraphicsPipelineCreateInfo cfg this member_appProfile pipelineKey
    shaderStages ;;
  ApplyProfileToGraphicsPipelineCreateInfo cfg this member_tuningProfile pipelineKey
    shaderStages ;;
  (if ICD_RUNTIME_APP_PROFILE cfg
   then ApplyProfileToGraphicsPipelineCreateInfo cfg this member_runtimeProfile pipelineKey
          shaderStages
   else skip).

(** ** Vocabulary for the graphics pass *)

Definition slotStage (slot : GraphicsSlot) : ShaderStage :=
  match slot with
  | slot_vs => ShaderStageVertex
  | slot_hs => ShaderStageTessControl
  | slot_ds => ShaderStageTessEvaluation
  | slot_gs => ShaderStageGeometry
  | slot_ps => ShaderStageFragment
  end.

Definition slotBit (slot : GraphicsSlot) : Z :=
  match slot with
  | slot_vs => VK_SHADER_STAGE_VERTEX_BIT
  | slot_hs => VK_SHADER_STAGE_TESSELLATION_CONTROL_BIT
  | slot_ds => VK_SHADER_STAGE_TESSELLATION_EVALUATION_BIT
  | slot_gs => VK_SHADER_STAGE_GEOMETRY_BIT
  | slot_ps => VK_SHADER_STAGE_FRAGMENT_BIT
  end.

(** The dynamic-shader-info action of an entry for the stage of a slot. *)
Definition dynamicInfoOf (profileEntry : PipelineProfileEntry) (slot : GraphicsSlot)
    : DynamicShaderInfo.t :=
  dynamicShaderInfo (idx (Action.shaders (action profileEntry)) (slotStage slot)).

(** An entry that matches the key and, for a pipeline with the stages
    [shaderStages], overrides the compute-unit mask of a slot. *)
Definition setsCuEnableMask (pipelineKey : PipelineOptimizerKey) (shaderStages : Z)
    (slot : GraphicsSlot) (profileEntry : PipelineProfileEntry) : bool :=
  ProfilePatternMatchesPipeline (pattern profileEntry) pipelineKey
  && hasStage shaderStages (slotBit slot)
  && DynApply.cuEnableMask (DynamicShaderInfo.apply (dynamicInfoOf profileEntry slot)).

(** An entry that matches the key, for a pipeline with the stage of the slot
    among [shaderStages]: the pass then reaches the slot through
    [pGraphicsShaderInfos]. *)
Definition reachesSlot (pipelineKey : PipelineOptimizerKey) (shaderStages : Z)
    (slot : GraphicsSlot) (profileEntry : PipelineProfileEntry) : bool :=
  ProfilePatternMatchesPipeline (pattern profileEntry) pipelineKey
  && hasStage shaderStages (slotBit slot).

(** An entry that matches the key and overrides the late-alloc limit, resp.
    the binning mode. *)
Definition setsLateAllocVsLimit (pipelineKey : PipelineOptimizerKey)
    (profileEntry : PipelineProfileEntry) : bool :=
  ProfilePatternMatchesPipeline (pattern profileEntry) pipelineKey
  && CreateInfoApply.lateAllocVsLimit (CreateInfo.apply (Action.createInfo (action profileEntry))).

Definition setsBinningOverride (pipelineKey : PipelineOptimizerKey)
    (profileEntry : PipelineProfileEntry) : bool :=
  ProfilePatternMatchesPipeline (pattern profileEntry) pipelineKey
  && CreateInfoApply.binningOverride (CreateInfo.apply (Action.createInfo (action profileEntry))).

(** The target of the graphics pass: the two pointees, without the debug
    output. *)
Definition graphicsTarget {R C : Type} (st : GraphicsPassState R C)
    : option (Pal.GraphicsPipelineCreateInfo C) * option (Pal.DynamicGraphicsShaderInfos R) :=
  (palCreateInfo st, graphicsShaderInfos st).

(** One entry's effect on a slot and on the create-info, as functions. *)
Definition slotAfterEntry {R : Type} (pipelineKey : PipelineOptimizerKey) (shaderStages : Z)
    (slot : GraphicsSlot) (profileEntry : PipelineProfileEntry)
    (info : Pal.DynamicGraphicsShaderInfo R) : Pal.DynamicGraphicsShaderInfo R :=
  if setsCuEnableMask pipelineKey shaderStages slot profileEntry
  then Pal.mkDynamicGraphicsShaderInfo
         (DynamicShaderInfo.cuEnableMask (dynamicInfoOf profileEntry slot))
         (Pal.otherShaderInfo info)
  else info.

Definition createInfoAfterEntry {C : Type} (pipelineKey : PipelineOptimizerKey)
    (profileEntry : PipelineProfileEntry) (info : Pal.GraphicsPipelineCreateInfo C)
    : Pal.GraphicsPipelineCreateInfo C :=
  let createInfo := Action.createInfo (action profileEntry) in
  Pal.mkGraphicsPipelineCreateInfo
    (if setsLateAllocVsLimit pipelineKey profileEntry then true
     else Pal.useLateAllocVsLimit info)
    (if setsLateAllocVsLimit pipelineKey profileEntry
     then CreateInfo.lateAllocVsLimit createInfo else Pal.lateAllocVsLimit info)
    (if setsBinningOverride pipelineKey profileEntry
     then CreateInfo.binningOverride createInfo else Pal.binningOverride info)
    (Pal.otherCreateInfo info).

(** ** Sample inputs for the graphics pass *)

Definition sampleShaderInfo : Pal.DynamicGraphicsShaderInfo unit :=
  Pal.mkDynamicGraphicsShaderInfo 65535 tt.

(** A create-info with no override yet and five shader infos with all compute
    units enabled. *)
Definition sampleGraphicsState : GraphicsPassState unit unit :=
  mkGraphicsPassState
    (Some (Pal.mkGraphicsPipelineCreateInfo false 0 BinningOverride_Default tt))
    (Some (Pal.mkDynamicGraphicsShaderInfos sampleShaderInfo sampleShaderInfo
             sampleShaderInfo sampleShaderInfo sampleShaderInfo))
    [].

(** An entry that matches every pipeline and overrides, for every stage, the
    compute-unit mask, and at pipeline level the late-alloc limit and the
    binning mode. *)
Definition graphicsEntry (mask limit : Z) (binning : BinningOverride) : PipelineProfileEntry :=
  mkPipelineProfileEntry
    (Pattern.mkPipelineProfilePattern (PipelineMatch.mk 1) (fill zeroShaderProfilePattern))
    (Action.mk
       (fill (mkShaderProfileAction
                (DynamicShaderInfo.mk (DynApply.mk 2) 0 mask 0)
                (ShaderCreate.mk (CreateApply.mk 0) zeroShaderTuningOptions)))
       (CreateInfo.mk (CreateInfoApply.mk 3) limit binning)).

Definition graphicsOptimizer : ShaderOptimizer :=
  mkShaderOptimizer sampleSettings
    (profileWith [graphicsEntry 15 64 BinningOverride_Enable;
                  graphicsEntry 255 32 BinningOverride_Disable])
    (profileWith [])
    (profileWith []).

(** A vertex and fragment pipeline. *)
Definition vertexAndFragment : Z := 17.

(** Two statements that, from states with the same target, both fail or both
    complete with the same target. *)
Definition sameOnTarget {R C : Type} (m1 m2 : Update (GraphicsPassState R C)) : Prop :=
  forall s1 s2,
    graphicsTarget s1 = graphicsTarget s2 ->
    option_map graphicsTarget (m1 s1) = option_map graphicsTarget (m2 s2).

(** The binning override the tuning rule stores, if any: none for the
    setting [PipelineBinningModeDefault], and [Default] for a value of the
    setting that is none of the three enumerators. *)
Definition tuningBinning (settings : RuntimeSettings) : option BinningOverride :=
  match overrideUsePbbPerCrc settings with
  | PipelineBinningModeDefault => None
  | PipelineBinningModeEnable => Some BinningOverride_Enable
  | PipelineBinningModeDisable => Some BinningOverride_Disable
  | PipelineBinningModeOther => Some BinningOverride_Default
  end.

(** A build without the debug prints, and settings that ask for binning to
    be disabled and for no match print-out. *)
Definition quietConfig : BuildConfig := mkBuildConfig true 50 false.

Definition binningSettings : RuntimeSettings :=
  {| overrideShaderParams := true;
     overrideShaderHashLower := 0;
     overrideShaderHashUpper := 0;
     overrideShaderStage := 5;
     overrideNumVGPRsAvailable := 0;
     overrideMaxLdsSpillDwords := 0;
     overrideUserDataSpillThreshold := false;
     overrideAllowReZ := false;
     overrideEnableSelectiveInline := false;
     overrideDisableLoopUnrolls := false;
     overrideUseSiScheduler := false;
     overrideReconfigWorkgroupLayout := false;
     overrideDisableLicm := false;
     overrideEnableLoadScalarizer := false;
     overrideWaveSize := WaveSizeAuto;
     overrideWgpMode := WgpModeAuto;
     overrideUseNgg := false;
     overrideEnableSubvector := false;
     overrideWavesPerCu := 12;
     overrideCsTgPerCu := 3;
     overrideUsePbbPerCrc := PipelineBinningModeDisable;
     pipelineProfileDbgPrintProfileMatch := false |}.

Definition binningOptimizer : ShaderOptimizer :=
  mkShaderOptimizer binningSettings (profileWith []) (profileWith []) (profileWith []).

(** Settings whose binning mode is none of the three enumerators, and a
    graphics target whose binning override is [Enable]. *)
Definition unnamedBinningSettings : RuntimeSettings :=
  {| overrideShaderParams := true;
     overrideShaderHashLower := 0;
     overrideShaderHashUpper := 0;
     overrideShaderStage := 5;
     overrideNumVGPRsAvailable := 0;
     overrideMaxLdsSpillDwords := 0;
     overrideUserDataSpillThreshold := false;
     overrideAllowReZ := false;
     overrideEnableSelectiveInline := false;
     overrideDisableLoopUnrolls := false;
     overrideUseSiScheduler := false;
     overrideReconfigWorkgroupLayout := false;
     overrideDisableLicm := false;
     overrideEnableLoadScalarizer := false;
     overrideWaveSize := WaveSizeAuto;
     overrideWgpMode := WgpModeAuto;
     overrideUseNgg := false;
     overrideEnableSubvector := false;
     overrideWavesPerCu := 12;
     overrideCsTgPerCu := 3;
     overrideUsePbbPerCrc := PipelineBinningModeOther;
     pipelineProfileDbgPrintProfileMatch := false |}.

Definition unnamedBinningOptimizer : ShaderOptimizer :=
  mkShaderOptimizer unnamedBinningSettings (profileWith []) (profileWith [])
    (profileWith []).

Definition enabledBinningState : GraphicsPassState unit unit :=
  mkGraphicsPassState
    (Some (Pal.mkGraphicsPipelineCreateInfo false 0 BinningOverride_Enable tt))
    (graphicsShaderInfos sampleGraphicsState) [].

Definition withBinning {C : Type} (binning : option BinningOverride)
    (info : Pal.GraphicsPipelineCreateInfo C) : Pal.GraphicsPipelineCreateInfo C :=
  match binning with
  | Some b =>
      Pal.mkGraphicsPipelineCreateInfo (Pal.useLateAllocVsLimit info)
        (Pal.lateAllocVsLimit info) b (Pal.otherCreateInfo info)
  | None => info
  end.

(** ** The diagnostics *)

(** The entries in use with their indices. *)
Definition indexedEntriesInUse (profile : PipelineProfile)
    : list (nat * PipelineProfileEntry) :=
  combine (seq 0 (entryCount profile)) (entriesInUse profile).

(** What a pass over one profile prints: the report of each matching entry in
    use, in order, when the prints are compiled in and the setting is on. *)
Definition matchLines (cfg : BuildConfig) (this : ShaderOptimizer) (profile : ProfileMember)
    (pipelineKey : PipelineOptimizerKey) : list DbgLine :=
  flat_map
    (fun ie =>
       if PAL_ENABLE_PRINTS_ASSERTS cfg
          && pipelineProfileDbgPrintProfileMatch (m_settings this)
          && ProfilePatternMatchesPipeline (pattern (snd ie)) pipelineKey
       then PrintProfileEntryMatch cfg profile (fst ie) pipelineKey
       else [])
    (indexedEntriesInUse (profileOf this profile)).

(** What the three passes of an override function print. *)
Definition overrideLines (cfg : BuildConfig) (this : ShaderOptimizer)
    (pipelineKey : PipelineOptimizerKey) : list DbgLine :=
  matchLines cfg this member_appProfile pipelineKey
  ++ matchLines cfg this member_tuningProfile pipelineKey
  ++ (if ICD_RUNTIME_APP_PROFILE cfg
      then matchLines cfg this member_runtimeProfile pipelineKey else []).

Definition isNeverCalled (line : DbgLine) : bool :=
  match line with DbgNeverCalled => true | _ => false end.

Definition computeKey : PipelineOptimizerKey :=
  Key.mkPipelineOptimizerKey
    (upd (fill inactiveShader) ShaderStageCompute
       (Key.mkShaderOptimizerKey (mkShaderHash 7 9) 256)).

(** An optimizer whose three profiles each hold one rule that matches every
    pipeline, with the match print-out on. *)
Definition printingOptimizer : ShaderOptimizer :=
  mkShaderOptimizer sampleSettings
    (profileWith [alwaysEntry 0 zeroShaderTuningOptions])
    (profileWith [alwaysEntry 0 zeroShaderTuningOptions])
    (profileWith [alwaysEntry 0 zeroShaderTuningOptions]).

(** ** [ShaderOptimizer::BuildAppProfile] and [BuildAppProfileLlpc]

    The enumerations [AppProfile], [Pal::GfxIpLevel] and [Pal::AsicRevision]
    are read as their integer values; the enumerators the code names are
    constants of the missing headers and are taken as parameters. *)
Record HeaderConstants : Type := mkHeaderConstants {
  AppProfile_Dota2 : Z;
  AsicRevision_Polaris10 : Z;
  AsicRevision_Polaris12 : Z
}.

(** What the builders read from the device. *)
Record DeviceProperties : Type := mkDeviceProperties {
  GetAppProfile : Z;
  gfxLevel : Z;
  revision : Z
}.

(** The members of the settings structure that [Init] and the builders of the
    application and runtime profiles read, beside those of [RuntimeSettings];
    of the file name only whether its first character is the terminator
    matters here. *)
Record BuilderSettings : Type := mkBuilderSettings {
  pipelineProfileIgnoresAppProfile : bool;
  enablePipelineProfileDumping : bool;
  pipelineProfileRuntimeFileIsEmpty : bool;
  pipelineProfileHaltOnParseFailure : bool
}.

Definition set_m_appProfile (this : ShaderOptimizer) (p : PipelineProfile)
    : ShaderOptimizer :=
  mkShaderOptimizer (m_settings this) p (m_tuningProfile this) (m_runtimeProfile this).

(** [pEntries[i] = e]. *)
Definition setEntry (block : list PipelineProfileEntry) (i : nat) (e : PipelineProfileEntry)
    : list PipelineProfileEntry :=
  firstn i block ++ e :: skipn (S i) block.

(** The five stores one block of the table makes into the entry [pEntries[i]]. *)
Definition dota2Rule (hash : ShaderHash) (entry : PipelineProfileEntry)
    : PipelineProfileEntry :=
  let stagePattern := idx (Pattern.shaders (pattern entry)) ShaderStageFragment in
  let stageAction := idx (Action.shaders (action entry)) ShaderStageFragment in
  let match_ :=
    ShaderMatch.mk
      (bf_set (ShaderMatch.u32All (Pattern.match_ stagePattern))
         ShaderMatch.bit_stageActive true) in
  let match_ := ShaderMatch.set_codeHash match_ true in
  let stagePattern :=
    Pattern.mkShaderProfilePattern match_ hash
      (Pattern.codeSizeLessThanValue stagePattern) in
  let stageAction :=
    mkShaderProfileAction (dynamicShaderInfo stageAction)
      (ShaderCreate.mk
         (CreateApply.set_allowReZ (ShaderCreate.apply (shaderCreate stageAction)) true)
         (ShaderCreate.tuningOptions (shaderCreate stageAction))) in
  mkPipelineProfileEntry
    (Pattern.mkPipelineProfilePattern (Pattern.pmatch (pattern entry))
       (upd (Pattern.shaders (pattern entry)) ShaderStageFragment stagePattern))
    (Action.mk (upd (Action.shaders (action entry)) ShaderStageFragment stageAction)
       (Action.createInfo (action entry))).

(** One block of the table: [i = m_appProfile.entryCount++] and the stores
    into [pEntries[i]]; undefined when [pEntries] is null or [i] lies outside
    the block. *)
Definition appendDota2Rule (lower upper : Z) : Update PipelineProfile :=
  fun m_appProfile =>
    let i := entryCount m_appProfile in
    match pEntries m_appProfile with
    | Some block =>
        match nth_error block i with
        | Some entry =>
            Some (mkPipelineProfile (S i) (entryCapacity m_appProfile)
                    (Some (setEntry block i (dota2Rule (mkShaderHash lower upper) entry))))
        | None => None
        end
    | None => None
    end.

(** [ShaderOptimizer::BuildAppProfileLlpc], on [m_appProfile].
    [generatedBuildAppProfileLlpc] is [m_appShaderProfile.BuildAppProfileLlpc],
    a function of another file, taken as a parameter: any partial function of
    the application, the graphics level and the profile it is handed. *)
Definition BuildAppProfileLlpc (constants : HeaderConstants)
    (generatedBuildAppProfileLlpc : Z -> Z -> Update PipelineProfile)
    (device : DeviceProperties) : Update PipelineProfile :=
  let appProfile := GetAppProfile device in
  let gfxIpLevel := gfxLevel device in
  let asicRevision := revision device in
  generatedBuildAppProfileLlpc appProfile gfxIpLevel ;;
  when (appProfile =? AppProfile_Dota2 constants)
    (when ((AsicRevision_Polaris10 constants <=? asicRevision)
           && (asicRevision <=? AsicRevision_Polaris12 constants))
       (appendDota2Rule 0xdd6c573c46e6adf8 0x751207727c904749 ;;
        appendDota2Rule 0x71093bf7c6e98da8 0xfbc956d87a6d6631 ;;
        appendDota2Rule 0xedd89880de2091f9 0x506d0ac3995d2f1b ;;
        appendDota2Rule 0xbc583b30527e9f1d 0x1ef8276d42a14220 ;;
        appendDota2Rule 0x012ddab000f80610 0x3a65a6325756203d ;;
        appendDota2Rule 0x78095b5acf62f4d5 0x2c1afc1c6f669e33 ;;
        appendDota2Rule 0x22803b077988ec36 0x7ba50586c34e1662 ;;
        appendDota2Rule 0x313dab8ff9408da0 0xbb11905194a55485)).

(** [ShaderOptimizer::BuildAppProfile]; [pMemory] is what the allocation
    callback returned, as in [BuildTuningProfile]. *)
Definition BuildAppProfile (constants : HeaderConstants)
    (InitialPipelineProfileEntries : nat)
    (generatedBuildAppProfileLlpc : Z -> Z -> Update PipelineProfile)
    (builderSettings : BuilderSettings) (device : DeviceProperties)
    (this : ShaderOptimizer) (pMemory : option (list PipelineProfileEntry))
    : option ShaderOptimizer :=
  (* entryCount = 0; entryCapacity = InitialPipelineProfileEntries; pEntries = pMemory *)
  let unbuilt := mkPipelineProfile 0 InitialPipelineProfileEntries pMemory in
  if negb (pipelineProfileIgnoresAppProfile builderSettings)
     && match pMemory with Some _ => true | None => false end
  then
    (* memset(pMemory, 0, newSize) *)
    let zeroed :=
      mkPipelineProfile 0 InitialPipelineProfileEntries
        (Some (repeat zeroPipelineProfileEntry InitialPipelineProfileEntries)) in
    option_map (set_m_appProfile this)
      (BuildAppProfileLlpc constants generatedBuildAppProfileLlpc device zeroed)
  else Some (set_m_appProfile this unbuilt).

(** The hashes of the table, in the order of the source. *)
Definition dota2Hashes : list ShaderHash :=
  [mkShaderHash 0xdd6c573c46e6adf8 0x751207727c904749;
   mkShaderHash 0x71093bf7c6e98da8 0xfbc956d87a6d6631;
   mkShaderHash 0xedd89880de2091f9 0x506d0ac3995d2f1b;
   mkShaderHash 0xbc583b30527e9f1d 0x1ef8276d42a14220;
   mkShaderHash 0x012ddab000f80610 0x3a65a6325756203d;
   mkShaderHash 0x78095b5acf62f4d5 0x2c1afc1c6f669e33;
   mkShaderHash 0x22803b077988ec36 0x7ba50586c34e1662;
   mkShaderHash 0x313dab8ff9408da0 0xbb11905194a55485].

Definition hashEqb (a b : ShaderHash) : bool :=
  (lower a =? lower b) && (upper a =? upper b).

(** The pipelines the table is about: an active fragment shader whose hash is
    in the table. *)
Definition dota2Pipeline (pipelineKey : PipelineOptimizerKey) : bool :=
  let shader := idx (Key.shaders pipelineKey) ShaderStageFragment in
  negb (Key.codeSize shader =? 0)
  && existsb (fun hash => hashEqb hash (Key.codeHash shader)) dota2Hashes.

(** The device on which the table is added, for given header constants. *)
Definition onDota2Polaris (constants : HeaderConstants) (device : DeviceProperties) : bool :=
  (GetAppProfile device =? AppProfile_Dota2 constants)
  && (AsicRevision_Polaris10 constants <=? revision device)
  && (revision device <=? AsicRevision_Polaris12 constants).

(** Samples: header constants, a Dota 2 device on a Polaris 11, a generated
    builder that adds nothing, and one that adds a rule of its own. *)
Definition sampleConstants : HeaderConstants := mkHeaderConstants 7 40 42.

Definition dota2Device : DeviceProperties := mkDeviceProperties 7 2 41.

Definition otherDevice : DeviceProperties := mkDeviceProperties 3 2 41.

Definition noGeneratedRules : Z -> Z -> Update PipelineProfile := fun _ _ => skip.

Definition oneGeneratedRule : Z -> Z -> Update PipelineProfile :=
  fun _ _ profile =>
    match pEntries profile with
    | Some (_ :: rest) =>
        Some (mkPipelineProfile 1 (entryCapacity profile)
                (Some (alwaysEntry 1 (vgprPayload 24) :: rest)))
    | _ => None
    end.

Definition defaultBuilderSettings : BuilderSettings := mkBuilderSettings false false true false.

(** Blocks of the table run one after the other, and the entries they leave
    from the hashes and the entries they overwrite. *)
Fixpoint appendDota2Rules (hashes : list ShaderHash) : Update PipelineProfile :=
  match hashes with
  | [] => skip
  | hash :: rest => appendDota2Rule (lower hash) (upper hash) ;; appendDota2Rules rest
  end.

Definition tableRules (hashes : list ShaderHash) (overwritten : list PipelineProfileEntry)
    : list PipelineProfileEntry :=
  map (fun he => dota2Rule (fst he) (snd he)) (combine hashes overwritten).

(** The profile [BuildAppProfile] hands to [BuildAppProfileLlpc]. *)
Definition zeroedProfile (InitialPipelineProfileEntries : nat) : PipelineProfile :=
  mkPipelineProfile 0 InitialPipelineProfileEntries
    (Some (repeat zeroPipelineProfileEntry InitialPipelineProfileEntries)).

(** A pipeline of the table: an active fragment shader with the fifth hash. *)
Definition dota2Key : PipelineOptimizerKey :=
  Key.mkPipelineOptimizerKey
    (upd (fill inactiveShader) ShaderStageFragment
       (Key.mkShaderOptimizerKey (mkShaderHash 0x012ddab000f80610 0x3a65a6325756203d) 900)).

(** ** [ShaderOptimizer::RuntimeProfileParseError] and [BuildRuntimeProfile]

    The loop of [RuntimeProfileParseError] has an empty body and tests a
    member that is not volatile and that nothing changes.  With the setting
    off, the function returns.  With the setting on, the loop cannot end, and
    the language gives a loop without side effects that does not end no
    meaning: an implementation may take it to end, so one build spins there
    and another drops the loop and returns.  The call is then undefined,
    [None].  The [VK_ASSERT] before the loop is left out: this is the function
    of a build without asserts, the one the loop is there for. *)
Definition RuntimeProfileParseError (builderSettings : BuilderSettings) : option unit :=
  if pipelineProfileHaltOnParseFailure builderSettings then None else Some tt.

(** What the file system, the allocator and the JSON code of the other files
    answer in [BuildRuntimeProfile], taken as parameters: whether the file
    opens, whether the buffer is allocated, the number of bytes read, whether
    [JsonParse] returns a document, and [ParseJsonProfile] as a function from
    the profile it is handed to its result and the profile it leaves. *)
Record RuntimeProfileFile : Type := mkRuntimeProfileFile {
  fileOpens : bool;
  jsonBufferAllocated : bool;
  bytesRead : nat;
  jsonParses : bool;
  ParseJsonProfile : PipelineProfile -> bool * PipelineProfile
}.

Definition set_m_runtimeProfile (this : ShaderOptimizer) (p : PipelineProfile)
    : ShaderOptimizer :=
  mkShaderOptimizer (m_settings this) (m_appProfile this) (m_tuningProfile this) p.

(** [ShaderOptimizer::BuildRuntimeProfile]; [None] when it reaches the
    undefined call of [RuntimeProfileParseError]. *)
Definition BuildRuntimeProfile (InitialPipelineProfileEntries : nat)
    (builderSettings : BuilderSettings) (file : RuntimeProfileFile)
    (this : ShaderOptimizer) (pMemory : option (list PipelineProfileEntry))
    : option ShaderOptimizer :=
  (* entryCount = 0; entryCapacity = InitialPipelineProfileEntries; pEntries = pMemory *)
  let unbuilt := mkPipelineProfile 0 InitialPipelineProfileEntries pMemory in
  match pMemory with
  | None => Some (set_m_runtimeProfile this unbuilt)
  | Some _ =>
      (* memset(pMemory, 0, newSize) *)
      let zeroed := zeroedProfile InitialPipelineProfileEntries in
      if negb (pipelineProfileRuntimeFileIsEmpty builderSettings) then
        if fileOpens file then
          if jsonBufferAllocated file then
            if (0 <? bytesRead file)%nat then
              if jsonParses file then
                let (success, parsed) := ParseJsonProfile file zeroed in
                if negb success then
                  match RuntimeProfileParseError builderSettings with
                  | Some _ => Some (set_m_runtimeProfile this parsed)
                  | None => None
                  end
                else Some (set_m_runtimeProfile this parsed)
              else
                match RuntimeProfileParseError builderSettings with
                | Some _ => Some (set_m_runtimeProfile this zeroed)
                | None => None
                end
            else Some (set_m_runtimeProfile this zeroed)
          else Some (set_m_runtimeProfile this zeroed)
        else Some (set_m_runtimeProfile this zeroed)
      else Some (set_m_runtimeProfile this zeroed)
  end.

(** The file is read as far as the parser, and the parse fails: [JsonParse]
    returns no document, or [ParseJsonProfile] reports a failure. *)
Definition parseFailure (InitialPipelineProfileEntries : nat)
    (builderSettings : BuilderSettings) (file : RuntimeProfileFile) : bool :=
  negb (pipelineProfileRuntimeFileIsEmpty builderSettings)
  && fileOpens file && jsonBufferAllocated file && (0 <? bytesRead file)%nat
  && (negb (jsonParses file)
      || negb (fst (ParseJsonProfile file (zeroedProfile InitialPipelineProfileEntries)))).

(** [ParseJsonProfile] is reached and reports success. *)
Definition parseSuccess (InitialPipelineProfileEntries : nat)
    (builderSettings : BuilderSettings) (file : RuntimeProfileFile) : bool :=
  negb (pipelineProfileRuntimeFileIsEmpty builderSettings)
  && fileOpens file && jsonBufferAllocated file && (0 <? bytesRead file)%nat
  && jsonParses file
  && fst (ParseJsonProfile file (zeroedProfile InitialPipelineProfileEntries)).

(** ** [ShaderOptimizer::Init] *)

Inductive Outcome (A : Type) : Type :=
  | Returns (a : A)
  | Undefined.
Arguments Returns {A}.
Arguments Undefined {A}.

(** The optimizer [Init] leaves, and the profile it handed to
    [PipelineProfileToJson] (a function of another file) if it did. *)
Record Initialized : Type := mkInitialized {
  optimizer : ShaderOptimizer;
  dumpedProfile : option PipelineProfile
}.

(** [ShaderOptimizer::Init].  The three [pMemory] arguments are what the
    allocation callback returns to the three builders, in call order. *)
Definition Init (cfg : BuildConfig) (constants : HeaderConstants)
    (InitialPipelineProfileEntries : nat)
    (generatedBuildAppProfileLlpc : Z -> Z -> Update PipelineProfile)
    (builderSettings : BuilderSettings) (device : DeviceProperties)
    (file : RuntimeProfileFile) (this : ShaderOptimizer)
    (pMemoryApp pMemoryTuning pMemoryRuntime : option (list PipelineProfileEntry))
    : Outcome Initialized :=
  match BuildAppProfile constants InitialPipelineProfileEntries generatedBuildAppProfileLlpc
          builderSettings device this pMemoryApp with
  | None => Undefined
  | Some this =>
      match BuildTuningProfile InitialPipelineProfileEntries this pMemoryTuning with
      | None => Undefined
      | Some this =>
          let dumped :=
            if enablePipelineProfileDumping builderSettings
            then Some (m_tuningProfile this) else None in
          if ICD_RUNTIME_APP_PROFILE cfg then
            match BuildRuntimeProfile InitialPipelineProfileEntries builderSettings
                    file this pMemoryRuntime with
            | Some this => Returns (mkInitialized this dumped)
            | None => Undefined
            end
          else Returns (mkInitialized this dumped)
      end
  end.

(** Samples: a file whose JSON does not parse, one that parses into a single
    rule, and settings that name a file, with and without the halt. *)
Definition brokenFile : RuntimeProfileFile :=
  mkRuntimeProfileFile true true 120 false (fun profile => (true, profile)).

Definition goodFile : RuntimeProfileFile :=
  mkRuntimeProfileFile true true 120 true
    (fun profile =>
       (true, mkPipelineProfile 1 (entryCapacity profile)
                (Some [alwaysEntry 1 (vgprPayload 24)]))).

Definition haltingSettings : BuilderSettings := mkBuilderSettings false false false true.

Definition fileSettings : BuilderSettings := mkBuilderSettings false true false false.

(** ** Stores through unchecked pointers *)

(** A statement over a state with two pointers that are dereferenced without
    a test, [nullA] and [nullB] telling whether each is null: from a state
    that satisfies [ok] the statement is undefined exactly when it stores
    through the first pointer ([storesA]) and that pointer is null, or
    through the second one ([storesB]) and that one is null; when it
    completes, [ok] still holds and no pointer has changed between null and
    non-null. *)
Definition guarded {St : Type} (ok : St -> Prop) (nullA nullB : St -> bool)
    (m : Update St) (storesA storesB : bool) : Prop :=
  (forall t t', ok t -> m t = Some t' ->
     ok t' /\ nullA t' = nullA t /\ nullB t' = nullB t)
  /\ (forall t, ok t ->
        (m t = None <-> (storesA && nullA t) || (storesB && nullB t) = true)).

Definition isNull {A : Type} (p : option A) : bool :=
  match p with Some _ => false | None => true end.

(** The members behind [pNggState]. *)
Definition nggFields : list OptionField :=
  [F_enableNgg; F_enableFastLaunch; F_enableVertexReuse; F_enableFrustumCulling;
   F_enableBoxFilterCulling; F_enableSphereCulling; F_enableBackfaceCulling;
   F_enableSmallPrimFilter].

Definition allSlots : list GraphicsSlot := [slot_vs; slot_hs; slot_ds; slot_gs; slot_ps].

(** Options whose [pNggState] is null, and a rule that disables NGG for every
    pipeline. *)
Definition noNggOptions : PipelineShaderOptionsPtr :=
  mkPipelineShaderOptionsPtr (pPipelineOptions sampleOptions) (pOptions sampleOptions) None.

Definition nggDisableEntry : PipelineProfileEntry :=
  alwaysEntry (Z.shiftl 1 CreateApply.bit_nggDisable) zeroShaderTuningOptions.

(** A graphics target whose shader infos are missing. *)
Definition noShaderInfosState : GraphicsPassState unit unit :=
  mkGraphicsPassState (palCreateInfo sampleGraphicsState) None [].

(** * Properties *)

(** ** The model runs *)

(** A rule as the built-in table writes them (fragment stage active, hash
    equal, [allowReZ] applied) on a pipeline with that fragment shader. *)
Example builtin_rule_matches :
  ProfilePatternMatchesPipeline
    (fragmentPattern 0 5 (mkShaderHash 0xdd6c573c46e6adf8 0x751207727c904749) 0)
    fragmentOnlyKey = true.
Proof. reflexivity. Qed.

Example builtin_rule_trace :
  ProfilePatternMatchesPipelineTraced
    (fragmentPattern 0 5 (mkShaderHash 0xdd6c573c46e6adf8 0x751207727c904749) 0)
    fragmentOnlyKey = (true, [ShaderStageFragment]).
Proof. reflexivity. Qed.

Example allowReZ_applied :
  option_map (fieldValue F_allowReZ)
    (ApplyProfileToShaderCreateInfo sampleConfig
       (profileWith [alwaysEntry 128 zeroShaderTuningOptions]) fragmentOnlyKey
       ShaderStageFragment sampleOptions) = Some (Some 1).
Proof. reflexivity. Qed.

Example override_order :
  option_map (fieldValue F_vgprLimit)
    (OverrideShaderCreateInfo sampleConfig sampleOptimizer fragmentOnlyKey
       ShaderStageFragment sampleOptions) = Some (Some 96).
Proof. reflexivity. Qed.

Example tuning_profile_built :
  option_map (fun this => entryCount (m_tuningProfile this))
    (BuildTuningProfile 32 sampleOptimizer (Some [])) = Some 1%nat.
Proof. reflexivity. Qed.

(** ** Per-stage arrays *)

Lemma idx_upd_same {T : Type} (a : PerStage T) (s : ShaderStage) (v : T) :
  idx (upd a s v) s = v.
Proof. destruct s; reflexivity. Qed.

Lemma idx_upd_other {T : Type} (a : PerStage T) (s s' : ShaderStage) (v : T) :
  s <> s' -> idx (upd a s v) s' = idx a s'.
Proof. destruct s, s'; intros H; try reflexivity; contradiction H; reflexivity. Qed.

Lemma allStages_complete (s : ShaderStage) : In s allStages.
Proof. destruct s; simpl; tauto. Qed.

Lemma stageOfIndex_stageIndex (s : ShaderStage) : stageOfIndex (stageIndex s) = Some s.
Proof. destruct s; reflexivity. Qed.

Lemma stageOfIndex_in_range (i : Z) :
  0 <= i < ShaderStageCount -> exists s, stageOfIndex i = Some s /\ stageIndex s = i.
Proof.
  unfold ShaderStageCount; intros H.
  assert (i = 0 \/ i = 1 \/ i = 2 \/ i = 3 \/ i = 4 \/ i = 5) as D by lia.
  decompose [or] D; subst i; eexists; (split; [reflexivity|reflexivity]).
Qed.

(** ** Bit-fields *)

Lemma bf_get_zero (i : Z) : bf_get 0 i = false.
Proof. apply Z.bits_0. Qed.

Lemma bf_get_set_same (w i : Z) (b : bool) : 0 <= i -> bf_get (bf_set w i b) i = b.
Proof.
  intros Hi; unfold bf_get, bf_set; destruct b.
  - apply Z.setbit_eq; assumption.
  - apply Z.clearbit_eq.
Qed.

Lemma bf_get_set_other (w i j : Z) (b : bool) :
  0 <= i -> i <> j -> bf_get (bf_set w i b) j = bf_get w j.
Proof.
  intros Hi Hij; unfold bf_get, bf_set; destruct b.
  - apply Z.setbit_neq; assumption.
  - apply Z.clearbit_neq; assumption.
Qed.

(** ** The matcher *)

(** The guard [u32All != 0] only skips work: with a zero word no test is
    enabled, so the body is the conjunction of the four tests. *)
Lemma stageBody_tests (sp : ShaderProfilePattern) (sk : ShaderOptimizerKey) :
  stageBody sp sk =
  negb (stageActiveTestFails sp sk) && negb (stageInactiveTestFails sp sk)
  && negb (codeHashTestFails sp sk) && negb (codeSizeLessThanTestFails sp sk).
Proof.
  unfold stageBody.
  destruct (ShaderMatch.u32All (Pattern.match_ sp) =? 0) eqn:E; simpl.
  - apply Z.eqb_eq in E.
    unfold stageActiveTestFails, stageInactiveTestFails, codeHashTestFails,
      codeSizeLessThanTestFails, ShaderMatch.stageActive, ShaderMatch.stageInactive,
      ShaderMatch.codeHash, ShaderMatch.codeSizeLessThan.
    rewrite E, !bf_get_zero; reflexivity.
  - destruct (stageActiveTestFails sp sk), (stageInactiveTestFails sp sk),
      (codeHashTestFails sp sk), (codeSizeLessThanTestFails sp sk); reflexivity.
Qed.

Lemma stageLoop_forallb (stages : list ShaderStage) (p : PipelineProfilePattern)
    (k : PipelineOptimizerKey) :
  stageLoop stages p k =
  forallb (fun s => stageBody (idx (Pattern.shaders p) s) (idx (Key.shaders k) s)) stages.
Proof.
  induction stages as [|s rest IH]; simpl; [reflexivity|].
  rewrite IH.
  destruct (stageBody (idx (Pattern.shaders p) s) (idx (Key.shaders k) s)); reflexivity.
Qed.

Lemma stageLoop_all (p : PipelineProfilePattern) (k : PipelineOptimizerKey) :
  stageLoop allStages p k = true <->
  forall s, stageBody (idx (Pattern.shaders p) s) (idx (Key.shaders k) s) = true.
Proof.
  rewrite stageLoop_forallb, forallb_forall; split.
  - intros H s; apply H, allStages_complete.
  - intros H s _; apply H.
Qed.

Lemma stageLoop_ext (p p' : PipelineProfilePattern) (k : PipelineOptimizerKey) :
  (forall s, stageBody (idx (Pattern.shaders p) s) (idx (Key.shaders k) s)
             = stageBody (idx (Pattern.shaders p') s) (idx (Key.shaders k) s)) ->
  stageLoop allStages p k = stageLoop allStages p' k.
Proof.
  intros H; rewrite !stageLoop_forallb.
  induction allStages as [|s rest IH]; simpl; [reflexivity|].
  rewrite H, IH; reflexivity.
Qed.

Lemma stageLoop_fails (p : PipelineProfilePattern) (k : PipelineOptimizerKey)
    (s : ShaderStage) :
  stageBody (idx (Pattern.shaders p) s) (idx (Key.shaders k) s) = false ->
  stageLoop allStages p k = false.
Proof.
  intros H; destruct (stageLoop allStages p k) eqn:E; [|reflexivity].
  rewrite (proj1 (stageLoop_all p k) E s) in H; discriminate.
Qed.

(** The ghost trace does not change the result. *)
Lemma stageLoopTraced_result (stages : list ShaderStage) (p : PipelineProfilePattern)
    (k : PipelineOptimizerKey) :
  fst (stageLoopTraced stages p k) = stageLoop stages p k.
Proof.
  induction stages as [|s rest IH]; simpl; [reflexivity|].
  unfold stageBody at 2.
  destruct (negb (ShaderMatch.u32All (Pattern.match_ (idx (Pattern.shaders p) s)) =? 0)) eqn:G.
  - unfold stageBody; rewrite G.
    fold (stageBody (idx (Pattern.shaders p) s) (idx (Key.shaders k) s)).
    destruct (if stageActiveTestFails _ _ then false else _) eqn:B; simpl; [apply IH|reflexivity].
  - apply IH.
Qed.

Lemma ProfilePatternMatchesPipelineTraced_result (p : PipelineProfilePattern)
    (k : PipelineOptimizerKey) :
  fst (ProfilePatternMatchesPipelineTraced p k) = ProfilePatternMatchesPipeline p k.
Proof.
  unfold ProfilePatternMatchesPipelineTraced, ProfilePatternMatchesPipeline.
  destruct (PipelineMatch.always (Pattern.pmatch p)); [reflexivity|].
  apply stageLoopTraced_result.
Qed.

(** C4. A pattern whose [always] flag is set matches every pipeline key, and
    the function returns before any per-stage test: the ghost trace of
    evaluated stages is empty. *)
Theorem always_pattern_matches (pattern : PipelineProfilePattern)
    (pipelineKey : PipelineOptimizerKey) :
  PipelineMatch.always (Pattern.pmatch pattern) = true ->
  ProfilePatternMatchesPipeline pattern pipelineKey = true
  /\ ProfilePatternMatchesPipelineTraced pattern pipelineKey = (true, []).
Proof.
  intros H; unfold ProfilePatternMatchesPipeline, ProfilePatternMatchesPipelineTraced.
  rewrite H; split; reflexivity.
Qed.

Lemma always_pattern_matches_witness :
  ProfilePatternMatchesPipeline
    (fragmentPattern 1 15 (mkShaderHash 1 2) 5000) fragmentOnlyKey = true
  /\ ProfilePatternMatchesPipelineTraced
       (fragmentPattern 1 15 (mkShaderHash 1 2) 5000) fragmentOnlyKey = (true, []).
Proof. apply always_pattern_matches; reflexivity. Defined.

(** C5. A pattern whose [always] flag is unset and whose per-stage match words
    are all zero matches every pipeline key. *)
Theorem empty_pattern_matches (pattern : PipelineProfilePattern)
    (pipelineKey : PipelineOptimizerKey) :
  PipelineMatch.always (Pattern.pmatch pattern) = false ->
  (forall stage,
     ShaderMatch.u32All (Pattern.match_ (idx (Pattern.shaders pattern) stage)) = 0) ->
  ProfilePatternMatchesPipeline pattern pipelineKey = true.
Proof.
  intros Ha Hz; unfold ProfilePatternMatchesPipeline; rewrite Ha.
  apply stageLoop_all; intros s; unfold stageBody; rewrite Hz; reflexivity.
Qed.

Lemma empty_pattern_matches_witness :
  ProfilePatternMatchesPipeline
    (fragmentPattern 0 0 (mkShaderHash 1 2) 5000) fragmentOnlyKey = true.
Proof.
  apply empty_pattern_matches; [reflexivity|].
  intros stage; destruct stage; reflexivity.
Defined.

(** C2. For a stage whose size-less-than test is enabled, with threshold T and
    key size S: the condition of the test holds exactly when T >= S.  When
    T >= S the function returns false on the path that runs the per-stage
    tests ([always] unset).  When T < S the test passes: the pattern matches
    exactly when it does with that test switched off, and when no other test
    of any stage fails the function returns true.  So with [always] unset and
    no other test failing, the function returns true exactly when T < S and
    false exactly when T >= S. *)
Theorem codeSizeLessThan_boundary (pattern : PipelineProfilePattern)
    (pipelineKey : PipelineOptimizerKey) (stage : ShaderStage) :
  ShaderMatch.codeSizeLessThan (Pattern.match_ (idx (Pattern.shaders pattern) stage)) = true ->
  (codeSizeLessThanTestFails (idx (Pattern.shaders pattern) stage)
     (idx (Key.shaders pipelineKey) stage) = true
   <-> Pattern.codeSizeLessThanValue (idx (Pattern.shaders pattern) stage)
       >= Key.codeSize (idx (Key.shaders pipelineKey) stage))
  /\ (Pattern.codeSizeLessThanValue (idx (Pattern.shaders pattern) stage)
      >= Key.codeSize (idx (Key.shaders pipelineKey) stage) ->
      PipelineMatch.always (Pattern.pmatch pattern) = false ->
      ProfilePatternMatchesPipeline pattern pipelineKey = false)
  /\ (Pattern.codeSizeLessThanValue (idx (Pattern.shaders pattern) stage)
      < Key.codeSize (idx (Key.shaders pipelineKey) stage) ->
      ProfilePatternMatchesPipeline pattern pipelineKey
      = ProfilePatternMatchesPipeline (withoutCodeSizeLessThan pattern stage) pipelineKey)
  /\ (PipelineMatch.always (Pattern.pmatch pattern) = false ->
      stageActiveTestFails (idx (Pattern.shaders pattern) stage)
        (idx (Key.shaders pipelineKey) stage) = false ->
      stageInactiveTestFails (idx (Pattern.shaders pattern) stage)
        (idx (Key.shaders pipelineKey) stage) = false ->
      codeHashTestFails (idx (Pattern.shaders pattern) stage)
        (idx (Key.shaders pipelineKey) stage) = false ->
      (forall s, s <> stage ->
         stagePasses (idx (Pattern.shaders pattern) s) (idx (Key.shaders pipelineKey) s)) ->
      (ProfilePatternMatchesPipeline pattern pipelineKey = true
       <-> Pattern.codeSizeLessThanValue (idx (Pattern.shaders pattern) stage)
           < Key.codeSize (idx (Key.shaders pipelineKey) stage))
      /\ (ProfilePatternMatchesPipeline pattern pipelineKey = false
          <-> Pattern.codeSizeLessThanValue (idx (Pattern.shaders pattern) stage)
              >= Key.codeSize (idx (Key.shaders pipelineKey) stage))).
Proof.
  intros Hbit.
  assert (Hfail : codeSizeLessThanTestFails (idx (Pattern.shaders pattern) stage)
                    (idx (Key.shaders pipelineKey) stage) = true
                  <-> Pattern.codeSizeLessThanValue (idx (Pattern.shaders pattern) stage)
                      >= Key.codeSize (idx (Key.shaders pipelineKey) stage)).
  { unfold codeSizeLessThanTestFails; rewrite Hbit; simpl.
    rewrite Z.geb_leb, Z.leb_le; lia. }
  assert (Hfalse : Pattern.codeSizeLessThanValue (idx (Pattern.shaders pattern) stage)
                   >= Key.codeSize (idx (Key.shaders pipelineKey) stage) ->
                   PipelineMatch.always (Pattern.pmatch pattern) = false ->
                   ProfilePatternMatchesPipeline pattern pipelineKey = false).
  { intros Hge Ha; unfold ProfilePatternMatchesPipeline; rewrite Ha.
    apply (stageLoop_fails _ _ stage).
    rewrite stageBody_tests, (proj2 Hfail Hge), !andb_false_r; reflexivity. }
  split; [exact Hfail|split; [exact Hfalse|split]].
  - intros Hlt; unfold ProfilePatternMatchesPipeline, withoutCodeSizeLessThan.
    cbn [Pattern.pmatch].
    destruct (PipelineMatch.always (Pattern.pmatch pattern)); [reflexivity|].
    apply stageLoop_ext; intros s; cbn [Pattern.shaders].
    destruct (ShaderStage_eq_dec stage s) as [<-|Hne].
    + rewrite idx_upd_same, !stageBody_tests.
      assert (F1 : codeSizeLessThanTestFails (idx (Pattern.shaders pattern) stage)
                     (idx (Key.shaders pipelineKey) stage) = false).
      { apply not_true_is_false; intros E; apply Hfail in E; lia. }
      rewrite F1.
      unfold stageActiveTestFails, stageInactiveTestFails, codeHashTestFails,
        codeSizeLessThanTestFails, ShaderMatch.stageActive, ShaderMatch.stageInactive,
        ShaderMatch.codeHash, ShaderMatch.codeSizeLessThan,
        ShaderMatch.set_codeSizeLessThan.
      cbn [Pattern.match_ Pattern.codeHash Pattern.codeSizeLessThanValue ShaderMatch.u32All].
      rewrite bf_get_set_same by (unfold ShaderMatch.bit_codeSizeLessThan; lia).
      rewrite !bf_get_set_other
        by (unfold ShaderMatch.bit_codeSizeLessThan, ShaderMatch.bit_stageActive,
              ShaderMatch.bit_stageInactive, ShaderMatch.bit_codeHash; lia).
      reflexivity.
    + rewrite idx_upd_other by assumption; reflexivity.
  - intros Ha Hactive Hinactive Hhash Hothers.
    assert (Htrue : Pattern.codeSizeLessThanValue (idx (Pattern.shaders pattern) stage)
                    < Key.codeSize (idx (Key.shaders pipelineKey) stage) ->
                    ProfilePatternMatchesPipeline pattern pipelineKey = true).
    { intros Hlt; unfold ProfilePatternMatchesPipeline; rewrite Ha.
      apply stageLoop_all; intros s; rewrite stageBody_tests.
      destruct (ShaderStage_eq_dec s stage) as [->|Hne].
      - assert (F1 : codeSizeLessThanTestFails (idx (Pattern.shaders pattern) stage)
                       (idx (Key.shaders pipelineKey) stage) = false).
        { apply not_true_is_false; intros E; apply Hfail in E; lia. }
        rewrite Hactive, Hinactive, Hhash, F1; reflexivity.
      - destruct (Hothers s Hne) as (P1 & P2 & P3 & P4).
        rewrite P1, P2, P3, P4; reflexivity. }
    split; split.
    + intros Hm.
      destruct (Z_lt_ge_dec (Pattern.codeSizeLessThanValue (idx (Pattern.shaders pattern) stage))
                  (Key.codeSize (idx (Key.shaders pipelineKey) stage))) as [Hlt|Hge];
        [exact Hlt|].
      rewrite (Hfalse Hge Ha) in Hm; discriminate.
    + exact Htrue.
    + intros Hm.
      destruct (Z_lt_ge_dec (Pattern.codeSizeLessThanValue (idx (Pattern.shaders pattern) stage))
                  (Key.codeSize (idx (Key.shaders pipelineKey) stage))) as [Hlt|Hge];
        [|exact Hge].
      rewrite (Htrue Hlt) in Hm; discriminate.
    + intros Hge; exact (Hfalse Hge Ha).
Qed.

Lemma codeSizeLessThan_boundary_witness :
  ProfilePatternMatchesPipeline
    (fragmentPattern 0 8 (mkShaderHash 0 0) 4096) fragmentOnlyKey = false
  /\ ProfilePatternMatchesPipeline
       (fragmentPattern 0 8 (mkShaderHash 0 0) 4095) fragmentOnlyKey = true
  /\ ProfilePatternMatchesPipeline
       (fragmentPattern 0 8 (mkShaderHash 0 0) 4095) fragmentOnlyKey
     = ProfilePatternMatchesPipeline
         (withoutCodeSizeLessThan (fragmentPattern 0 8 (mkShaderHash 0 0) 4095)
            ShaderStageFragment)
         fragmentOnlyKey.
Proof.
  split; [|split].
  - apply (proj1 (proj2 (codeSizeLessThan_boundary
                           (fragmentPattern 0 8 (mkShaderHash 0 0) 4096) fragmentOnlyKey
                           ShaderStageFragment eq_refl)));
      [simpl; lia|reflexivity].
  - apply (proj1 (proj2 (proj2 (proj2 (codeSizeLessThan_boundary
                           (fragmentPattern 0 8 (mkShaderHash 0 0) 4095) fragmentOnlyKey
                           ShaderStageFragment eq_refl)))
                    eq_refl eq_refl eq_refl eq_refl
                    (fun s _ =>
                       match s return
                         stagePasses
                           (idx (Pattern.shaders
                                   (fragmentPattern 0 8 (mkShaderHash 0 0) 4095)) s)
                           (idx (Key.shaders fragmentOnlyKey) s)
                       with
                       | ShaderStageFragment =>
                           conj eq_refl (conj eq_refl (conj eq_refl eq_refl))
                       | _ => conj eq_refl (conj eq_refl (conj eq_refl eq_refl))
                       end))).
    simpl; lia.
  - apply (proj1 (proj2 (proj2 (codeSizeLessThan_boundary
                           (fragmentPattern 0 8 (mkShaderHash 0 0) 4095) fragmentOnlyKey
                           ShaderStageFragment eq_refl)))).
    simpl; lia.
Defined.

(** C6. For a stage whose hash-equality test is enabled: on the path that runs
    the per-stage tests ([always] unset) the function returns false when the
    key's hash for that stage differs from the pattern's in either half; it
    returns true when both halves agree and no other enabled test of any
    stage fails. *)
Theorem codeHash_test_decides (pattern : PipelineProfilePattern)
    (pipelineKey : PipelineOptimizerKey) (stage : ShaderStage) :
  ShaderMatch.codeHash (Pattern.match_ (idx (Pattern.shaders pattern) stage)) = true ->
  (PipelineMatch.always (Pattern.pmatch pattern) = false ->
   lower (Pattern.codeHash (idx (Pattern.shaders pattern) stage))
     <> lower (Key.codeHash (idx (Key.shaders pipelineKey) stage))
   \/ upper (Pattern.codeHash (idx (Pattern.shaders pattern) stage))
      <> upper (Key.codeHash (idx (Key.shaders pipelineKey) stage)) ->
   ProfilePatternMatchesPipeline pattern pipelineKey = false)
  /\ (lower (Pattern.codeHash (idx (Pattern.shaders pattern) stage))
        = lower (Key.codeHash (idx (Key.shaders pipelineKey) stage)) ->
      upper (Pattern.codeHash (idx (Pattern.shaders pattern) stage))
        = upper (Key.codeHash (idx (Key.shaders pipelineKey) stage)) ->
      (forall s,
         stageActiveTestFails (idx (Pattern.shaders pattern) s)
           (idx (Key.shaders pipelineKey) s) = false
         /\ stageInactiveTestFails (idx (Pattern.shaders pattern) s)
              (idx (Key.shaders pipelineKey) s) = false
         /\ codeSizeLessThanTestFails (idx (Pattern.shaders pattern) s)
              (idx (Key.shaders pipelineKey) s) = false) ->
      (forall s, s <> stage ->
         codeHashTestFails (idx (Pattern.shaders pattern) s)
           (idx (Key.shaders pipelineKey) s) = false) ->
      ProfilePatternMatchesPipeline pattern pipelineKey = true).
Proof.
  intros Hbit; split.
  - intros Ha Hdiff; unfold ProfilePatternMatchesPipeline; rewrite Ha.
    apply (stageLoop_fails _ _ stage); rewrite stageBody_tests.
    assert (F : codeHashTestFails (idx (Pattern.shaders pattern) stage)
                  (idx (Key.shaders pipelineKey) stage) = true).
    { unfold codeHashTestFails; rewrite Hbit; simpl.
      apply orb_true_iff; destruct Hdiff as [H|H]; [left|right];
        apply negb_true_iff, Z.eqb_neq; exact H. }
    rewrite F, !andb_false_r; reflexivity.
  - intros Hl Hu Hothers Hhash; unfold ProfilePatternMatchesPipeline.
    destruct (PipelineMatch.always (Pattern.pmatch pattern)); [reflexivity|].
    apply stageLoop_all; intros s; rewrite stageBody_tests.
    destruct (Hothers s) as (-> & -> & ->).
    destruct (ShaderStage_eq_dec s stage) as [->|Hne].
    + unfold codeHashTestFails; rewrite Hl, Hu, !Z.eqb_refl, andb_false_r; reflexivity.
    + rewrite (Hhash s Hne); reflexivity.
Qed.

Lemma codeHash_test_decides_witness :
  ProfilePatternMatchesPipeline
    (fragmentPattern 0 5 (mkShaderHash 0xdd6c573c46e6adf8 0x751207727c904740) 0)
    fragmentOnlyKey = false
  /\ ProfilePatternMatchesPipeline
       (fragmentPattern 0 5 (mkShaderHash 0xdd6c573c46e6adf8 0x751207727c904749) 0)
       fragmentOnlyKey = true.
Proof.
  split.
  - apply (proj1 (codeHash_test_decides
                    (fragmentPattern 0 5 (mkShaderHash 0xdd6c573c46e6adf8 0x751207727c904740) 0)
                    fragmentOnlyKey ShaderStageFragment eq_refl) eq_refl).
    right; simpl; lia.
  - apply (proj2 (codeHash_test_decides
                    (fragmentPattern 0 5 (mkShaderHash 0xdd6c573c46e6adf8 0x751207727c904749) 0)
                    fragmentOnlyKey ShaderStageFragment eq_refl)).
    + reflexivity.
    + reflexivity.
    + intros s; destruct s; repeat split; reflexivity.
    + intros s _; destruct s; reflexivity.
Defined.

(** ** Statements as transformers of member values *)

Lemma sameHandles_refl (t : PipelineShaderOptionsPtr) : sameHandles t t.
Proof. unfold sameHandles; tauto. Qed.

Lemma sameHandles_trans (t1 t2 t3 : PipelineShaderOptionsPtr) :
  sameHandles t1 t2 -> sameHandles t2 t3 -> sameHandles t1 t3.
Proof. unfold sameHandles; tauto. Qed.

Lemma sameHandles_valid (t t' : PipelineShaderOptionsPtr) :
  sameHandles t t' -> validOptions t -> validOptions t'.
Proof. unfold sameHandles, validOptions; tauto. Qed.

Lemma option_map_assign_off (G f : OptionField) (x : Z) (p : option Z) :
  option_map (assign G false x f) p = p.
Proof. unfold assign; destruct p; simpl; [|reflexivity]; destruct (OptionField_eq_dec f G); reflexivity. Qed.

Lemma assign_same (G : OptionField) (c : bool) (x v : Z) :
  assign G c x G v = if c then x else v.
Proof. unfold assign; destruct (OptionField_eq_dec G G) as [_|N]; [reflexivity|contradiction N; reflexivity]. Qed.

Lemma assign_other (G : OptionField) (c : bool) (x : Z) (f : OptionField) (v : Z) :
  f <> G -> assign G c x f v = v.
Proof. intros N; unfold assign; destruct (OptionField_eq_dec f G); [contradiction|reflexivity]. Qed.

Lemma transforms_skip : transforms skip (fun _ v => v).
Proof.
  split.
  - intros t t' H; injection H as <-; split; [apply sameHandles_refl|].
    intros f; destruct (fieldValue f t); reflexivity.
  - intros t _; discriminate.
Qed.

Lemma transforms_seq (m1 m2 : Update PipelineShaderOptionsPtr)
    (E1 E2 : OptionField -> Z -> Z) :
  transforms m1 E1 -> transforms m2 E2 ->
  transforms (m1 ;; m2) (fun f v => E2 f (E1 f v)).
Proof.
  intros [S1 T1] [S2 T2]; split.
  - intros t t' H; unfold andThen in H.
    destruct (m1 t) as [t1|] eqn:H1; [|discriminate].
    destruct (S1 _ _ H1) as [Ha Hf], (S2 _ _ H) as [Hb Hg].
    split; [eapply sameHandles_trans; eassumption|].
    intros f; rewrite Hg, Hf; destruct (fieldValue f t); reflexivity.
  - intros t Hv; unfold andThen.
    destruct (m1 t) as [t1|] eqn:H1; [|exfalso; exact (T1 t Hv H1)].
    apply T2; apply (sameHandles_valid t); [apply (S1 _ _ H1)|assumption].
Qed.

Lemma transforms_ext (m : Update PipelineShaderOptionsPtr) (E E' : OptionField -> Z -> Z) :
  (forall f v, E f v = E' f v) -> transforms m E -> transforms m E'.
Proof.
  intros HE [S1 T1]; split; [|exact T1].
  intros t t' H; destruct (S1 _ _ H) as [Ha Hf]; split; [exact Ha|].
  intros f; rewrite Hf; destruct (fieldValue f t); simpl; [rewrite HE|]; reflexivity.
Qed.

Lemma transforms_guarded (m : Update PipelineShaderOptionsPtr) (G : OptionField) (x : Z)
    (c : bool) :
  transforms m (assign G true x) -> transforms (when c m) (assign G c x).
Proof.
  destruct c; [exact (fun H => H)|]; intros _; split.
  - intros t t' H; injection H as <-; split; [apply sameHandles_refl|].
    intros f; symmetry; apply option_map_assign_off.
  - intros t _; discriminate.
Qed.

Lemma transforms_pOptions (G : OptionField) (x : Z)
    (g : Options.PipelineShaderOptions -> Options.PipelineShaderOptions) :
  (forall po o n f,
     fieldValue f (mkPipelineShaderOptionsPtr po (Some (g o)) n)
     = option_map (assign G true x f)
         (fieldValue f (mkPipelineShaderOptionsPtr po (Some o) n))) ->
  transforms (via_pOptions g) (assign G true x).
Proof.
  intros Hg; split.
  - intros [po [o|] n] t' H; unfold via_pOptions in H; simpl in H; [|discriminate].
    injection H as <-; split; [|apply Hg].
    unfold sameHandles; simpl; repeat split; intros; (assumption || discriminate).
  - intros [po [o|] n] (_ & Ho & _); unfold via_pOptions; simpl in *;
      [discriminate|contradiction Ho; reflexivity].
Qed.

Lemma transforms_pPipelineOptions (G : OptionField) (x : Z)
    (g : PipelineOptions -> PipelineOptions) :
  (forall po o n f,
     fieldValue f (mkPipelineShaderOptionsPtr (Some (g po)) o n)
     = option_map (assign G true x f)
         (fieldValue f (mkPipelineShaderOptionsPtr (Some po) o n))) ->
  transforms (via_pPipelineOptions g) (assign G true x).
Proof.
  intros Hg; split.
  - intros [[po|] o n] t' H; unfold via_pPipelineOptions in H; simpl in H; [|discriminate].
    injection H as <-; split; [|apply Hg].
    unfold sameHandles; simpl; repeat split; intros; (assumption || discriminate).
  - intros [[po|] o n] (Hp & _ & _); unfold via_pPipelineOptions; simpl in *;
      [discriminate|contradiction Hp; reflexivity].
Qed.

Lemma transforms_pNggState (G : OptionField) (x : Z) (g : Ngg.NggState -> Ngg.NggState) :
  (forall po o n f,
     fieldValue f (mkPipelineShaderOptionsPtr po o (Some (g n)))
     = option_map (assign G true x f)
         (fieldValue f (mkPipelineShaderOptionsPtr po o (Some n)))) ->
  transforms (via_pNggState g) (assign G true x).
Proof.
  intros Hg; split.
  - intros [po o [n|]] t' H; unfold via_pNggState in H; simpl in H; [|discriminate].
    injection H as <-; split; [|apply Hg].
    unfold sameHandles; simpl; repeat split; intros; (assumption || discriminate).
  - intros [po o [n|]] (_ & _ & Hn); unfold via_pNggState; simpl in *;
      [discriminate|contradiction Hn; reflexivity].
Qed.

(** One guarded store of the pass: the member [G] receives [x] when [c]. *)
Ltac member_store G x :=
  apply (transforms_guarded _ G x);
  first [ apply transforms_pOptions; intros [?|] ? [?|] f; destruct f; reflexivity
        | apply transforms_pPipelineOptions; intros ? [?|] [?|] f; destruct f; reflexivity
        | apply transforms_pNggState; intros [?|] [?|] ? f; destruct f; reflexivity ].

Ltac next_store G x := eapply transforms_seq; [member_store G x|].

Lemma applyShaderCreate_transforms (cfg : BuildConfig) (sc : ShaderCreate.t) :
  transforms (applyShaderCreate cfg sc)
    (fun f v => if writes cfg f sc then written f sc else v).
Proof.
  pose (tun := ShaderCreate.tuningOptions sc).
  eapply transforms_ext; [|unfold applyShaderCreate; cbv zeta].
  2: {
    next_store F_vgprLimit (Tuning.vgprLimit tun).
    next_store F_sgprLimit (Tuning.sgprLimit tun).
    next_store F_maxThreadGroupsPerComputeUnit (Tuning.maxThreadGroupsPerComputeUnit tun).
    next_store F_debugMode 1.
    next_store F_trapPresent 1.
    next_store F_allowReZ 1.
    next_store F_disableLoopUnroll 1.
    next_store F_useSiScheduler 1.
    next_store F_reconfigWorkgroupLayout 1.
    next_store F_enableLoadScalarizer 1.
    next_store F_forceLoopUnrollCount (Tuning.forceLoopUnrollCount tun).
    next_store F_disableLicm 1.
    next_store F_unrollThreshold (Tuning.unrollThreshold tun).
    next_store F_fp32DenormalMode (Tuning.fp32DenormalMode tun).
    next_store F_waveSize (Tuning.waveSize tun).
    next_store F_wgpMode 1.
    next_store F_waveBreakSize (Tuning.waveBreakSize tun).
    next_store F_enableNgg 0.
    eapply transforms_seq.
    { instantiate (1 := assign F_enableFastLaunch
                          ((LLPC_CLIENT_INTERFACE_MAJOR_VERSION cfg <? 45)
                           && CreateApply.nggFasterLaunchRate (ShaderCreate.apply sc)) 1).
      destruct (LLPC_CLIENT_INTERFACE_MAJOR_VERSION cfg <? 45); simpl.
      - member_store F_enableFastLaunch 1.
      - eapply transforms_ext; [|apply transforms_skip].
        intros f v; unfold assign; destruct (OptionField_eq_dec f F_enableFastLaunch); reflexivity. }
    next_store F_enableVertexReuse 1.
    next_store F_enableFrustumCulling 1.
    next_store F_enableBoxFilterCulling 1.
    next_store F_enableSphereCulling 1.
    next_store F_enableBackfaceCulling 1.
    member_store F_enableSmallPrimFilter 1. }
  intros f v; subst tun; destruct f; cbv beta;
    repeat match goal with
           | |- context [assign ?G ?c ?x ?f ?v] =>
               first [ rewrite (assign_other G c x f v) by discriminate
                     | rewrite (assign_same G c x v) ]
           end;
    unfold writes, written; cbn [applyBitOf payloadGuard];
    rewrite ?andb_true_r; try reflexivity.
  - destruct (Tuning.useSiScheduler _); reflexivity.
  - destruct (Tuning.reconfigWorkgroupLayout _); reflexivity.
  - destruct (Tuning.enableLoadScalarizer _); reflexivity.
  - destruct (Tuning.disableLicm _); reflexivity.
  - rewrite andb_comm; reflexivity.
Qed.

(** ** The entry loop *)

Lemma nth_error_skipn {A : Type} (block : list A) (i : nat) (e : A) :
  nth_error block i = Some e -> skipn i block = e :: skipn (S i) block.
Proof.
  revert i; induction block as [|a rest IH]; intros [|i] H; simpl in *;
    try discriminate.
  - injection H as ->; reflexivity.
  - rewrite (IH i H); destruct rest; reflexivity.
Qed.

(** Over a block that holds the entries in use, the counting loop is the loop
    over the list of those entries. *)
Lemma forEntries_runEntries {St : Type} (g : PipelineProfileEntry -> Update St)
    (block : list PipelineProfileEntry) (count first : nat) (st : St) :
  (first + count <= length block)%nat ->
  forEntries count first
    (fun entry s => match nth_error block entry with
                    | Some profileEntry => g profileEntry s
                    | None => None
                    end) st
  = runEntries g (firstn count (skipn first block)) st.
Proof.
  revert first st; induction count as [|n IH]; intros first st Hlen; [reflexivity|].
  destruct (nth_error block first) as [e|] eqn:He.
  - rewrite (nth_error_skipn _ _ _ He); simpl; unfold andThen; rewrite He.
    destruct (g e st) as [st'|]; [|reflexivity].
    apply IH; lia.
  - apply nth_error_None in He; lia.
Qed.

Lemma ApplyProfileToShaderCreateInfo_entries (cfg : BuildConfig) (profile : PipelineProfile)
    (pipelineKey : PipelineOptimizerKey) (shaderStage : ShaderStage)
    (options : PipelineShaderOptionsPtr) :
  validProfile profile ->
  ApplyProfileToShaderCreateInfo cfg profile pipelineKey shaderStage options
  = runEntries (fun e => applyEntryToShaderCreateInfo cfg e pipelineKey shaderStage)
      (entriesInUse profile) options.
Proof.
  intros (block & Hb & Hlen).
  unfold ApplyProfileToShaderCreateInfo, entriesInUse, entryAt; rewrite Hb.
  apply (forEntries_runEntries
           (fun e => applyEntryToShaderCreateInfo cfg e pipelineKey shaderStage)
           block (entryCount profile) 0).
  simpl; exact Hlen.
Qed.

(** With a null [pOptions] an entry does nothing, whatever it holds. *)
Lemma applyEntry_null (cfg : BuildConfig) (e : PipelineProfileEntry)
    (pipelineKey : PipelineOptimizerKey) (shaderStage : ShaderStage)
    (options : PipelineShaderOptionsPtr) :
  pOptions options = None ->
  applyEntryToShaderCreateInfo cfg e pipelineKey shaderStage options = Some options.
Proof.
  intros H; unfold applyEntryToShaderCreateInfo; rewrite H.
  destruct (ProfilePatternMatchesPipeline _ _); reflexivity.
Qed.

Lemma runEntries_null (cfg : BuildConfig) (entries : list PipelineProfileEntry)
    (pipelineKey : PipelineOptimizerKey) (shaderStage : ShaderStage)
    (options : PipelineShaderOptionsPtr) :
  pOptions options = None ->
  runEntries (fun e => applyEntryToShaderCreateInfo cfg e pipelineKey shaderStage)
    entries options = Some options.
Proof.
  intros H; induction entries as [|e rest IH]; [reflexivity|].
  simpl; unfold andThen; rewrite applyEntry_null by assumption; exact IH.
Qed.

(** With a non-null [pOptions] an entry maps every member through its own
    guarded write. *)
Lemma applyEntry_transforms (cfg : BuildConfig) (e : PipelineProfileEntry)
    (pipelineKey : PipelineOptimizerKey) (shaderStage : ShaderStage)
    (t t' : PipelineShaderOptionsPtr) :
  pOptions t <> None ->
  applyEntryToShaderCreateInfo cfg e pipelineKey shaderStage t = Some t' ->
  sameHandles t t'
  /\ forall f, fieldValue f t'
              = option_map (afterEntries cfg f pipelineKey shaderStage [e]) (fieldValue f t).
Proof.
  intros Hnn H; unfold applyEntryToShaderCreateInfo in H.
  unfold afterEntries, setsField; simpl.
  destruct (ProfilePatternMatchesPipeline (pattern e) pipelineKey); simpl.
  - destruct (pOptions t) eqn:Ho; [|contradiction Hnn; reflexivity].
    exact (proj1 (applyShaderCreate_transforms cfg _) _ _ H).
  - injection H as <-; split; [apply sameHandles_refl|].
    intros f; destruct (fieldValue f t); reflexivity.
Qed.

Lemma applyEntry_total (cfg : BuildConfig) (e : PipelineProfileEntry)
    (pipelineKey : PipelineOptimizerKey) (shaderStage : ShaderStage)
    (t : PipelineShaderOptionsPtr) :
  validOptions t ->
  applyEntryToShaderCreateInfo cfg e pipelineKey shaderStage t <> None.
Proof.
  intros Hv; unfold applyEntryToShaderCreateInfo.
  destruct (ProfilePatternMatchesPipeline _ _); [|discriminate].
  destruct (pOptions t); [|discriminate].
  exact (proj2 (applyShaderCreate_transforms cfg _) t Hv).
Qed.

Lemma afterEntries_app (cfg : BuildConfig) (f : OptionField) (pipelineKey : PipelineOptimizerKey)
    (shaderStage : ShaderStage) (es1 es2 : list PipelineProfileEntry) (v : Z) :
  afterEntries cfg f pipelineKey shaderStage (es1 ++ es2) v
  = afterEntries cfg f pipelineKey shaderStage es2
      (afterEntries cfg f pipelineKey shaderStage es1 v).
Proof. unfold afterEntries; apply fold_left_app. Qed.

Lemma runEntries_transforms (cfg : BuildConfig) (entries : list PipelineProfileEntry)
    (pipelineKey : PipelineOptimizerKey) (shaderStage : ShaderStage)
    (t t' : PipelineShaderOptionsPtr) :
  pOptions t <> None ->
  runEntries (fun e => applyEntryToShaderCreateInfo cfg e pipelineKey shaderStage)
    entries t = Some t' ->
  sameHandles t t'
  /\ forall f, fieldValue f t'
              = option_map (afterEntries cfg f pipelineKey shaderStage entries)
                  (fieldValue f t).
Proof.
  revert t; induction entries as [|e rest IH]; intros t Hnn H.
  - injection H as <-; split; [apply sameHandles_refl|].
    intros f; destruct (fieldValue f t); reflexivity.
  - simpl in H; unfold andThen in H.
    destruct (applyEntryToShaderCreateInfo cfg e pipelineKey shaderStage t)
      as [t1|] eqn:H1; [|discriminate].
    destruct (applyEntry_transforms _ _ _ _ _ _ Hnn H1) as [Hs1 Hf1].
    assert (Hnn1 : pOptions t1 <> None).
    { intros N; apply Hnn; apply (proj1 (proj2 Hs1)); exact N. }
    destruct (IH t1 Hnn1 H) as [Hs2 Hf2].
    split; [eapply sameHandles_trans; eassumption|].
    intros f; rewrite Hf2, Hf1.
    destruct (fieldValue f t) as [v|]; reflexivity.
Qed.

Lemma runEntries_total (cfg : BuildConfig) (entries : list PipelineProfileEntry)
    (pipelineKey : PipelineOptimizerKey) (shaderStage : ShaderStage)
    (t : PipelineShaderOptionsPtr) :
  validOptions t ->
  exists t',
    runEntries (fun e => applyEntryToShaderCreateInfo cfg e pipelineKey shaderStage)
      entries t = Some t'
    /\ validOptions t'.
Proof.
  revert t; induction entries as [|e rest IH]; intros t Hv.
  - exists t; split; [reflexivity|assumption].
  - simpl; unfold andThen.
    destruct (applyEntryToShaderCreateInfo cfg e pipelineKey shaderStage t)
      as [t1|] eqn:H1; [|exfalso; exact (applyEntry_total _ _ _ _ _ Hv H1)].
    apply IH; apply (sameHandles_valid t); [|assumption].
    apply (applyEntry_transforms _ _ _ _ _ _ (proj1 (proj2 Hv)) H1).
Qed.

(** A run of entries none of which writes the member leaves its value. *)
Lemma afterEntries_unwritten (cfg : BuildConfig) (f : OptionField)
    (pipelineKey : PipelineOptimizerKey) (shaderStage : ShaderStage)
    (entries : list PipelineProfileEntry) (v : Z) :
  (forall e, In e entries -> setsField cfg f pipelineKey shaderStage e = false) ->
  afterEntries cfg f pipelineKey shaderStage entries v = v.
Proof.
  revert v; induction entries as [|e rest IH]; intros v H; [reflexivity|].
  unfold afterEntries; simpl; rewrite (H e (or_introl eq_refl)).
  apply IH; intros e' He'; apply H; right; exact He'.
Qed.

(** After a run whose last writer of the member is [e], the member holds what
    [e] writes. *)
Lemma afterEntries_last_writer (cfg : BuildConfig) (f : OptionField)
    (pipelineKey : PipelineOptimizerKey) (shaderStage : ShaderStage)
    (before after : list PipelineProfileEntry) (e : PipelineProfileEntry) (v : Z) :
  setsField cfg f pipelineKey shaderStage e = true ->
  (forall e', In e' after -> setsField cfg f pipelineKey shaderStage e' = false) ->
  afterEntries cfg f pipelineKey shaderStage (before ++ e :: after) v
  = written f (shaderCreateOf e shaderStage).
Proof.
  intros He Hafter.
  rewrite afterEntries_app.
  change (e :: after) with ([e] ++ after); rewrite afterEntries_app.
  rewrite afterEntries_unwritten by assumption.
  unfold afterEntries; simpl; rewrite He; reflexivity.
Qed.

(** ** The shader-stage pass *)

Lemma fieldValue_valid (f : OptionField) (t : PipelineShaderOptionsPtr) :
  validOptions t -> exists v, fieldValue f t = Some v.
Proof.
  destruct t as [[po|] [o|] [n|]]; intros (Hp & Ho & Hn);
    try (contradiction Hp; reflexivity); try (contradiction Ho; reflexivity);
    try (contradiction Hn; reflexivity).
  destruct f; eexists; reflexivity.
Qed.

Lemma writes_applyBit (cfg : BuildConfig) (f : OptionField) (bit : Z) (sc : ShaderCreate.t) :
  applyBitOf f = Some bit ->
  writes cfg f sc
  = bf_get (CreateApply.u32All (ShaderCreate.apply sc)) bit
    && match f with
       | F_enableFastLaunch => LLPC_CLIENT_INTERFACE_MAJOR_VERSION cfg <? 45
       | _ => true
       end.
Proof. intros H; unfold writes; rewrite H; reflexivity. Qed.

Lemma writes_payloadGuard (cfg : BuildConfig) (f : OptionField) (v : Z) (sc : ShaderCreate.t) :
  applyBitOf f = None ->
  payloadGuard f (ShaderCreate.tuningOptions sc) = Some v ->
  writes cfg f sc = negb (v =? 0).
Proof. intros H1 H2; unfold writes; rewrite H1, H2; reflexivity. Qed.

Lemma lastWithApplyBit_afterEntries (cfg : BuildConfig) (f : OptionField) (bit : Z)
    (profile : PipelineProfile) (pipelineKey : PipelineOptimizerKey)
    (shaderStage : ShaderStage) (e : PipelineProfileEntry) (v : Z) :
  applyBitOf f = Some bit ->
  (f = F_enableFastLaunch -> LLPC_CLIENT_INTERFACE_MAJOR_VERSION cfg < 45) ->
  lastWithApplyBit profile pipelineKey shaderStage bit e ->
  afterEntries cfg f pipelineKey shaderStage (entriesInUse profile) v
  = written f (shaderCreateOf e shaderStage).
Proof.
  intros Hbit Hcfg (before & after & Huse & Hm & Hset & Hlater).
  assert (Hflag : match f with
                  | F_enableFastLaunch => LLPC_CLIENT_INTERFACE_MAJOR_VERSION cfg <? 45
                  | _ => true
                  end = true).
  { destruct f; try reflexivity; apply Z.ltb_lt, Hcfg; reflexivity. }
  rewrite Huse; apply afterEntries_last_writer.
  - unfold setsField; rewrite Hm, (writes_applyBit cfg f bit) by assumption.
    rewrite Hset, Hflag; reflexivity.
  - intros e' He'; unfold setsField.
    destruct (ProfilePatternMatchesPipeline (pattern e') pipelineKey) eqn:Hm'; [|reflexivity].
    rewrite (writes_applyBit cfg f bit) by assumption.
    rewrite (Hlater e' He' Hm'); reflexivity.
Qed.

(** A member no matching entry in use writes is left as it was. *)
Lemma unwritten_member_kept (cfg : BuildConfig) (profile : PipelineProfile)
    (pipelineKey : PipelineOptimizerKey) (shaderStage : ShaderStage) (f : OptionField)
    (options options' : PipelineShaderOptionsPtr) :
  validProfile profile ->
  (forall e, In e (entriesInUse profile) ->
     setsField cfg f pipelineKey shaderStage e = false) ->
  ApplyProfileToShaderCreateInfo cfg profile pipelineKey shaderStage options = Some options' ->
  fieldValue f options' = fieldValue f options.
Proof.
  intros Hvalid Hunset H; rewrite ApplyProfileToShaderCreateInfo_entries in H by assumption.
  destruct (pOptions options) eqn:Ho.
  - assert (Hnn : pOptions options <> None) by (rewrite Ho; discriminate).
    destruct (runEntries_transforms _ _ _ _ _ _ Hnn H) as [_ Hf].
    rewrite Hf; destruct (fieldValue f options) as [v|]; [|reflexivity].
    simpl; f_equal; apply afterEntries_unwritten; assumption.
  - rewrite runEntries_null in H by assumption; injection H as <-; reflexivity.
Qed.

Lemma unset_bit_not_written (cfg : BuildConfig) (f : OptionField) (bit : Z)
    (pipelineKey : PipelineOptimizerKey) (shaderStage : ShaderStage)
    (e : PipelineProfileEntry) :
  applyBitOf f = Some bit ->
  (ProfilePatternMatchesPipeline (pattern e) pipelineKey = true ->
   bf_get (CreateApply.u32All (ShaderCreate.apply (shaderCreateOf e shaderStage))) bit
   = false) ->
  setsField cfg f pipelineKey shaderStage e = false.
Proof.
  intros Hbit Hunset; unfold setsField.
  destruct (ProfilePatternMatchesPipeline (pattern e) pipelineKey); [|reflexivity].
  rewrite (writes_applyBit cfg f bit), Hunset by auto; reflexivity.
Qed.

(** C1, as amended.  For every member whose store is guarded by an apply bit:
    when that bit is unset in every matching entry in use, the pass leaves the
    member as it was, whatever the payload.  The six members
    [useSiScheduler], [reconfigWorkgroupLayout], [enableLoadScalarizer],
    [forceLoopUnrollCount], [disableLicm] and [unrollThreshold] have no apply
    bit; their store is guarded by the payload, and they are left as they
    were when the payload is false or zero in every matching entry.  With all
    handles valid the pass completes. *)
Theorem unset_guard_leaves_member (cfg : BuildConfig) (profile : PipelineProfile)
    (pipelineKey : PipelineOptimizerKey) (shaderStage : ShaderStage) (f : OptionField)
    (options : PipelineShaderOptionsPtr) :
  validProfile profile ->
  (forall e, In e (entriesInUse profile) ->
     ProfilePatternMatchesPipeline (pattern e) pipelineKey = true ->
     match applyBitOf f with
     | Some bit =>
         bf_get (CreateApply.u32All (ShaderCreate.apply (shaderCreateOf e shaderStage))) bit
         = false
     | None =>
         payloadGuard f (ShaderCreate.tuningOptions (shaderCreateOf e shaderStage)) = Some 0
     end) ->
  (forall options',
     ApplyProfileToShaderCreateInfo cfg profile pipelineKey shaderStage options = Some options' ->
     fieldValue f options' = fieldValue f options)
  /\ (validOptions options ->
      exists options',
        ApplyProfileToShaderCreateInfo cfg profile pipelineKey shaderStage options
        = Some options').
Proof.
  intros Hvalid Hunset; split.
  - intros options' H.
    apply (unwritten_member_kept cfg profile pipelineKey shaderStage f options options');
      try assumption.
    intros e He.
    destruct (applyBitOf f) as [bit|] eqn:Hb.
    + apply (unset_bit_not_written cfg f bit); [assumption|].
      intros Hm; exact (Hunset e He Hm).
    + unfold setsField.
      destruct (ProfilePatternMatchesPipeline (pattern e) pipelineKey) eqn:Hm; [|reflexivity].
      rewrite (writes_payloadGuard cfg f 0) by auto; reflexivity.
  - intros Hv; rewrite ApplyProfileToShaderCreateInfo_entries by assumption.
    destruct (runEntries_total cfg (entriesInUse profile) pipelineKey shaderStage options Hv)
      as (t' & Ht' & _).
    exists t'; exact Ht'.
Qed.

Lemma profileWith_valid (entries : list PipelineProfileEntry) :
  validProfile (profileWith entries).
Proof. exists entries; split; [reflexivity|simpl; lia]. Qed.

Lemma sampleOptions_valid : validOptions sampleOptions.
Proof. repeat split; discriminate. Qed.

Lemma unset_guard_leaves_member_witness :
  exists options',
    ApplyProfileToShaderCreateInfo sampleConfig
      (profileWith [alwaysEntry 0 (vgprPayload 128)]) fragmentOnlyKey ShaderStageFragment
      sampleOptions = Some options'
    /\ fieldValue F_vgprLimit options' = fieldValue F_vgprLimit sampleOptions.
Proof.
  destruct (unset_guard_leaves_member sampleConfig
              (profileWith [alwaysEntry 0 (vgprPayload 128)]) fragmentOnlyKey
              ShaderStageFragment F_vgprLimit sampleOptions
              (profileWith_valid [alwaysEntry 0 (vgprPayload 128)])
              (fun e He _ => match He with
                             | or_introl E => match E with eq_refl => eq_refl end
                             | or_intror F => match F with end
                             end))
    as [Hkeep Hruns].
  destruct (Hruns sampleOptions_valid) as (options' & Hrun).
  exists options'; split; [exact Hrun|exact (Hkeep options' Hrun)].
Defined.

(** C1 as written fails: an entry that matches, has every apply bit unset and
    carries non-zero payloads for the scheduler and the unroll controls
    changes those three members of the target. *)
Lemma unset_apply_bits_payload_still_written :
  ProfilePatternMatchesPipeline (pattern payloadOnlyEntry) fragmentOnlyKey = true
  /\ CreateApply.u32All
       (ShaderCreate.apply (shaderCreateOf payloadOnlyEntry ShaderStageFragment)) = 0
  /\ exists options',
       ApplyProfileToShaderCreateInfo sampleConfig (profileWith [payloadOnlyEntry])
         fragmentOnlyKey ShaderStageFragment sampleOptions = Some options'
       /\ fieldValue F_useSiScheduler sampleOptions = Some 0
       /\ fieldValue F_useSiScheduler options' = Some 1
       /\ fieldValue F_forceLoopUnrollCount sampleOptions = Some 4
       /\ fieldValue F_forceLoopUnrollCount options' = Some 8
       /\ fieldValue F_unrollThreshold sampleOptions = Some 700
       /\ fieldValue F_unrollThreshold options' = Some 1000.
Proof.
  split; [reflexivity|split; [reflexivity|]].
  eexists; split; [vm_compute; reflexivity|].
  repeat split; reflexivity.
Qed.

(** C10. With a null compiler-options handle the pass completes and leaves the
    target exactly as it was, for every valid profile, key and stage. *)
Theorem null_options_noop (cfg : BuildConfig) (profile : PipelineProfile)
    (pipelineKey : PipelineOptimizerKey) (shaderStage : ShaderStage)
    (options : PipelineShaderOptionsPtr) :
  validProfile profile ->
  pOptions options = None ->
  ApplyProfileToShaderCreateInfo cfg profile pipelineKey shaderStage options = Some options.
Proof.
  intros Hvalid Hnull; rewrite ApplyProfileToShaderCreateInfo_entries by assumption.
  apply runEntries_null; assumption.
Qed.

Lemma null_options_noop_witness :
  ApplyProfileToShaderCreateInfo sampleConfig (profileWith [allBitsEntry; payloadOnlyEntry])
    fragmentOnlyKey ShaderStageFragment nullOptions = Some nullOptions.
Proof. apply null_options_noop; [apply profileWith_valid|reflexivity]. Defined.

(** ** [OverrideShaderCreateInfo] *)

Lemma ApplyProfile_total (cfg : BuildConfig) (profile : PipelineProfile)
    (pipelineKey : PipelineOptimizerKey) (shaderStage : ShaderStage)
    (options : PipelineShaderOptionsPtr) :
  validProfile profile -> validOptions options ->
  exists options',
    ApplyProfileToShaderCreateInfo cfg profile pipelineKey shaderStage options = Some options'
    /\ validOptions options'
    /\ forall f v, fieldValue f options = Some v ->
         fieldValue f options'
         = Some (afterEntries cfg f pipelineKey shaderStage (entriesInUse profile) v).
Proof.
  intros Hp Hv.
  destruct (runEntries_total cfg (entriesInUse profile) pipelineKey shaderStage options Hv)
    as (t' & Ht' & Hv').
  exists t'; rewrite ApplyProfileToShaderCreateInfo_entries by assumption.
  split; [exact Ht'|split; [exact Hv'|]].
  intros f v Hf.
  destruct (runEntries_transforms _ _ _ _ _ _ (proj1 (proj2 Hv)) Ht') as [_ Hfields].
  rewrite Hfields, Hf; reflexivity.
Qed.

(** C7. [OverrideShaderCreateInfo] runs the pass over the application profile,
    then the tuning profile, then (when compiled in) the runtime profile.  For
    a member guarded by an apply bit: once a rule set has been applied in
    which a matching rule sets that bit for the stage, the member holds the
    value of that rule set's last such rule, whatever the rule sets applied
    before it wrote; and a later rule set without such a rule leaves that
    value in place.  (The store to [enableFastLaunch] is compiled in only
    below interface version 45.) *)
Theorem later_rule_set_wins (cfg : BuildConfig) (this : ShaderOptimizer)
    (pipelineKey : PipelineOptimizerKey) (shaderStage : ShaderStage)
    (options : PipelineShaderOptionsPtr) :
  validOptimizer cfg this ->
  validOptions options ->
  exists afterApp afterTuning afterRuntime,
    ApplyProfileToShaderCreateInfo cfg (m_appProfile this) pipelineKey shaderStage options
    = Some afterApp
    /\ ApplyProfileToShaderCreateInfo cfg (m_tuningProfile this) pipelineKey shaderStage afterApp
       = Some afterTuning
    /\ (if ICD_RUNTIME_APP_PROFILE cfg
        then ApplyProfileToShaderCreateInfo cfg (m_runtimeProfile this) pipelineKey shaderStage
               afterTuning
        else Some afterTuning) = Some afterRuntime
    /\ OverrideShaderCreateInfo cfg this pipelineKey shaderStage options = Some afterRuntime
    /\ forall f bit,
         applyBitOf f = Some bit ->
         (f = F_enableFastLaunch -> LLPC_CLIENT_INTERFACE_MAJOR_VERSION cfg < 45) ->
         (forall e, lastWithApplyBit (m_tuningProfile this) pipelineKey shaderStage bit e ->
            fieldValue f afterTuning = Some (written f (shaderCreateOf e shaderStage)))
         /\ (ICD_RUNTIME_APP_PROFILE cfg = true ->
             forall e, lastWithApplyBit (m_runtimeProfile this) pipelineKey shaderStage bit e ->
               fieldValue f afterRuntime = Some (written f (shaderCreateOf e shaderStage)))
         /\ (ICD_RUNTIME_APP_PROFILE cfg = false
             \/ (forall e, In e (entriesInUse (m_runtimeProfile this)) ->
                   ProfilePatternMatchesPipeline (pattern e) pipelineKey = true ->
                   bf_get (CreateApply.u32All
                             (ShaderCreate.apply (shaderCreateOf e shaderStage))) bit = false) ->
             fieldValue f afterRuntime = fieldValue f afterTuning).
Proof.
  intros (Happ & Htun & Hrun) Hv.
  destruct (ApplyProfile_total cfg _ pipelineKey shaderStage options Happ Hv)
    as (t1 & H1 & Hv1 & F1).
  destruct (ApplyProfile_total cfg _ pipelineKey shaderStage t1 Htun Hv1)
    as (t2 & H2 & Hv2 & F2).
  assert (H3 : exists t3,
             (if ICD_RUNTIME_APP_PROFILE cfg
              then ApplyProfileToShaderCreateInfo cfg (m_runtimeProfile this) pipelineKey
                     shaderStage t2
              else Some t2) = Some t3).
  { destruct (ICD_RUNTIME_APP_PROFILE cfg); [|exists t2; reflexivity].
    destruct (ApplyProfile_total cfg _ pipelineKey shaderStage t2 (Hrun eq_refl) Hv2)
      as (t3 & H3 & _); exists t3; exact H3. }
  destruct H3 as (t3 & H3).
  exists t1, t2, t3; repeat (split; [assumption|]).
  split.
  { unfold OverrideShaderCreateInfo, andThen; rewrite H1, H2.
    destruct (ICD_RUNTIME_APP_PROFILE cfg); exact H3. }
  intros f bit Hbit Hcfg; split; [|split].
  - intros e He.
    destruct (fieldValue_valid f t1 Hv1) as (v & Hfv).
    rewrite (F2 f v Hfv); f_equal.
    apply (lastWithApplyBit_afterEntries cfg f bit); assumption.
  - intros Hon e He; rewrite Hon in H3.
    destruct (ApplyProfile_total cfg _ pipelineKey shaderStage t2 (Hrun Hon) Hv2)
      as (t3' & H3' & _ & F3).
    rewrite H3 in H3'; injection H3' as <-.
    destruct (fieldValue_valid f t2 Hv2) as (v & Hfv).
    rewrite (F3 f v Hfv); f_equal.
    apply (lastWithApplyBit_afterEntries cfg f bit); assumption.
  - intros Hnone.
    destruct (ICD_RUNTIME_APP_PROFILE cfg) eqn:Hon; [|injection H3 as <-; reflexivity].
    destruct Hnone as [Hoff|Hnone]; [discriminate|].
    apply (unwritten_member_kept cfg (m_runtimeProfile this) pipelineKey shaderStage f t2 t3);
      [exact (Hrun eq_refl)| |exact H3].
    intros e He; apply (unset_bit_not_written cfg f bit); [assumption|].
    intros Hm; exact (Hnone e He Hm).
Qed.

Lemma sampleOptimizer_valid : validOptimizer sampleConfig sampleOptimizer.
Proof. repeat split; intros; apply profileWith_valid. Qed.

Lemma later_rule_set_wins_witness :
  exists afterApp afterTuning afterRuntime,
    ApplyProfileToShaderCreateInfo sampleConfig (m_appProfile sampleOptimizer)
      fragmentOnlyKey ShaderStageFragment sampleOptions = Some afterApp
    /\ ApplyProfileToShaderCreateInfo sampleConfig (m_tuningProfile sampleOptimizer)
         fragmentOnlyKey ShaderStageFragment afterApp = Some afterTuning
    /\ ApplyProfileToShaderCreateInfo sampleConfig (m_runtimeProfile sampleOptimizer)
         fragmentOnlyKey ShaderStageFragment afterTuning = Some afterRuntime
    /\ OverrideShaderCreateInfo sampleConfig sampleOptimizer fragmentOnlyKey
         ShaderStageFragment sampleOptions = Some afterRuntime
    /\ fieldValue F_vgprLimit afterTuning = Some 48
    /\ fieldValue F_vgprLimit afterRuntime = Some 96.
Proof.
  destruct (later_rule_set_wins sampleConfig sampleOptimizer fragmentOnlyKey
              ShaderStageFragment sampleOptions sampleOptimizer_valid sampleOptions_valid)
    as (t1 & t2 & t3 & H1 & H2 & H3 & H4 & Hwin).
  exists t1, t2, t3; repeat (split; [assumption|]).
  destruct (Hwin F_vgprLimit CreateApply.bit_vgprLimit eq_refl
              (fun H => match H with eq_refl => I end)) as (Htun & Hrun & _).
  split.
  - apply (Htun (alwaysEntry 1 (vgprPayload 48))).
    exists [], []; repeat split; try reflexivity; intros later [].
  - apply (Hrun eq_refl (alwaysEntry 1 (vgprPayload 96))).
    exists [], []; repeat split; try reflexivity; intros later [].
Defined.

(** ** The compute pass *)

Lemma forEntries_invariant {St : Type} (R : St -> St -> Prop) (body : nat -> Update St) :
  (forall s, R s s) ->
  (forall s1 s2 s3, R s1 s2 -> R s2 s3 -> R s1 s3) ->
  (forall i s s', body i s = Some s' -> R s s') ->
  forall count first s s', forEntries count first body s = Some s' -> R s s'.
Proof.
  intros Hrefl Htrans Hbody; induction count as [|n IH]; intros first s s' H.
  - injection H as <-; apply Hrefl.
  - simpl in H; unfold andThen in H.
    destruct (body first s) as [s1|] eqn:H1; [|discriminate].
    apply (Htrans s s1 s'); [apply (Hbody first); exact H1|apply (IH (S first)); exact H].
Qed.

Lemma forEntries_total {St : Type} (body : nat -> Update St) (count first : nat) (s : St) :
  (forall i s0, (first <= i < first + count)%nat -> body i s0 <> None) ->
  forEntries count first body s <> None.
Proof.
  revert first s; induction count as [|n IH]; intros first s Hbody; [discriminate|].
  simpl; unfold andThen.
  destruct (body first s) as [s1|] eqn:H1.
  - apply IH; intros i s0 Hi; apply Hbody; lia.
  - exfalso; apply (Hbody first s); [lia|exact H1].
Qed.

Lemma entryAt_in_use (profile : PipelineProfile) (i : nat) :
  validProfile profile -> (i < entryCount profile)%nat -> entryAt profile i <> None.
Proof.
  intros (block & Hb & Hlen) Hi; unfold entryAt; rewrite Hb.
  apply nth_error_Some; lia.
Qed.

Lemma ApplyProfileToComputePipelineCreateInfo_target {D : Type} (cfg : BuildConfig)
    (this : ShaderOptimizer) (profile : ProfileMember) (pipelineKey : PipelineOptimizerKey)
    (st st' : ComputePassState D) :
  ApplyProfileToComputePipelineCreateInfo cfg this profile pipelineKey st = Some st' ->
  dynamicComputeShaderInfo st' = dynamicComputeShaderInfo st.
Proof.
  unfold ApplyProfileToComputePipelineCreateInfo.
  apply (forEntries_invariant
           (fun s s' : ComputePassState D =>
              dynamicComputeShaderInfo s' = dynamicComputeShaderInfo s)).
  - reflexivity.
  - intros s1 s2 s3 H12 H23; rewrite H23; exact H12.
  - intros i s s' H.
    destruct (entryAt (profileOf this profile) i) as [e|]; [|discriminate].
    destruct (ProfilePatternMatchesPipeline (pattern e) pipelineKey);
      [|injection H as <-; reflexivity].
    unfold andThen, ApplyProfileToDynamicComputeShaderInfo, skip in H.
    destruct (PAL_ENABLE_PRINTS_ASSERTS cfg); [|injection H as <-; reflexivity].
    destruct (pipelineProfileDbgPrintProfileMatch (m_settings this)); simpl in H;
      injection H as <-; reflexivity.
Qed.

Lemma ApplyProfileToComputePipelineCreateInfo_total {D : Type} (cfg : BuildConfig)
    (this : ShaderOptimizer) (profile : ProfileMember) (pipelineKey : PipelineOptimizerKey)
    (st : ComputePassState D) :
  validProfile (profileOf this profile) ->
  ApplyProfileToComputePipelineCreateInfo cfg this profile pipelineKey st <> None.
Proof.
  intros Hvalid; unfold ApplyProfileToComputePipelineCreateInfo.
  apply forEntries_total; intros i s Hi.
  destruct (entryAt (profileOf this profile) i) as [e|] eqn:He;
    [|exfalso; apply (entryAt_in_use _ i Hvalid); [lia|exact He]].
  destruct (ProfilePatternMatchesPipeline (pattern e) pipelineKey); [|discriminate].
  unfold andThen, ApplyProfileToDynamicComputeShaderInfo, skip.
  destruct (PAL_ENABLE_PRINTS_ASSERTS cfg); [|discriminate].
  destruct (pipelineProfileDbgPrintProfileMatch (m_settings this)); discriminate.
Qed.

(** C3. The compute pass never writes the dynamic compute-shader info: the
    per-action function is the identity, each per-profile pass and the whole
    of [OverrideComputePipelineCreateInfo] return the target they were given
    (only the debug output can grow), for every rule set, key and initial
    target; and over valid profiles the pass completes. *)
Theorem compute_pass_leaves_target {D : Type} (cfg : BuildConfig) (this : ShaderOptimizer)
    (pipelineKey : PipelineOptimizerKey) (st : ComputePassState D) :
  (forall action, ApplyProfileToDynamicComputeShaderInfo action st = Some st)
  /\ (forall profile st',
        ApplyProfileToComputePipelineCreateInfo cfg this profile pipelineKey st = Some st' ->
        dynamicComputeShaderInfo st' = dynamicComputeShaderInfo st)
  /\ (forall st',
        OverrideComputePipelineCreateInfo cfg this pipelineKey st = Some st' ->
        dynamicComputeShaderInfo st' = dynamicComputeShaderInfo st)
  /\ (validOptimizer cfg this ->
      exists st', OverrideComputePipelineCreateInfo cfg this pipelineKey st = Some st').
Proof.
  split; [reflexivity|split; [|split]].
  - intros profile st'; apply ApplyProfileToComputePipelineCreateInfo_target.
  - intros st' H; unfold OverrideComputePipelineCreateInfo, andThen in H.
    destruct (ApplyProfileToComputePipelineCreateInfo cfg this member_appProfile
                pipelineKey st) as [s1|] eqn:H1; [|discriminate].
    destruct (ApplyProfileToComputePipelineCreateInfo cfg this member_tuningProfile
                pipelineKey s1) as [s2|] eqn:H2; [|discriminate].
    apply ApplyProfileToComputePipelineCreateInfo_target in H1, H2.
    destruct (ICD_RUNTIME_APP_PROFILE cfg).
    + apply ApplyProfileToComputePipelineCreateInfo_target in H; congruence.
    + injection H as <-; congruence.
  - intros (Happ & Htun & Hrun); unfold OverrideComputePipelineCreateInfo, andThen.
    destruct (ApplyProfileToComputePipelineCreateInfo cfg this member_appProfile
                pipelineKey st) as [s1|] eqn:H1;
      [|exfalso; exact (ApplyProfileToComputePipelineCreateInfo_total cfg this
                          member_appProfile pipelineKey st Happ H1)].
    destruct (ApplyProfileToComputePipelineCreateInfo cfg this member_tuningProfile
                pipelineKey s1) as [s2|] eqn:H2;
      [|exfalso; exact (ApplyProfileToComputePipelineCreateInfo_total cfg this
                          member_tuningProfile pipelineKey s1 Htun H2)].
    destruct (ICD_RUNTIME_APP_PROFILE cfg); [|exists s2; reflexivity].
    destruct (ApplyProfileToComputePipelineCreateInfo cfg this member_runtimeProfile
                pipelineKey s2) as [s3|] eqn:H3;
      [exists s3; reflexivity
      |exfalso; exact (ApplyProfileToComputePipelineCreateInfo_total cfg this
                         member_runtimeProfile pipelineKey s2 (Hrun eq_refl) H3)].
Qed.

Lemma compute_pass_leaves_target_witness :
  exists st',
    OverrideComputePipelineCreateInfo sampleConfig sampleOptimizer fragmentOnlyKey
      (mkComputePassState (Some 16) []) = Some st'
    /\ dynamicComputeShaderInfo st' = Some 16.
Proof.
  destruct (compute_pass_leaves_target sampleConfig sampleOptimizer fragmentOnlyKey
              (mkComputePassState (Some 16) [])) as (_ & _ & Hkeep & Hruns).
  destruct (Hruns sampleOptimizer_valid) as (st' & Hst').
  exists st'; split; [exact Hst'|exact (Hkeep st' Hst')].
Defined.

(** ** [BuildTuningProfile] *)

(** C8. With [overrideShaderParams] off, [BuildTuningProfile] completes and
    leaves a tuning profile with zero entries, whatever the other settings
    and whatever the allocation returned; applying that profile changes
    nothing. *)
Theorem tuning_profile_off_is_empty (InitialPipelineProfileEntries : nat)
    (this : ShaderOptimizer) (pMemory : option (list PipelineProfileEntry)) :
  overrideShaderParams (m_settings this) = false ->
  exists this',
    BuildTuningProfile InitialPipelineProfileEntries this pMemory = Some this'
    /\ entryCount (m_tuningProfile this') = 0%nat
    /\ entriesInUse (m_tuningProfile this') = []
    /\ (forall cfg pipelineKey shaderStage options,
          ApplyProfileToShaderCreateInfo cfg (m_tuningProfile this') pipelineKey shaderStage
            options = Some options)
    /\ (forall (D : Type) cfg pipelineKey (st : ComputePassState D),
          ApplyProfileToComputePipelineCreateInfo cfg this' member_tuningProfile pipelineKey st
          = Some st).
Proof.
  intros Hoff; unfold BuildTuningProfile; rewrite Hoff; simpl.
  eexists; split; [reflexivity|].
  split; [reflexivity|split; [|split]].
  - unfold entriesInUse; simpl; destruct pMemory; reflexivity.
  - reflexivity.
  - reflexivity.
Qed.

Lemma tuning_profile_off_is_empty_witness :
  exists this',
    BuildTuningProfile 32 switchedOffOptimizer (Some [allBitsEntry]) = Some this'
    /\ entryCount (m_tuningProfile this') = 0%nat.
Proof.
  destruct (tuning_profile_off_is_empty 32 switchedOffOptimizer (Some [allBitsEntry]) eq_refl)
    as (this' & Hbuilt & Hcount & _).
  exists this'; split; assumption.
Defined.

Lemma idx_fill {T : Type} (v : T) (s : ShaderStage) : idx (fill v) s = v.
Proof. destruct s; reflexivity. Qed.

Lemma stageBody_zero (sk : ShaderOptimizerKey) : stageBody zeroShaderProfilePattern sk = true.
Proof. reflexivity. Qed.

(** C9. With [overrideShaderParams] on, a successful allocation of at least one
    entry and a stage index in range, [BuildTuningProfile] leaves one rule.
    When one of the configured hash halves is non-zero, its pattern enables
    the hash-equality test, and no other test, at the configured stage with
    the configured hash as operand, enables no test at any other stage and
    does not set [always]: it matches exactly the keys whose hash at that
    stage is the configured one.  When both halves are zero, [always] is set
    and the hash-equality test is not enabled. *)
Theorem tuning_profile_pattern (InitialPipelineProfileEntries : nat) (this : ShaderOptimizer)
    (block : list PipelineProfileEntry) (stage : ShaderStage) :
  overrideShaderParams (m_settings this) = true ->
  (0 < InitialPipelineProfileEntries)%nat ->
  stageOfIndex (overrideShaderStage (m_settings this)) = Some stage ->
  exists this' entry others,
    BuildTuningProfile InitialPipelineProfileEntries this (Some block) = Some this'
    /\ entryCount (m_tuningProfile this') = 1%nat
    /\ pEntries (m_tuningProfile this') = Some (entry :: others)
    /\ (overrideShaderHashLower (m_settings this) <> 0
        \/ overrideShaderHashUpper (m_settings this) <> 0 ->
        ShaderMatch.u32All (Pattern.match_ (idx (Pattern.shaders (pattern entry)) stage))
        = Z.setbit 0 ShaderMatch.bit_codeHash
        /\ ShaderMatch.codeHash (Pattern.match_ (idx (Pattern.shaders (pattern entry)) stage))
           = true
        /\ Pattern.codeHash (idx (Pattern.shaders (pattern entry)) stage)
           = mkShaderHash (overrideShaderHashLower (m_settings this))
               (overrideShaderHashUpper (m_settings this))
        /\ PipelineMatch.always (Pattern.pmatch (pattern entry)) = false
        /\ (forall s, s <> stage ->
              ShaderMatch.u32All (Pattern.match_ (idx (Pattern.shaders (pattern entry)) s)) = 0)
        /\ (forall pipelineKey,
              ProfilePatternMatchesPipeline (pattern entry) pipelineKey = true
              <-> Key.codeHash (idx (Key.shaders pipelineKey) stage)
                  = mkShaderHash (overrideShaderHashLower (m_settings this))
                      (overrideShaderHashUpper (m_settings this))))
    /\ (overrideShaderHashLower (m_settings this) = 0
        /\ overrideShaderHashUpper (m_settings this) = 0 ->
        PipelineMatch.always (Pattern.pmatch (pattern entry)) = true
        /\ ShaderMatch.codeHash (Pattern.match_ (idx (Pattern.shaders (pattern entry)) stage))
           = false
        /\ (forall pipelineKey,
              ProfilePatternMatchesPipeline (pattern entry) pipelineKey = true)).
Proof.
  intros Hon Hcap Hstage.
  destruct InitialPipelineProfileEntries as [|n]; [lia|].
  unfold BuildTuningProfile; rewrite Hon, Hstage.
  cbn [negb orb repeat].
  set (l := overrideShaderHashLower (m_settings this)).
  set (u := overrideShaderHashUpper (m_settings this)).
  eexists; eexists; eexists.
  split; [reflexivity|].
  split; [reflexivity|].
  split; [reflexivity|].
  cbn [pattern Pattern.shaders Pattern.pmatch].
  change (Pattern.shaders (pattern zeroPipelineProfileEntry))
    with (fill zeroShaderProfilePattern).
  change (Pattern.pmatch (pattern zeroPipelineProfileEntry)) with (PipelineMatch.mk 0).
  rewrite idx_upd_same, idx_fill; cbn [Pattern.match_ Pattern.codeHash].
  split.
  - intros Hnz.
    assert (Hm : negb (l =? 0) || negb (u =? 0) = true).
    { apply orb_true_iff; destruct Hnz as [H|H]; [left|right];
        apply negb_true_iff, Z.eqb_neq; exact H. }
    rewrite Hm.
    split; [reflexivity|].
    split; [reflexivity|].
    split; [reflexivity|].
    split; [reflexivity|].
    split.
    + intros s Hs; rewrite idx_upd_other by (intros E; apply Hs; symmetry; exact E).
      rewrite idx_fill; reflexivity.
    + intros pipelineKey; unfold ProfilePatternMatchesPipeline.
      cbn [Pattern.pmatch Pattern.shaders].
      change (PipelineMatch.always (PipelineMatch.mk 0)) with false; cbn iota.
      rewrite stageLoop_all; cbn [Pattern.shaders].
      split.
      * intros H; specialize (H stage); rewrite idx_upd_same in H.
        rewrite stageBody_tests in H.
        apply andb_true_iff in H; destruct H as [H _].
        apply andb_true_iff in H; destruct H as [_ H].
        apply negb_true_iff in H; unfold codeHashTestFails in H.
        cbn [Pattern.match_ Pattern.codeHash lower upper] in H.
        change (ShaderMatch.codeHash
                  (ShaderMatch.set_codeHash (Pattern.match_ zeroShaderProfilePattern) true))
          with true in H.
        cbn [andb] in H; apply orb_false_iff in H; destruct H as [Hl Hu].
        apply negb_false_iff, Z.eqb_eq in Hl, Hu.
        destruct (Key.codeHash (idx (Key.shaders pipelineKey) stage)) as [kl ku].
        simpl in Hl, Hu; subst kl ku; reflexivity.
      * intros Hk s.
        destruct (ShaderStage_eq_dec stage s) as [<-|Hne].
        -- rewrite idx_upd_same, stageBody_tests.
           unfold stageActiveTestFails, stageInactiveTestFails, codeHashTestFails,
             codeSizeLessThanTestFails.
           cbn [Pattern.match_ Pattern.codeHash Pattern.codeSizeLessThanValue lower upper].
           rewrite Hk; cbn [lower upper]; rewrite !Z.eqb_refl.
           change (ShaderMatch.stageActive
                     (ShaderMatch.set_codeHash (Pattern.match_ zeroShaderProfilePattern) true))
             with false.
           change (ShaderMatch.stageInactive
                     (ShaderMatch.set_codeHash (Pattern.match_ zeroShaderProfilePattern) true))
             with false.
           change (ShaderMatch.codeSizeLessThan
                     (ShaderMatch.set_codeHash (Pattern.match_ zeroShaderProfilePattern) true))
             with false.
           cbn [andb negb orb Z.b2z]; rewrite andb_false_r; reflexivity.
        -- rewrite idx_upd_other, idx_fill by assumption; apply stageBody_zero.
  - intros [Hl Hu]; rewrite Hl, Hu; cbn [Z.eqb negb orb].
    split; [reflexivity|].
    split; [reflexivity|].
    intros pipelineKey; reflexivity.
Qed.

Lemma tuning_profile_pattern_witness :
  exists this' entry others,
    BuildTuningProfile 32 sampleOptimizer (Some [allBitsEntry]) = Some this'
    /\ pEntries (m_tuningProfile this') = Some (entry :: others)
    /\ ProfilePatternMatchesPipeline (pattern entry) fragmentOnlyKey = false.
Proof.
  destruct (tuning_profile_pattern 32 sampleOptimizer [allBitsEntry] ShaderStageFragment
              eq_refl ltac:(lia) eq_refl)
    as (this' & entry & others & Hbuilt & _ & Hentries & Hhash & _).
  exists this', entry, others; repeat (split; [assumption|]).
  destruct (Hhash ltac:(left; discriminate)) as (_ & _ & _ & _ & _ & Hmatch).
  apply not_true_is_false; intros Hyes; apply Hmatch in Hyes; discriminate Hyes.
Defined.

(** * Further properties *)

(** ** The matcher as a conjunction *)

(** X1. The matcher returns true exactly when [always] is set or no test of
    any stage fails: the result is the conjunction of the four tests over the
    six stages, and the reserved bits of a stage's match word play no part. *)
Theorem matches_iff_no_test_fails (pattern : PipelineProfilePattern)
    (pipelineKey : PipelineOptimizerKey) :
  ProfilePatternMatchesPipeline pattern pipelineKey = true
  <-> PipelineMatch.always (Pattern.pmatch pattern) = true
      \/ forall stage,
           stagePasses (idx (Pattern.shaders pattern) stage)
             (idx (Key.shaders pipelineKey) stage).
Proof.
  unfold ProfilePatternMatchesPipeline.
  destruct (PipelineMatch.always (Pattern.pmatch pattern)).
  - split; [left; reflexivity|reflexivity].
  - rewrite stageLoop_all; split.
    + intros H; right; intros stage; specialize (H stage).
      rewrite stageBody_tests in H; unfold stagePasses.
      destruct (stageActiveTestFails _ _), (stageInactiveTestFails _ _),
        (codeHashTestFails _ _), (codeSizeLessThanTestFails _ _);
        try discriminate; repeat split.
    + intros [H|H] stage; [discriminate|].
      rewrite stageBody_tests; destruct (H stage) as (-> & -> & -> & ->); reflexivity.
Qed.

(** X2. The stage-presence tests.  On the path that runs the per-stage tests
    ([always] unset): a stage whose stage-active test is enabled makes the
    pattern fail on every key in which that stage has size 0, and a stage
    whose stage-inactive test is enabled makes it fail on every key in which
    that stage has a non-zero size. *)
Theorem stage_presence_tests (pattern : PipelineProfilePattern)
    (pipelineKey : PipelineOptimizerKey) (stage : ShaderStage) :
  PipelineMatch.always (Pattern.pmatch pattern) = false ->
  (ShaderMatch.stageActive (Pattern.match_ (idx (Pattern.shaders pattern) stage)) = true ->
   Key.codeSize (idx (Key.shaders pipelineKey) stage) = 0 ->
   ProfilePatternMatchesPipeline pattern pipelineKey = false)
  /\ (ShaderMatch.stageInactive (Pattern.match_ (idx (Pattern.shaders pattern) stage)) = true ->
      Key.codeSize (idx (Key.shaders pipelineKey) stage) <> 0 ->
      ProfilePatternMatchesPipeline pattern pipelineKey = false).
Proof.
  intros Ha; unfold ProfilePatternMatchesPipeline; rewrite Ha; split.
  - intros Hbit Hsize; apply (stageLoop_fails _ _ stage); rewrite stageBody_tests.
    unfold stageActiveTestFails at 1; rewrite Hbit, Hsize; reflexivity.
  - intros Hbit Hsize; apply (stageLoop_fails _ _ stage); rewrite stageBody_tests.
    unfold stageInactiveTestFails at 1; rewrite Hbit.
    apply Z.eqb_neq in Hsize; rewrite Hsize, andb_false_r; reflexivity.
Qed.

Lemma stage_presence_tests_witness :
  ProfilePatternMatchesPipeline (fragmentPattern 0 2 (mkShaderHash 0 0) 0) fragmentOnlyKey
  = false.
Proof.
  apply (proj2 (stage_presence_tests (fragmentPattern 0 2 (mkShaderHash 0 0) 0)
                  fragmentOnlyKey ShaderStageFragment eq_refl));
    [reflexivity|simpl; lia].
Defined.

(** X3. A pattern that, with [always] unset, enables both the stage-active and
    the stage-inactive test of one stage matches no pipeline key at all. *)
Theorem contradictory_presence_tests_never_match (pattern : PipelineProfilePattern)
    (stage : ShaderStage) :
  PipelineMatch.always (Pattern.pmatch pattern) = false ->
  ShaderMatch.stageActive (Pattern.match_ (idx (Pattern.shaders pattern) stage)) = true ->
  ShaderMatch.stageInactive (Pattern.match_ (idx (Pattern.shaders pattern) stage)) = true ->
  forall pipelineKey, ProfilePatternMatchesPipeline pattern pipelineKey = false.
Proof.
  intros Ha Hact Hinact pipelineKey.
  unfold ProfilePatternMatchesPipeline; rewrite Ha.
  apply (stageLoop_fails _ _ stage); rewrite stageBody_tests.
  unfold stageActiveTestFails, stageInactiveTestFails; rewrite Hact, Hinact.
  destruct (Key.codeSize (idx (Key.shaders pipelineKey) stage) =? 0); reflexivity.
Qed.

Lemma contradictory_presence_tests_never_match_witness :
  ProfilePatternMatchesPipeline (fragmentPattern 0 3 (mkShaderHash 0 0) 0) fragmentOnlyKey
  = false.
Proof.
  apply (contradictory_presence_tests_never_match
           (fragmentPattern 0 3 (mkShaderHash 0 0) 0) ShaderStageFragment);
    reflexivity.
Defined.

(** ** [GetFirstMatchingShaderHash] *)

Lemma firstMatchingLoop_cases (eqb : ShaderHash -> ShaderHash -> bool)
    (stages : list ShaderStage) (pattern : PipelineProfilePattern)
    (pipelineKey : PipelineOptimizerKey) :
  comparesBothHalves eqb ->
  firstMatchingLoop eqb stages pattern pipelineKey = emptyHash
  \/ exists stage,
       In stage stages
       /\ ShaderMatch.codeHash (Pattern.match_ (idx (Pattern.shaders pattern) stage)) = true
       /\ Pattern.codeHash (idx (Pattern.shaders pattern) stage)
          = Key.codeHash (idx (Key.shaders pipelineKey) stage)
       /\ firstMatchingLoop eqb stages pattern pipelineKey
          = Key.codeHash (idx (Key.shaders pipelineKey) stage).
Proof.
  intros Heq; induction stages as [|s rest IH]; [left; reflexivity|].
  simpl.
  destruct (negb (ShaderMatch.u32All (Pattern.match_ (idx (Pattern.shaders pattern) s)) =? 0)).
  - destruct (ShaderMatch.codeHash (Pattern.match_ (idx (Pattern.shaders pattern) s))) eqn:Hbit.
    + destruct (eqb (Pattern.codeHash (idx (Pattern.shaders pattern) s))
                  (Key.codeHash (idx (Key.shaders pipelineKey) s))) eqn:E; simpl.
      * right; exists s; repeat split; [left; reflexivity|assumption|].
        apply Heq in E; destruct E as [El Eu].
        destruct (Pattern.codeHash (idx (Pattern.shaders pattern) s)),
          (Key.codeHash (idx (Key.shaders pipelineKey) s)); simpl in *; congruence.
      * destruct IH as [IH|(st & Hin & IH)]; [left; exact IH|].
        right; exists st; split; [right; exact Hin|exact IH].
    + simpl; destruct IH as [IH|(st & Hin & IH)]; [left; exact IH|].
      right; exists st; split; [right; exact Hin|exact IH].
  - destruct IH as [IH|(st & Hin & IH)]; [left; exact IH|].
    right; exists st; split; [right; exact Hin|exact IH].
Qed.

Lemma firstMatchingLoop_untested (eqb : ShaderHash -> ShaderHash -> bool)
    (stages : list ShaderStage) (pattern : PipelineProfilePattern)
    (pipelineKey : PipelineOptimizerKey) :
  (forall stage, In stage stages ->
     ShaderMatch.codeHash (Pattern.match_ (idx (Pattern.shaders pattern) stage)) = false) ->
  firstMatchingLoop eqb stages pattern pipelineKey = emptyHash.
Proof.
  induction stages as [|s rest IH]; intros H; [reflexivity|].
  simpl; rewrite (H s (or_introl eq_refl)); simpl.
  rewrite IH by (intros st Hst; apply H; right; exact Hst).
  destruct (negb _); reflexivity.
Qed.

(** X4. [GetFirstMatchingShaderHash] returns either the empty hash or the
    key's hash of a stage whose hash-equality test is enabled and whose
    pattern hash equals it; it returns the empty hash whenever no stage
    enables the hash-equality test, whatever [always] is. *)
Theorem first_matching_hash_is_tested_hash (eqb : ShaderHash -> ShaderHash -> bool)
    (pattern : PipelineProfilePattern) (pipelineKey : PipelineOptimizerKey) :
  comparesBothHalves eqb ->
  (GetFirstMatchingShaderHash eqb pattern pipelineKey = emptyHash
   \/ exists stage,
        ShaderMatch.codeHash (Pattern.match_ (idx (Pattern.shaders pattern) stage)) = true
        /\ Pattern.codeHash (idx (Pattern.shaders pattern) stage)
           = Key.codeHash (idx (Key.shaders pipelineKey) stage)
        /\ GetFirstMatchingShaderHash eqb pattern pipelineKey
           = Key.codeHash (idx (Key.shaders pipelineKey) stage))
  /\ ((forall stage,
         ShaderMatch.codeHash (Pattern.match_ (idx (Pattern.shaders pattern) stage)) = false) ->
      GetFirstMatchingShaderHash eqb pattern pipelineKey = emptyHash).
Proof.
  intros Heq; split.
  - destruct (firstMatchingLoop_cases eqb allStages pattern pipelineKey Heq)
      as [H|(stage & _ & H)]; [left; exact H|right; exists stage; exact H].
  - intros H; apply firstMatchingLoop_untested; intros stage _; apply H.
Qed.

Lemma halvesEqual_compares : comparesBothHalves halvesEqual.
Proof.
  intros a b; unfold halvesEqual; rewrite andb_true_iff, !Z.eqb_eq; reflexivity.
Qed.

Lemma first_matching_hash_is_tested_hash_witness :
  GetFirstMatchingShaderHash halvesEqual (fragmentPattern 1 3 (mkShaderHash 1 2) 0)
    fragmentOnlyKey = emptyHash.
Proof.
  apply (proj2 (first_matching_hash_is_tested_hash halvesEqual
                  (fragmentPattern 1 3 (mkShaderHash 1 2) 0) fragmentOnlyKey
                  halvesEqual_compares)).
  intros stage; destruct stage; reflexivity.
Defined.

Lemma firstMatchingLoop_first (eqb : ShaderHash -> ShaderHash -> bool)
    (stages : list ShaderStage) (pattern : PipelineProfilePattern)
    (pipelineKey : PipelineOptimizerKey) (stage : ShaderStage) :
  comparesBothHalves eqb ->
  find (fun s => ShaderMatch.codeHash (Pattern.match_ (idx (Pattern.shaders pattern) s)))
       stages = Some stage ->
  codeHashTestFails (idx (Pattern.shaders pattern) stage)
    (idx (Key.shaders pipelineKey) stage) = false ->
  firstMatchingLoop eqb stages pattern pipelineKey
  = Key.codeHash (idx (Key.shaders pipelineKey) stage).
Proof.
  intros Heq; induction stages as [|s rest IH]; intros Hfind Hpass; [discriminate|].
  simpl in Hfind |- *.
  destruct (ShaderMatch.codeHash (Pattern.match_ (idx (Pattern.shaders pattern) s))) eqn:Hbit.
  - injection Hfind as ->.
    assert (Hnz : negb (ShaderMatch.u32All
                          (Pattern.match_ (idx (Pattern.shaders pattern) stage)) =? 0) = true).
    { apply negb_true_iff, Z.eqb_neq; intros Hz.
      unfold ShaderMatch.codeHash in Hbit; rewrite Hz, bf_get_zero in Hbit; discriminate. }
    rewrite Hnz.
    unfold codeHashTestFails in Hpass; rewrite Hbit in Hpass; simpl in Hpass.
    apply orb_false_iff in Hpass; destruct Hpass as [Hl Hu].
    apply negb_false_iff, Z.eqb_eq in Hl, Hu.
    rewrite (proj2 (Heq _ _) (conj Hl Hu)); reflexivity.
  - simpl; rewrite (IH Hfind Hpass); destruct (negb _); reflexivity.
Qed.

(** X5. Agreement with the matcher.  When the pattern matches the key through
    its per-stage tests ([always] unset) and some stage enables the
    hash-equality test, [GetFirstMatchingShaderHash] returns the key's hash
    of the first such stage in index order, which is that stage's pattern
    hash. *)
Theorem first_matching_hash_of_matching_pattern (eqb : ShaderHash -> ShaderHash -> bool)
    (pattern : PipelineProfilePattern) (pipelineKey : PipelineOptimizerKey)
    (stage : ShaderStage) :
  comparesBothHalves eqb ->
  PipelineMatch.always (Pattern.pmatch pattern) = false ->
  ProfilePatternMatchesPipeline pattern pipelineKey = true ->
  firstHashTestedStage pattern = Some stage ->
  GetFirstMatchingShaderHash eqb pattern pipelineKey
  = Key.codeHash (idx (Key.shaders pipelineKey) stage)
  /\ lower (Key.codeHash (idx (Key.shaders pipelineKey) stage))
     = lower (Pattern.codeHash (idx (Pattern.shaders pattern) stage))
  /\ upper (Key.codeHash (idx (Key.shaders pipelineKey) stage))
     = upper (Pattern.codeHash (idx (Pattern.shaders pattern) stage)).
Proof.
  intros Heq Ha Hm Hfirst.
  unfold ProfilePatternMatchesPipeline in Hm; rewrite Ha in Hm.
  pose proof (proj1 (stageLoop_all pattern pipelineKey) Hm stage) as Hs.
  rewrite stageBody_tests in Hs.
  assert (Hpass : codeHashTestFails (idx (Pattern.shaders pattern) stage)
                    (idx (Key.shaders pipelineKey) stage) = false).
  { destruct (codeHashTestFails _ _); [|reflexivity].
    rewrite andb_false_r in Hs; discriminate. }
  split; [apply (firstMatchingLoop_first eqb allStages); assumption|].
  apply find_some in Hfirst; destruct Hfirst as [_ Hbit].
  unfold codeHashTestFails in Hpass; rewrite Hbit in Hpass; simpl in Hpass.
  apply orb_false_iff in Hpass; destruct Hpass as [Hl Hu].
  apply negb_false_iff, Z.eqb_eq in Hl, Hu; split; symmetry; assumption.
Qed.

Lemma first_matching_hash_of_matching_pattern_witness :
  GetFirstMatchingShaderHash halvesEqual
    (fragmentPattern 0 5 (mkShaderHash 0xdd6c573c46e6adf8 0x751207727c904749) 0)
    fragmentOnlyKey
  = mkShaderHash 0xdd6c573c46e6adf8 0x751207727c904749.
Proof.
  apply (proj1 (first_matching_hash_of_matching_pattern halvesEqual
                  (fragmentPattern 0 5 (mkShaderHash 0xdd6c573c46e6adf8 0x751207727c904749) 0)
                  fragmentOnlyKey ShaderStageFragment halvesEqual_compares
                  eq_refl eq_refl eq_refl)).
Defined.

(** ** More on the shader-stage pass *)

Lemma runEntries_unmatched (cfg : BuildConfig) (entries : list PipelineProfileEntry)
    (pipelineKey : PipelineOptimizerKey) (shaderStage : ShaderStage)
    (options : PipelineShaderOptionsPtr) :
  (forall e, In e entries -> ProfilePatternMatchesPipeline (pattern e) pipelineKey = false) ->
  runEntries (fun e => applyEntryToShaderCreateInfo cfg e pipelineKey shaderStage)
    entries options = Some options.
Proof.
  induction entries as [|e rest IH]; intros H; [reflexivity|].
  simpl; unfold andThen, applyEntryToShaderCreateInfo at 1.
  rewrite (H e (or_introl eq_refl)).
  apply IH; intros e' He'; apply H; right; exact He'.
Qed.

(** X6. A pass over a valid profile none of whose entries in use matches the
    key completes and returns the target exactly as it was, whatever the
    entries' actions and whichever handles are null. *)
Theorem unmatched_profile_is_noop (cfg : BuildConfig) (profile : PipelineProfile)
    (pipelineKey : PipelineOptimizerKey) (shaderStage : ShaderStage)
    (options : PipelineShaderOptionsPtr) :
  validProfile profile ->
  (forall e, In e (entriesInUse profile) ->
     ProfilePatternMatchesPipeline (pattern e) pipelineKey = false) ->
  ApplyProfileToShaderCreateInfo cfg profile pipelineKey shaderStage options = Some options.
Proof.
  intros Hvalid Hnone; rewrite ApplyProfileToShaderCreateInfo_entries by assumption.
  apply runEntries_unmatched; assumption.
Qed.

Lemma unmatched_profile_is_noop_witness :
  ApplyProfileToShaderCreateInfo sampleConfig
    (profileWith
       [mkPipelineProfileEntry (fragmentPattern 0 5 (mkShaderHash 1 2) 0)
          (action allBitsEntry)])
    fragmentOnlyKey ShaderStageFragment sampleOptions = Some sampleOptions.
Proof.
  apply unmatched_profile_is_noop; [apply profileWith_valid|].
  intros e [<-|[]]; reflexivity.
Defined.

(** X7. Last writer wins inside one rule set, for every member (guarded by an
    apply bit or by its payload): after a pass over a valid profile with a
    non-null [pOptions], a member whose handle is valid holds the value
    written by the last entry in use that matches the key and writes it. *)
Theorem last_writer_in_profile_wins (cfg : BuildConfig) (profile : PipelineProfile)
    (pipelineKey : PipelineOptimizerKey) (shaderStage : ShaderStage) (f : OptionField)
    (options options' : PipelineShaderOptionsPtr)
    (before after : list PipelineProfileEntry) (e : PipelineProfileEntry) :
  validProfile profile ->
  entriesInUse profile = before ++ e :: after ->
  setsField cfg f pipelineKey shaderStage e = true ->
  (forall e', In e' after -> setsField cfg f pipelineKey shaderStage e' = false) ->
  pOptions options <> None ->
  fieldValue f options <> None ->
  ApplyProfileToShaderCreateInfo cfg profile pipelineKey shaderStage options = Some options' ->
  fieldValue f options' = Some (written f (shaderCreateOf e shaderStage)).
Proof.
  intros Hvalid Huse He Hafter Hnn Hf H.
  rewrite ApplyProfileToShaderCreateInfo_entries in H by assumption.
  destruct (runEntries_transforms _ _ _ _ _ _ Hnn H) as [_ Hfields].
  rewrite Hfields; destruct (fieldValue f options) as [v|]; [|contradiction Hf; reflexivity].
  simpl; f_equal; rewrite Huse; apply afterEntries_last_writer; assumption.
Qed.

Lemma last_writer_in_profile_wins_witness :
  exists options',
    ApplyProfileToShaderCreateInfo sampleConfig
      (profileWith [payloadOnlyEntry; alwaysEntry 0 (vgprPayload 7)]) fragmentOnlyKey
      ShaderStageFragment sampleOptions = Some options'
    /\ fieldValue F_forceLoopUnrollCount options' = Some 8.
Proof.
  eexists; split; [vm_compute; reflexivity|].
  eapply (last_writer_in_profile_wins sampleConfig
            (profileWith [payloadOnlyEntry; alwaysEntry 0 (vgprPayload 7)]) fragmentOnlyKey
            ShaderStageFragment F_forceLoopUnrollCount sampleOptions _
            [] [alwaysEntry 0 (vgprPayload 7)] payloadOnlyEntry).
  - apply profileWith_valid.
  - reflexivity.
  - reflexivity.
  - intros e' [<-|[]]; reflexivity.
  - discriminate.
  - discriminate.
  - vm_compute; reflexivity.
Defined.

Lemma afterEntries_snoc (cfg : BuildConfig) (f : OptionField) (pipelineKey : PipelineOptimizerKey)
    (shaderStage : ShaderStage) (entries : list PipelineProfileEntry)
    (e : PipelineProfileEntry) (v : Z) :
  afterEntries cfg f pipelineKey shaderStage (entries ++ [e]) v
  = if setsField cfg f pipelineKey shaderStage e
    then written f (shaderCreateOf e shaderStage)
    else afterEntries cfg f pipelineKey shaderStage entries v.
Proof. rewrite afterEntries_app; reflexivity. Qed.

(** A run of entries either keeps every value or sends every value to one
    constant. *)
Lemma afterEntries_keeps_or_constant (cfg : BuildConfig) (f : OptionField)
    (pipelineKey : PipelineOptimizerKey) (shaderStage : ShaderStage)
    (entries : list PipelineProfileEntry) :
  (forall v, afterEntries cfg f pipelineKey shaderStage entries v = v)
  \/ (exists c, forall v, afterEntries cfg f pipelineKey shaderStage entries v = c).
Proof.
  induction entries as [|e rest IH] using rev_ind; [left; reflexivity|].
  destruct (setsField cfg f pipelineKey shaderStage e) eqn:He.
  - right; exists (written f (shaderCreateOf e shaderStage)); intros v.
    rewrite afterEntries_snoc, He; reflexivity.
  - destruct IH as [IH|(c & IH)].
    + left; intros v; rewrite afterEntries_snoc, He; apply IH.
    + right; exists c; intros v; rewrite afterEntries_snoc, He; apply IH.
Qed.

(** X8. The pass is idempotent member by member: running it a second time
    over the same profile, key and stage leaves every member at the value the
    first run gave it. *)
Theorem pass_is_idempotent (cfg : BuildConfig) (profile : PipelineProfile)
    (pipelineKey : PipelineOptimizerKey) (shaderStage : ShaderStage)
    (options once twice : PipelineShaderOptionsPtr) :
  validProfile profile ->
  ApplyProfileToShaderCreateInfo cfg profile pipelineKey shaderStage options = Some once ->
  ApplyProfileToShaderCreateInfo cfg profile pipelineKey shaderStage once = Some twice ->
  forall f, fieldValue f twice = fieldValue f once.
Proof.
  intros Hvalid H1 H2 f.
  rewrite ApplyProfileToShaderCreateInfo_entries in H1, H2 by assumption.
  destruct (pOptions options) eqn:Ho.
  - assert (Hnn : pOptions options <> None) by (rewrite Ho; discriminate).
    destruct (runEntries_transforms _ _ _ _ _ _ Hnn H1) as [Hs1 Hf1].
    assert (Hnn1 : pOptions once <> None).
    { intros N; apply Hnn; apply (proj1 (proj2 Hs1)); exact N. }
    destruct (runEntries_transforms _ _ _ _ _ _ Hnn1 H2) as [_ Hf2].
    rewrite Hf2, Hf1; destruct (fieldValue f options) as [v|]; [|reflexivity].
    simpl; f_equal.
    destruct (afterEntries_keeps_or_constant cfg f pipelineKey shaderStage
                (entriesInUse profile)) as [Hk|(c & Hc)].
    + rewrite !Hk; reflexivity.
    + rewrite !Hc; reflexivity.
  - rewrite runEntries_null in H1 by assumption; injection H1 as <-.
    rewrite runEntries_null in H2 by assumption; injection H2 as <-; reflexivity.
Qed.

Lemma pass_is_idempotent_witness :
  exists once twice,
    ApplyProfileToShaderCreateInfo sampleConfig (profileWith [allBitsEntry; payloadOnlyEntry])
      fragmentOnlyKey ShaderStageFragment sampleOptions = Some once
    /\ ApplyProfileToShaderCreateInfo sampleConfig (profileWith [allBitsEntry; payloadOnlyEntry])
         fragmentOnlyKey ShaderStageFragment once = Some twice
    /\ fieldValue F_vgprLimit twice = fieldValue F_vgprLimit once.
Proof.
  eexists; eexists; split; [vm_compute; reflexivity|split; [vm_compute; reflexivity|]].
  eapply (pass_is_idempotent sampleConfig (profileWith [allBitsEntry; payloadOnlyEntry])
            fragmentOnlyKey ShaderStageFragment sampleOptions).
  - apply profileWith_valid.
  - vm_compute; reflexivity.
  - vm_compute; reflexivity.
Defined.

Lemma afterEntries_flag (cfg : BuildConfig) (f : OptionField) (x : Z)
    (pipelineKey : PipelineOptimizerKey) (shaderStage : ShaderStage)
    (entries : list PipelineProfileEntry) :
  (forall sc, written f sc = x) ->
  afterEntries cfg f pipelineKey shaderStage entries x = x.
Proof.
  intros Hw; induction entries as [|e rest IH] using rev_ind; [reflexivity|].
  rewrite afterEntries_snoc, IH, Hw; destruct (setsField _ _ _ _ _); reflexivity.
Qed.

(** X9. The pass never clears a flag it can set and never re-enables NGG: a
    set-only flag that is true before the pass is true after it, and
    [enableNgg] that is false before the pass is false after it, for every
    profile, key and stage. *)
Theorem pass_never_reverts_a_flag (cfg : BuildConfig) (profile : PipelineProfile)
    (pipelineKey : PipelineOptimizerKey) (shaderStage : ShaderStage)
    (options options' : PipelineShaderOptionsPtr) :
  validProfile profile ->
  ApplyProfileToShaderCreateInfo cfg profile pipelineKey shaderStage options = Some options' ->
  (forall f, setOnlyFlag f = true ->
     fieldValue f options = Some 1 -> fieldValue f options' = Some 1)
  /\ (fieldValue F_enableNgg options = Some 0 -> fieldValue F_enableNgg options' = Some 0).
Proof.
  intros Hvalid H.
  rewrite ApplyProfileToShaderCreateInfo_entries in H by assumption.
  destruct (pOptions options) eqn:Ho.
  - assert (Hnn : pOptions options <> None) by (rewrite Ho; discriminate).
    destruct (runEntries_transforms _ _ _ _ _ _ Hnn H) as [_ Hf].
    split.
    + intros f Hflag Hv; rewrite Hf, Hv; simpl; f_equal.
      apply afterEntries_flag; intros sc; destruct f; try discriminate Hflag; reflexivity.
    + intros Hv; rewrite Hf, Hv; simpl; f_equal.
      apply afterEntries_flag; intros sc; reflexivity.
  - rewrite runEntries_null in H by assumption; injection H as <-; split; auto.
Qed.

Lemma pass_never_reverts_a_flag_witness :
  exists options',
    ApplyProfileToShaderCreateInfo sampleConfig (profileWith [allBitsEntry; payloadOnlyEntry])
      fragmentOnlyKey ShaderStageFragment flaggedOptions = Some options'
    /\ fieldValue F_useSiScheduler options' = Some 1
    /\ fieldValue F_enableNgg options' = Some 0.
Proof.
  eexists; split; [vm_compute; reflexivity|].
  edestruct (pass_never_reverts_a_flag sampleConfig
               (profileWith [allBitsEntry; payloadOnlyEntry]) fragmentOnlyKey
               ShaderStageFragment flaggedOptions) as [Hflags Hngg].
  - apply profileWith_valid.
  - vm_compute; reflexivity.
  - split; [apply (Hflags F_useSiScheduler)|apply Hngg]; reflexivity.
Defined.

(** ** More on [BuildTuningProfile] *)

(** X10. [BuildTuningProfile] is undefined only when the switch is on, the
    allocation succeeded and either the capacity is zero or the configured
    stage index is not below [ShaderStageCount].  Whenever it returns, it has
    changed nothing but [m_tuningProfile], which then holds at most one entry
    in use, lying inside the block, and records the capacity it was given;
    after a failed allocation it holds no entry and a null block. *)
Theorem BuildTuningProfile_outcome (InitialPipelineProfileEntries : nat)
    (this : ShaderOptimizer) (pMemory : option (list PipelineProfileEntry)) :
  (BuildTuningProfile InitialPipelineProfileEntries this pMemory = None
   <-> overrideShaderParams (m_settings this) = true
       /\ pMemory <> None
       /\ (InitialPipelineProfileEntries = 0%nat
           \/ stageOfIndex (overrideShaderStage (m_settings this)) = None))
  /\ (forall this',
        BuildTuningProfile InitialPipelineProfileEntries this pMemory = Some this' ->
        m_settings this' = m_settings this
        /\ m_appProfile this' = m_appProfile this
        /\ m_runtimeProfile this' = m_runtimeProfile this
        /\ (entryCount (m_tuningProfile this') <= 1)%nat
        /\ entryCapacity (m_tuningProfile this') = InitialPipelineProfileEntries
        /\ inUseInsideBlock (m_tuningProfile this')
        /\ (pMemory = None ->
            entryCount (m_tuningProfile this') = 0%nat
            /\ pEntries (m_tuningProfile this') = None)).
Proof.
  unfold BuildTuningProfile.
  destruct (overrideShaderParams (m_settings this)) eqn:Hon;
    destruct pMemory as [block|]; cbn [negb orb].
  - destruct InitialPipelineProfileEntries as [|n]; cbn [repeat].
    + split.
      * split; [intros _; repeat split; [discriminate|left; reflexivity]|reflexivity].
      * intros this' H; discriminate.
    + destruct (stageOfIndex (overrideShaderStage (m_settings this))) as [stage|] eqn:Hs.
      * split.
        -- split; [discriminate|intros (_ & _ & [H|H]); discriminate].
        -- intros this' H; injection H as <-.
           cbn [m_settings m_appProfile m_runtimeProfile m_tuningProfile
                set_m_tuningProfile entryCount entryCapacity pEntries].
           repeat split; try lia; try discriminate.
           intros i Hi; cbn [entryCount] in Hi; unfold entryAt; cbn [pEntries].
           assert (i = 0%nat) as -> by lia; discriminate.
      * split.
        -- split; [intros _; repeat split; [discriminate|right; reflexivity]|reflexivity].
        -- intros this' H; discriminate.
  - split.
    + split; [discriminate|intros (_ & H & _); contradiction H; reflexivity].
    + intros this' H; injection H as <-.
      cbn [m_settings m_appProfile m_runtimeProfile m_tuningProfile
           set_m_tuningProfile entryCount entryCapacity pEntries].
      repeat split; try lia; intros i Hi; cbn [entryCount] in Hi; lia.
  - split.
    + split; [discriminate|intros (H & _); discriminate].
    + intros this' H; injection H as <-.
      cbn [m_settings m_appProfile m_runtimeProfile m_tuningProfile
           set_m_tuningProfile entryCount entryCapacity pEntries].
      repeat split; try lia; try discriminate; intros i Hi; cbn [entryCount] in Hi; lia.
  - split.
    + split; [discriminate|intros (H & _); discriminate].
    + intros this' H; injection H as <-.
      cbn [m_settings m_appProfile m_runtimeProfile m_tuningProfile
           set_m_tuningProfile entryCount entryCapacity pEntries].
      repeat split; try lia; intros i Hi; cbn [entryCount] in Hi; lia.
Qed.

Lemma tuning_rule_built (InitialPipelineProfileEntries : nat) (this : ShaderOptimizer)
    (block : list PipelineProfileEntry) (stage : ShaderStage) :
  overrideShaderParams (m_settings this) = true ->
  (0 < InitialPipelineProfileEntries)%nat ->
  stageOfIndex (overrideShaderStage (m_settings this)) = Some stage ->
  exists entry,
    tuningRuleOf (m_settings this) = Some entry
    /\ BuildTuningProfile InitialPipelineProfileEntries this (Some block)
       = Some (set_m_tuningProfile this
                 (mkPipelineProfile 1 InitialPipelineProfileEntries
                    (Some (entry :: repeat zeroPipelineProfileEntry
                                      (InitialPipelineProfileEntries - 1))))).
Proof.
  intros Hon Hcap Hs.
  destruct InitialPipelineProfileEntries as [|n]; [lia|].
  unfold tuningRuleOf, BuildTuningProfile.
  cbn [m_settings]; rewrite Hon, Hs; cbn [negb orb repeat].
  eexists; split; [reflexivity|].
  replace (S n - 1)%nat with n by lia; reflexivity.
Qed.

Lemma tuning_rule_matches (settings : RuntimeSettings) (stage : ShaderStage)
    (entry : PipelineProfileEntry) (pipelineKey : PipelineOptimizerKey) :
  overrideShaderParams settings = true ->
  stageOfIndex (overrideShaderStage settings) = Some stage ->
  tuningRuleOf settings = Some entry ->
  (ProfilePatternMatchesPipeline (pattern entry) pipelineKey = true
   <-> tuningRuleMatches settings stage pipelineKey).
Proof.
  intros Hon Hs H; unfold tuningRuleOf, BuildTuningProfile in H.
  cbn [m_settings] in H; rewrite Hon, Hs in H; cbn [negb orb repeat] in H.
  cbn [m_tuningProfile set_m_tuningProfile pEntries] in H; injection H as <-.
  unfold tuningRuleMatches, ProfilePatternMatchesPipeline.
  cbn [pattern Pattern.pmatch Pattern.shaders].
  change (Pattern.shaders (pattern zeroPipelineProfileEntry))
    with (fill zeroShaderProfilePattern).
  change (Pattern.pmatch (pattern zeroPipelineProfileEntry)) with (PipelineMatch.mk 0).
  rewrite idx_fill.
  set (l := overrideShaderHashLower settings); set (u := overrideShaderHashUpper settings).
  destruct (negb (l =? 0) || negb (u =? 0)) eqn:Hm.
  - change (PipelineMatch.always (PipelineMatch.mk 0)) with false; cbn iota.
    rewrite stageLoop_all; cbn [Pattern.shaders].
    assert (Hnz : ~ (l = 0 /\ u = 0)).
    { intros [Hl Hu]; rewrite Hl, Hu in Hm; discriminate. }
    split.
    + intros H; right; specialize (H stage); rewrite idx_upd_same in H.
      rewrite stageBody_tests in H.
      apply andb_true_iff in H; destruct H as [H _].
      apply andb_true_iff in H; destruct H as [_ H].
      apply negb_true_iff in H; unfold codeHashTestFails in H.
      cbn [Pattern.match_ Pattern.codeHash lower upper] in H.
      change (ShaderMatch.codeHash
                (ShaderMatch.set_codeHash (Pattern.match_ zeroShaderProfilePattern) true))
        with true in H.
      cbn [andb] in H; apply orb_false_iff in H; destruct H as [Hl Hu].
      apply negb_false_iff, Z.eqb_eq in Hl, Hu.
      destruct (Key.codeHash (idx (Key.shaders pipelineKey) stage)) as [kl ku].
      simpl in Hl, Hu; subst kl ku; reflexivity.
    + intros [Hz|Hk] s; [contradiction|].
      destruct (ShaderStage_eq_dec stage s) as [<-|Hne].
      * rewrite idx_upd_same, stageBody_tests.
        unfold stageActiveTestFails, stageInactiveTestFails, codeHashTestFails,
          codeSizeLessThanTestFails.
        cbn [Pattern.match_ Pattern.codeHash Pattern.codeSizeLessThanValue lower upper].
        rewrite Hk; cbn [lower upper]; rewrite !Z.eqb_refl.
        change (ShaderMatch.stageActive
                  (ShaderMatch.set_codeHash (Pattern.match_ zeroShaderProfilePattern) true))
          with false.
        change (ShaderMatch.stageInactive
                  (ShaderMatch.set_codeHash (Pattern.match_ zeroShaderProfilePattern) true))
          with false.
        change (ShaderMatch.codeSizeLessThan
                  (ShaderMatch.set_codeHash (Pattern.match_ zeroShaderProfilePattern) true))
          with false.
        cbn [andb negb orb Z.b2z]; rewrite andb_false_r; reflexivity.
      * rewrite idx_upd_other, idx_fill by assumption; apply stageBody_zero.
  - apply orb_false_iff in Hm; destruct Hm as [Hl Hu].
    apply negb_false_iff, Z.eqb_eq in Hl, Hu.
    split; [intros _; left; split; assumption|intros _; reflexivity].
Qed.

Lemma tuning_rule_other_stages (settings : RuntimeSettings) (stage s : ShaderStage)
    (entry : PipelineProfileEntry) :
  overrideShaderParams settings = true ->
  stageOfIndex (overrideShaderStage settings) = Some stage ->
  tuningRuleOf settings = Some entry ->
  s <> stage ->
  idx (Action.shaders (action entry)) s = zeroShaderProfileAction.
Proof.
  intros Hon Hs H Hne; unfold tuningRuleOf, BuildTuningProfile in H.
  cbn [m_settings] in H; rewrite Hon, Hs in H; cbn [negb orb repeat] in H.
  cbn [m_tuningProfile set_m_tuningProfile pEntries] in H; injection H as <-.
  cbn [action Action.shaders].
  rewrite idx_upd_other by (intros E; apply Hne; symmetry; exact E).
  change (Action.shaders (action zeroPipelineProfileEntry))
    with (fill zeroShaderProfileAction).
  apply idx_fill.
Qed.

Ltac settle_apply_bits :=
  unfold CreateApply.set_vgprLimit, CreateApply.set_ldsSpillLimitDwords,
    CreateApply.set_userDataSpillThreshold, CreateApply.set_allowReZ,
    CreateApply.set_enableSelectiveInline, CreateApply.set_disableLoopUnrolls,
    CreateApply.set_waveSize, CreateApply.set_wgpMode, CreateApply.set_nggDisable,
    CreateApply.set_enableSubvector;
  cbn [CreateApply.u32All];
  repeat first [ rewrite bf_get_set_same by (vm_compute; discriminate)
               | rewrite bf_get_set_other by (vm_compute; discriminate) ];
  rewrite ?bf_get_zero.

Lemma tuning_rule_writes (cfg : BuildConfig) (settings : RuntimeSettings)
    (stage : ShaderStage) (entry : PipelineProfileEntry) (f : OptionField) :
  overrideShaderParams settings = true ->
  stageOfIndex (overrideShaderStage settings) = Some stage ->
  tuningRuleOf settings = Some entry ->
  (if writes cfg f (shaderCreateOf entry stage)
   then Some (written f (shaderCreateOf entry stage)) else None)
  = tuningOverride settings f.
Proof.
  intros Hon Hs H; unfold tuningRuleOf, BuildTuningProfile in H.
  cbn [m_settings] in H; rewrite Hon, Hs in H; cbn [negb orb repeat] in H.
  cbn [m_tuningProfile set_m_tuningProfile pEntries] in H; injection H as <-.
  unfold shaderCreateOf; cbn [action Action.shaders].
  rewrite idx_upd_same; cbn [shaderCreate].
  change (Action.shaders (action zeroPipelineProfileEntry))
    with (fill zeroShaderProfileAction).
  rewrite idx_fill.
  change (ShaderCreate.apply (shaderCreate zeroShaderProfileAction)) with (CreateApply.mk 0).
  change (ShaderCreate.tuningOptions (shaderCreate zeroShaderProfileAction))
    with zeroShaderTuningOptions.
  unfold writes, written, tuningOverride.
  cbn [ShaderCreate.apply ShaderCreate.tuningOptions].
  destruct (negb (overrideNumVGPRsAvailable settings =? 0)) eqn:Cv;
    destruct (negb (overrideMaxLdsSpillDwords settings =? 0)) eqn:Cl;
    destruct (overrideUserDataSpillThreshold settings);
    destruct (overrideWaveSize settings);
    destruct (overrideWgpMode settings);
    destruct f; cbn [applyBitOf payloadGuard];
    settle_apply_bits; try reflexivity.
  all: destruct (overrideEnableLoadScalarizer settings), (overrideDisableLicm settings),
         (overrideReconfigWorkgroupLayout settings), (overrideUseSiScheduler settings);
       try reflexivity.
  all: try (destruct (overrideAllowReZ settings); reflexivity).
  all: try (destruct (overrideDisableLoopUnrolls settings); reflexivity).
  all: try (destruct (overrideUseNgg settings); reflexivity).
Qed.

Lemma applyShaderCreate_zero (cfg : BuildConfig) (t : PipelineShaderOptionsPtr) :
  applyShaderCreate cfg (shaderCreate zeroShaderProfileAction) t = Some t.
Proof.
  unfold applyShaderCreate; cbn [ShaderCreate.apply ShaderCreate.tuningOptions shaderCreate
                                   zeroShaderProfileAction].
  destruct (LLPC_CLIENT_INTERFACE_MAJOR_VERSION cfg <? 45); reflexivity.
Qed.

(** X11. The synthesized tuning rule is confined to the configured stage and to
    the keys it matches: the shader-stage pass over the profile
    [BuildTuningProfile] left returns the target exactly as it was when run
    for any other stage, or for a key the rule does not match (a non-zero
    configured hash that differs from the key's hash at the configured
    stage). *)
Theorem tuning_rule_is_confined (InitialPipelineProfileEntries : nat)
    (this this' : ShaderOptimizer) (pMemory : option (list PipelineProfileEntry))
    (cfg : BuildConfig) (pipelineKey : PipelineOptimizerKey) (shaderStage : ShaderStage)
    (options : PipelineShaderOptionsPtr) :
  BuildTuningProfile InitialPipelineProfileEntries this pMemory = Some this' ->
  (forall stage,
     stageOfIndex (overrideShaderStage (m_settings this)) = Some stage ->
     shaderStage <> stage \/ ~ tuningRuleMatches (m_settings this) stage pipelineKey) ->
  ApplyProfileToShaderCreateInfo cfg (m_tuningProfile this') pipelineKey shaderStage options
  = Some options.
Proof.
  intros Hbuilt Hconf.
  destruct (overrideShaderParams (m_settings this)) eqn:Hon;
    [destruct pMemory as [block|]|].
  - destruct InitialPipelineProfileEntries as [|n].
    { unfold BuildTuningProfile in Hbuilt; rewrite Hon in Hbuilt; discriminate. }
    destruct (stageOfIndex (overrideShaderStage (m_settings this))) as [stage|] eqn:Hs.
    2: { unfold BuildTuningProfile in Hbuilt; rewrite Hon, Hs in Hbuilt; discriminate. }
    destruct (tuning_rule_built (S n) this block stage Hon ltac:(lia) Hs)
      as (entry & Hrule & Hb).
    rewrite Hb in Hbuilt; injection Hbuilt as <-.
    unfold ApplyProfileToShaderCreateInfo;
      cbn [m_tuningProfile set_m_tuningProfile entryCount forEntries].
    unfold andThen, entryAt; cbn [pEntries nth_error].
    unfold applyEntryToShaderCreateInfo.
    destruct (ProfilePatternMatchesPipeline (pattern entry) pipelineKey) eqn:Hm; [|reflexivity].
    destruct (pOptions options); [|reflexivity].
    apply (tuning_rule_matches _ stage entry pipelineKey Hon Hs Hrule) in Hm.
    destruct (Hconf stage eq_refl) as [Hne|Hno]; [|contradiction].
    rewrite (tuning_rule_other_stages _ stage shaderStage entry Hon Hs Hrule Hne).
    rewrite applyShaderCreate_zero; reflexivity.
  - unfold BuildTuningProfile in Hbuilt; rewrite Hon in Hbuilt; cbn in Hbuilt.
    injection Hbuilt as <-; reflexivity.
  - unfold BuildTuningProfile in Hbuilt; rewrite Hon in Hbuilt; cbn in Hbuilt.
    injection Hbuilt as <-; reflexivity.
Qed.

Lemma tuning_rule_is_confined_witness :
  exists this',
    BuildTuningProfile 32 sampleOptimizer (Some []) = Some this'
    /\ ApplyProfileToShaderCreateInfo sampleConfig (m_tuningProfile this') tunedKey
         ShaderStageVertex sampleOptions = Some sampleOptions.
Proof.
  eexists; split; [vm_compute; reflexivity|].
  eapply (tuning_rule_is_confined 32 sampleOptimizer _ (Some [])).
  - vm_compute; reflexivity.
  - intros stage Hs; left; vm_compute in Hs; injection Hs as <-; discriminate.
Defined.

(** X12. What the tuning settings do to the compiler options.  With the switch
    on, an allocation of at least one entry and a stage index in range, the
    pass over the built profile, run for the configured stage on a key the
    rule matches (both configured hash halves zero, or the key's hash at that
    stage equal to the configured one), completes and leaves every member at
    [tuningOverride]: the VGPR limit when non-zero, wave size 64 or 32, the
    flags [allowReZ], [disableLoopUnroll], [useSiScheduler],
    [reconfigWorkgroupLayout], [enableLoadScalarizer], [disableLicm] and
    [wgpMode] set when asked for, and [enableNgg] cleared when
    [overrideUseNgg] is on; every other member keeps its value, and no other
    setting has any effect on the options. *)
Theorem tuning_rule_effect (InitialPipelineProfileEntries : nat) (this : ShaderOptimizer)
    (block : list PipelineProfileEntry) (stage : ShaderStage) (cfg : BuildConfig)
    (pipelineKey : PipelineOptimizerKey) (options : PipelineShaderOptionsPtr) :
  overrideShaderParams (m_settings this) = true ->
  (0 < InitialPipelineProfileEntries)%nat ->
  stageOfIndex (overrideShaderStage (m_settings this)) = Some stage ->
  tuningRuleMatches (m_settings this) stage pipelineKey ->
  validOptions options ->
  exists this' options',
    BuildTuningProfile InitialPipelineProfileEntries this (Some block) = Some this'
    /\ ApplyProfileToShaderCreateInfo cfg (m_tuningProfile this') pipelineKey stage options
       = Some options'
    /\ forall f,
         fieldValue f options'
         = match tuningOverride (m_settings this) f with
           | Some v => Some v
           | None => fieldValue f options
           end.
Proof.
  intros Hon Hcap Hs Hmatch Hv.
  destruct (tuning_rule_built _ this block stage Hon Hcap Hs) as (entry & Hrule & Hb).
  set (profile := mkPipelineProfile 1 InitialPipelineProfileEntries
                    (Some (entry :: repeat zeroPipelineProfileEntry
                                      (InitialPipelineProfileEntries - 1)))).
  assert (Hvalid : validProfile profile).
  { eexists; split; [reflexivity|simpl; lia]. }
  destruct (ApplyProfile_total cfg profile pipelineKey stage options Hvalid Hv)
    as (options' & Hrun & _ & Hfields).
  exists (set_m_tuningProfile this profile), options'.
  split; [exact Hb|split; [exact Hrun|]].
  intros f; destruct (fieldValue_valid f options Hv) as (v & Hfv).
  rewrite (Hfields f v Hfv), Hfv.
  change (entriesInUse profile) with [entry].
  unfold afterEntries; cbn [fold_left]; unfold setsField.
  rewrite (proj2 (tuning_rule_matches _ stage entry pipelineKey Hon Hs Hrule) Hmatch).
  cbn [andb].
  rewrite <- (tuning_rule_writes cfg (m_settings this) stage entry f Hon Hs Hrule).
  destruct (writes cfg f (shaderCreateOf entry stage)); reflexivity.
Qed.

Lemma tuning_rule_effect_witness :
  exists this' options',
    BuildTuningProfile 32 sampleOptimizer (Some []) = Some this'
    /\ ApplyProfileToShaderCreateInfo sampleConfig (m_tuningProfile this') tunedKey
         ShaderStageFragment sampleOptions = Some options'
    /\ fieldValue F_vgprLimit options' = Some 48
    /\ fieldValue F_waveSize options' = Some 64
    /\ fieldValue F_sgprLimit options' = Some 100.
Proof.
  destruct (tuning_rule_effect 32 sampleOptimizer [] ShaderStageFragment sampleConfig
              tunedKey sampleOptions eq_refl ltac:(lia) eq_refl
              (or_intror eq_refl) sampleOptions_valid)
    as (this' & options' & Hb & Hrun & Hf).
  exists this', options'; repeat (split; [assumption|]).
  split; [exact (Hf F_vgprLimit)|split; [exact (Hf F_waveSize)|exact (Hf F_sgprLimit)]].
Defined.

(** ** The graphics pass *)

(** A counting loop seen through a view of the state is a fold over the
    entries it visits. *)
Lemma forEntries_view {St T : Type} (view : St -> T) (step : PipelineProfileEntry -> T -> T)
    (block : list PipelineProfileEntry) (body : nat -> Update St) :
  (forall i e s s', nth_error block i = Some e -> body i s = Some s' ->
     view s' = step e (view s)) ->
  forall count first s s',
    (first + count <= length block)%nat ->
    forEntries count first body s = Some s' ->
    view s' = fold_left (fun t e => step e t) (firstn count (skipn first block)) (view s).
Proof.
  intros Hbody; induction count as [|n IH]; intros first s s' Hlen H.
  - injection H as <-; reflexivity.
  - simpl in H; unfold andThen in H.
    destruct (body first s) as [s1|] eqn:H1; [|discriminate].
    destruct (nth_error block first) as [e|] eqn:He;
      [|apply nth_error_None in He; lia].
    rewrite (nth_error_skipn _ _ _ He); cbn [firstn fold_left].
    rewrite <- (Hbody first e s s1 He H1).
    apply (IH (S first)); [lia|exact H].
Qed.

Lemma when_cases {St : Type} (c : bool) (m : Update St) (s s' : St) :
  when c m s = Some s' -> (c = true /\ m s = Some s') \/ (c = false /\ s' = s).
Proof.
  destruct c; cbn; intros H; [left; split; [reflexivity|exact H]|].
  right; split; [reflexivity|injection H as <-; reflexivity].
Qed.

(** The dynamic-info step for one slot. *)
Lemma dynamic_step {R C : Type} (flag : bool) (action : ShaderProfileAction)
    (slot : GraphicsSlot) (st st' : GraphicsPassState R C) :
  when flag (addressOfSlot slot ;; ApplyProfileToDynamicGraphicsShaderInfo action slot) st
  = Some st' ->
  palCreateInfo st' = palCreateInfo st
  /\ graphicsDbgOutput st' = graphicsDbgOutput st
  /\ graphicsShaderInfos st'
     = option_map
         (fun infos =>
            if flag && DynApply.cuEnableMask (DynamicShaderInfo.apply (dynamicShaderInfo action))
            then setSlotInfo slot
                   (Pal.mkDynamicGraphicsShaderInfo
                      (DynamicShaderInfo.cuEnableMask (dynamicShaderInfo action))
                      (Pal.otherShaderInfo (slotInfo slot infos))) infos
            else infos)
         (graphicsShaderInfos st).
Proof.
  intros H; apply when_cases in H; destruct H as [[-> H]|[-> ->]].
  - unfold andThen, addressOfSlot, ApplyProfileToDynamicGraphicsShaderInfo in H.
    destruct (graphicsShaderInfos st) eqn:Hinfos; [|discriminate].
    apply when_cases in H; destruct H as [[-> H]|[-> ->]].
    + unfold via_slot in H; rewrite Hinfos in H.
      injection H as <-; repeat split.
    + rewrite Hinfos; repeat split.
  - repeat split; destruct (graphicsShaderInfos st); reflexivity.
Qed.

Lemma createInfo_step {R C : Type} (flag : bool)
    (f : Pal.GraphicsPipelineCreateInfo C -> Pal.GraphicsPipelineCreateInfo C)
    (st st' : GraphicsPassState R C) :
  when flag (via_pPalCreateInfo f) st = Some st' ->
  graphicsShaderInfos st' = graphicsShaderInfos st
  /\ graphicsDbgOutput st' = graphicsDbgOutput st
  /\ palCreateInfo st'
     = option_map (fun info => if flag then f info else info) (palCreateInfo st).
Proof.
  intros H; apply when_cases in H; destruct H as [[-> H]|[-> ->]].
  - unfold via_pPalCreateInfo in H; destruct (palCreateInfo st); [|discriminate].
    injection H as <-; repeat split.
  - repeat split; destruct (palCreateInfo st); reflexivity.
Qed.

Lemma print_step {R C : Type} (cfg : BuildConfig) (this : ShaderOptimizer)
    (lines : list DbgLine) (st st' : GraphicsPassState R C) :
  (if PAL_ENABLE_PRINTS_ASSERTS cfg
   then when (pipelineProfileDbgPrintProfileMatch (m_settings this)) (graphicsDbgPrint lines)
   else skip) st = Some st' ->
  graphicsTarget st' = graphicsTarget st.
Proof.
  destruct (PAL_ENABLE_PRINTS_ASSERTS cfg);
    [destruct (pipelineProfileDbgPrintProfileMatch (m_settings this))|];
    cbn; intros H; injection H as <-; reflexivity.
Qed.

Lemma andThen_split {St : Type} (a b : Update St) (s s' : St) :
  (a ;; b) s = Some s' -> exists s1, a s = Some s1 /\ b s1 = Some s'.
Proof.
  unfold andThen; destruct (a s) as [s1|]; [|discriminate].
  intros H; exists s1; split; [reflexivity|exact H].
Qed.

(** One matching entry, as a function on the target. *)
Lemma applyEntryToGraphics_target {R C : Type} (cfg : BuildConfig) (this : ShaderOptimizer)
    (profile : ProfileMember) (entry : nat) (e : PipelineProfileEntry)
    (pipelineKey : PipelineOptimizerKey) (shaderStages : Z)
    (st st' : GraphicsPassState R C) :
  ProfilePatternMatchesPipeline (pattern e) pipelineKey = true ->
  applyEntryToGraphicsPipelineCreateInfo cfg this profile entry e pipelineKey shaderStages st
  = Some st' ->
  palCreateInfo st' = option_map (createInfoAfterEntry pipelineKey e) (palCreateInfo st)
  /\ forall slot,
       option_map (slotInfo slot) (graphicsShaderInfos st')
       = option_map (fun infos => slotAfterEntry pipelineKey shaderStages slot e
                                    (slotInfo slot infos))
           (graphicsShaderInfos st).
Proof.
  intros Hm H; unfold applyEntryToGraphicsPipelineCreateInfo in H; cbv zeta in H.
  apply andThen_split in H; destruct H as (s1 & H1 & H).
  apply andThen_split in H; destruct H as (s2 & H2 & H).
  apply andThen_split in H; destruct H as (s3 & H3 & H).
  apply andThen_split in H; destruct H as (s4 & H4 & H).
  apply andThen_split in H; destruct H as (s5 & H5 & H).
  apply andThen_split in H; destruct H as (s6 & H6 & H).
  apply andThen_split in H; destruct H as (s7 & H7 & H).
  apply dynamic_step in H1, H2, H3, H4, H5.
  apply createInfo_step in H6, H7.
  apply print_step in H; unfold graphicsTarget in H; injection H as Hc Hi.
  destruct H1 as (C1 & _ & I1), H2 as (C2 & _ & I2), H3 as (C3 & _ & I3),
    H4 as (C4 & _ & I4), H5 as (C5 & _ & I5), H6 as (I6 & _ & C6), H7 as (I7 & _ & C7).
  split.
  - rewrite Hc, C7, C6, C5, C4, C3, C2, C1.
    unfold createInfoAfterEntry, setsLateAllocVsLimit, setsBinningOverride; rewrite Hm.
    cbn [andb].
    destruct (palCreateInfo st) as [info|]; [|reflexivity]; cbn [option_map].
    destruct (CreateInfoApply.lateAllocVsLimit _), (CreateInfoApply.binningOverride _);
      destruct info; reflexivity.
  - intros slot; rewrite Hi, I7, I6, I5, I4, I3, I2, I1.
    unfold slotAfterEntry, setsCuEnableMask, dynamicInfoOf; rewrite Hm; cbn [andb].
    destruct (graphicsShaderInfos st) as [infos|]; [|reflexivity]; cbn [option_map].
    f_equal.
    destruct slot; cbn [slotStage slotBit];
      destruct (hasStage shaderStages VK_SHADER_STAGE_VERTEX_BIT
                && DynApply.cuEnableMask _),
        (hasStage shaderStages VK_SHADER_STAGE_TESSELLATION_CONTROL_BIT
         && DynApply.cuEnableMask _),
        (hasStage shaderStages VK_SHADER_STAGE_TESSELLATION_EVALUATION_BIT
         && DynApply.cuEnableMask _),
        (hasStage shaderStages VK_SHADER_STAGE_GEOMETRY_BIT
         && DynApply.cuEnableMask _),
        (hasStage shaderStages VK_SHADER_STAGE_FRAGMENT_BIT
         && DynApply.cuEnableMask _);
      reflexivity.
Qed.

Lemma fold_option_map {A E : Type} (G : E -> A -> A) (es : list E) (t : option A) :
  fold_left (fun t e => option_map (G e) t) es t
  = option_map (fun c => fold_left (fun c e => G e c) es c) t.
Proof.
  revert t; induction es as [|e rest IH]; intros t; simpl.
  - destruct t; reflexivity.
  - rewrite IH; destruct t; reflexivity.
Qed.

Lemma fold_keeps {A E : Type} (G : E -> A -> A) (Q : A -> Prop) (es : list E) (a : A) :
  (forall e x, In e es -> Q x -> Q (G e x)) -> Q a ->
  Q (fold_left (fun c e => G e c) es a).
Proof.
  revert a; induction es as [|e rest IH]; intros a Hstep Ha; simpl; [exact Ha|].
  apply IH; [intros e' x He'; apply Hstep; right; exact He'|].
  apply Hstep; [left; reflexivity|exact Ha].
Qed.

Lemma createInfoAfterEntry_unmatched {C : Type} (pipelineKey : PipelineOptimizerKey)
    (e : PipelineProfileEntry) (info : Pal.GraphicsPipelineCreateInfo C) :
  ProfilePatternMatchesPipeline (pattern e) pipelineKey = false ->
  createInfoAfterEntry pipelineKey e info = info.
Proof.
  intros Hm; unfold createInfoAfterEntry, setsLateAllocVsLimit, setsBinningOverride.
  rewrite Hm; destruct info; reflexivity.
Qed.

Lemma slotAfterEntry_unmatched {R : Type} (pipelineKey : PipelineOptimizerKey)
    (shaderStages : Z) (slot : GraphicsSlot) (e : PipelineProfileEntry)
    (info : Pal.DynamicGraphicsShaderInfo R) :
  ProfilePatternMatchesPipeline (pattern e) pipelineKey = false ->
  slotAfterEntry pipelineKey shaderStages slot e info = info.
Proof. intros Hm; unfold slotAfterEntry, setsCuEnableMask; rewrite Hm; reflexivity. Qed.

(** The pass over one valid profile, as folds over its entries in use. *)
Lemma graphics_pass_views {R C : Type} (cfg : BuildConfig) (this : ShaderOptimizer)
    (profile : ProfileMember) (pipelineKey : PipelineOptimizerKey) (shaderStages : Z)
    (st st' : GraphicsPassState R C) :
  validProfile (profileOf this profile) ->
  ApplyProfileToGraphicsPipelineCreateInfo cfg this profile pipelineKey shaderStages st
  = Some st' ->
  palCreateInfo st'
  = option_map
      (fun info => fold_left (fun c e => createInfoAfterEntry pipelineKey e c)
                     (entriesInUse (profileOf this profile)) info)
      (palCreateInfo st)
  /\ forall slot,
       option_map (slotInfo slot) (graphicsShaderInfos st')
       = option_map
           (fun infos =>
              fold_left (fun i e => slotAfterEntry pipelineKey shaderStages slot e i)
                (entriesInUse (profileOf this profile)) (slotInfo slot infos))
           (graphicsShaderInfos st).
Proof.
  intros (block & Hb & Hlen) H.
  unfold ApplyProfileToGraphicsPipelineCreateInfo, entryAt in H; rewrite Hb in H.
  unfold entriesInUse; rewrite Hb.
  assert (Hlen0 : (0 + entryCount (profileOf this profile) <= length block)%nat)
    by exact Hlen.
  split; [|intros slot].
  - rewrite <- fold_option_map.
    match type of H with
    | forEntries _ _ ?body _ = _ =>
        refine (forEntries_view (fun s : GraphicsPassState R C => palCreateInfo s)
                  (fun e t => option_map (createInfoAfterEntry pipelineKey e) t)
                  block body _ _ 0%nat st st' Hlen0 H)
    end.
    intros i e s s' He Hs; cbv beta in Hs; rewrite He in Hs.
    destruct (ProfilePatternMatchesPipeline (pattern e) pipelineKey) eqn:Hm.
    + apply (applyEntryToGraphics_target cfg this profile i e pipelineKey shaderStages s s' Hm Hs).
    + injection Hs as <-; destruct (palCreateInfo s); [|reflexivity].
      cbn [option_map]; rewrite createInfoAfterEntry_unmatched by assumption; reflexivity.
  - replace (option_map
               (fun infos =>
                  fold_left (fun i e => slotAfterEntry pipelineKey shaderStages slot e i)
                    (firstn (entryCount (profileOf this profile)) block)
                    (slotInfo slot infos)) (graphicsShaderInfos st))
      with (option_map
              (fun info =>
                 fold_left (fun i e => slotAfterEntry pipelineKey shaderStages slot e i)
                   (firstn (entryCount (profileOf this profile)) block) info)
              (option_map (slotInfo slot) (graphicsShaderInfos st)))
      by (destruct (graphicsShaderInfos st); reflexivity).
    rewrite <- fold_option_map.
    match type of H with
    | forEntries _ _ ?body _ = _ =>
        refine (forEntries_view
                  (fun s : GraphicsPassState R C =>
                     option_map (slotInfo slot) (graphicsShaderInfos s))
                  (fun e t => option_map (slotAfterEntry pipelineKey shaderStages slot e) t)
                  block body _ _ 0%nat st st' Hlen0 H)
    end.
    intros i e s s' He Hs; cbv beta in Hs; rewrite He in Hs.
    destruct (ProfilePatternMatchesPipeline (pattern e) pipelineKey) eqn:Hm.
    + rewrite (proj2 (applyEntryToGraphics_target cfg this profile i e pipelineKey
                        shaderStages s s' Hm Hs) slot).
      destruct (graphicsShaderInfos s); reflexivity.
    + injection Hs as <-; destruct (graphicsShaderInfos s); [|reflexivity].
      cbn [option_map]; rewrite slotAfterEntry_unmatched by assumption; reflexivity.
Qed.

(** X13. The pipeline-level overrides of the graphics pass over one valid
    profile.  When the pass completes on a non-null create-info: the create-info
    is still there; [useLateAllocVsLimit] and [lateAllocVsLimit] are untouched
    if no matching entry in use has the late-alloc apply bit, and otherwise
    [useLateAllocVsLimit] is true and [lateAllocVsLimit] is the value of the
    last such entry; [binningOverride] likewise is untouched or holds the
    value of the last matching entry with the binning apply bit; no other
    member of the create-info changes. *)
Theorem graphics_createInfo_overrides {R C : Type} (cfg : BuildConfig)
    (this : ShaderOptimizer) (profile : ProfileMember) (pipelineKey : PipelineOptimizerKey)
    (shaderStages : Z) (st st' : GraphicsPassState R C)
    (info : Pal.GraphicsPipelineCreateInfo C) :
  validProfile (profileOf this profile) ->
  palCreateInfo st = Some info ->
  ApplyProfileToGraphicsPipelineCreateInfo cfg this profile pipelineKey shaderStages st
  = Some st' ->
  exists info',
    palCreateInfo st' = Some info'
    /\ Pal.otherCreateInfo info' = Pal.otherCreateInfo info
    /\ ((forall e, In e (entriesInUse (profileOf this profile)) ->
           setsLateAllocVsLimit pipelineKey e = false) ->
        Pal.useLateAllocVsLimit info' = Pal.useLateAllocVsLimit info
        /\ Pal.lateAllocVsLimit info' = Pal.lateAllocVsLimit info)
    /\ (forall before e after,
          entriesInUse (profileOf this profile) = before ++ e :: after ->
          setsLateAllocVsLimit pipelineKey e = true ->
          (forall e', In e' after -> setsLateAllocVsLimit pipelineKey e' = false) ->
          Pal.useLateAllocVsLimit info' = true
          /\ Pal.lateAllocVsLimit info'
             = CreateInfo.lateAllocVsLimit (Action.createInfo (action e)))
    /\ ((forall e, In e (entriesInUse (profileOf this profile)) ->
           setsBinningOverride pipelineKey e = false) ->
        Pal.binningOverride info' = Pal.binningOverride info)
    /\ (forall before e after,
          entriesInUse (profileOf this profile) = before ++ e :: after ->
          setsBinningOverride pipelineKey e = true ->
          (forall e', In e' after -> setsBinningOverride pipelineKey e' = false) ->
          Pal.binningOverride info'
          = CreateInfo.binningOverride (Action.createInfo (action e))).
Proof.
  intros Hvalid Hinfo H.
  destruct (graphics_pass_views cfg this profile pipelineKey shaderStages st st' Hvalid H)
    as [Hc _].
  rewrite Hinfo in Hc; cbn [option_map] in Hc.
  eexists; split; [exact Hc|].
  set (es := entriesInUse (profileOf this profile)).
  split; [|split; [|split; [|split]]].
  - apply (fold_keeps (createInfoAfterEntry pipelineKey)
             (fun x => Pal.otherCreateInfo x = Pal.otherCreateInfo info)); [|reflexivity].
    intros e x _ Hx; exact Hx.
  - intros Hnone.
    apply (fold_keeps (createInfoAfterEntry pipelineKey)
             (fun x => Pal.useLateAllocVsLimit x = Pal.useLateAllocVsLimit info
                       /\ Pal.lateAllocVsLimit x = Pal.lateAllocVsLimit info));
      [|split; reflexivity].
    intros e x He Hx; unfold createInfoAfterEntry; rewrite (Hnone e He); exact Hx.
  - intros before e after Huse He Hafter; fold es in Huse; rewrite Huse, fold_left_app.
    cbn [fold_left].
    apply (fold_keeps (createInfoAfterEntry pipelineKey)
             (fun x => Pal.useLateAllocVsLimit x = true
                       /\ Pal.lateAllocVsLimit x
                          = CreateInfo.lateAllocVsLimit (Action.createInfo (action e)))).
    + intros e' x He' Hx; unfold createInfoAfterEntry; rewrite (Hafter e' He'); exact Hx.
    + unfold createInfoAfterEntry; rewrite He; split; reflexivity.
  - intros Hnone.
    apply (fold_keeps (createInfoAfterEntry pipelineKey)
             (fun x => Pal.binningOverride x = Pal.binningOverride info)); [|reflexivity].
    intros e x He Hx; unfold createInfoAfterEntry; rewrite (Hnone e He); exact Hx.
  - intros before e after Huse He Hafter; fold es in Huse; rewrite Huse, fold_left_app.
    cbn [fold_left].
    apply (fold_keeps (createInfoAfterEntry pipelineKey)
             (fun x => Pal.binningOverride x
                       = CreateInfo.binningOverride (Action.createInfo (action e)))).
    + intros e' x He' Hx; unfold createInfoAfterEntry; rewrite (Hafter e' He'); exact Hx.
    + unfold createInfoAfterEntry; rewrite He; reflexivity.
Qed.

(** X14. The compute-unit mask overrides of the graphics pass over one valid
    profile.  When the pass completes on non-null shader infos, then for each
    of the five slots: nothing but [cuEnableMask] changes; the slot is
    untouched when its stage is not in [shaderStages], or when no matching
    entry in use has the mask apply bit for that stage; otherwise
    [cuEnableMask] is the value of the last such entry. *)
Theorem graphics_cuEnableMask_overrides {R C : Type} (cfg : BuildConfig)
    (this : ShaderOptimizer) (profile : ProfileMember) (pipelineKey : PipelineOptimizerKey)
    (shaderStages : Z) (st st' : GraphicsPassState R C)
    (infos : Pal.DynamicGraphicsShaderInfos R) :
  validProfile (profileOf this profile) ->
  graphicsShaderInfos st = Some infos ->
  ApplyProfileToGraphicsPipelineCreateInfo cfg this profile pipelineKey shaderStages st
  = Some st' ->
  exists infos',
    graphicsShaderInfos st' = Some infos'
    /\ forall slot,
         Pal.otherShaderInfo (slotInfo slot infos') = Pal.otherShaderInfo (slotInfo slot infos)
         /\ (hasStage shaderStages (slotBit slot) = false ->
             slotInfo slot infos' = slotInfo slot infos)
         /\ ((forall e, In e (entriesInUse (profileOf this profile)) ->
                setsCuEnableMask pipelineKey shaderStages slot e = false) ->
             slotInfo slot infos' = slotInfo slot infos)
         /\ (forall before e after,
               entriesInUse (profileOf this profile) = before ++ e :: after ->
               setsCuEnableMask pipelineKey shaderStages slot e = true ->
               (forall e', In e' after ->
                  setsCuEnableMask pipelineKey shaderStages slot e' = false) ->
               Pal.cuEnableMask (slotInfo slot infos')
               = DynamicShaderInfo.cuEnableMask (dynamicInfoOf e slot)).
Proof.
  intros Hvalid Hinfos H.
  destruct (graphics_pass_views cfg this profile pipelineKey shaderStages st st' Hvalid H)
    as [_ Hs].
  destruct (graphicsShaderInfos st') as [infos'|] eqn:Hinfos'.
  2: { specialize (Hs slot_vs); rewrite Hinfos in Hs; discriminate. }
  exists infos'; split; [reflexivity|]; intros slot.
  specialize (Hs slot); rewrite Hinfos in Hs; cbn [option_map] in Hs.
  injection Hs as Hs; rewrite Hs.
  set (es := entriesInUse (profileOf this profile)).
  assert (Hunset :
            (forall e, In e es -> setsCuEnableMask pipelineKey shaderStages slot e = false) ->
            fold_left (fun i e => slotAfterEntry pipelineKey shaderStages slot e i) es
              (slotInfo slot infos) = slotInfo slot infos).
  { intros Hnone.
    apply (fold_keeps (slotAfterEntry pipelineKey shaderStages slot)
             (fun x => x = slotInfo slot infos)); [|reflexivity].
    intros e x He ->; unfold slotAfterEntry; rewrite (Hnone e He); reflexivity. }
  split; [|split; [|split]].
  - apply (fold_keeps (slotAfterEntry pipelineKey shaderStages slot)
             (fun x => Pal.otherShaderInfo x = Pal.otherShaderInfo (slotInfo slot infos)));
      [|reflexivity].
    intros e x _ Hx; unfold slotAfterEntry.
    destruct (setsCuEnableMask pipelineKey shaderStages slot e); [exact Hx|exact Hx].
  - intros Hoff; apply Hunset; intros e _; unfold setsCuEnableMask.
    rewrite Hoff, andb_false_r; reflexivity.
  - exact Hunset.
  - intros before e after Huse He Hafter; fold es in Huse; rewrite Huse, fold_left_app.
    cbn [fold_left].
    apply (fold_keeps (slotAfterEntry pipelineKey shaderStages slot)
             (fun x => Pal.cuEnableMask x
                       = DynamicShaderInfo.cuEnableMask (dynamicInfoOf e slot))).
    + intros e' x He' Hx; unfold slotAfterEntry; rewrite (Hafter e' He'); exact Hx.
    + unfold slotAfterEntry; rewrite He; reflexivity.
Qed.

Lemma graphicsOptimizer_app_valid : validProfile (profileOf graphicsOptimizer member_appProfile).
Proof. apply profileWith_valid. Qed.

Lemma graphics_createInfo_overrides_witness :
  exists st' info',
    ApplyProfileToGraphicsPipelineCreateInfo sampleConfig graphicsOptimizer member_appProfile
      fragmentOnlyKey vertexAndFragment sampleGraphicsState = Some st'
    /\ palCreateInfo st' = Some info'
    /\ Pal.useLateAllocVsLimit info' = true
    /\ Pal.lateAllocVsLimit info' = 32
    /\ Pal.binningOverride info' = BinningOverride_Disable.
Proof.
  eexists; edestruct (graphics_createInfo_overrides sampleConfig graphicsOptimizer
                        member_appProfile fragmentOnlyKey vertexAndFragment
                        sampleGraphicsState)
    as (info' & Hi & _ & _ & Hlate & _ & Hbin).
  - exact graphicsOptimizer_app_valid.
  - reflexivity.
  - vm_compute; reflexivity.
  - exists info'; split; [reflexivity|split; [exact Hi|]].
    destruct (Hlate [graphicsEntry 15 64 BinningOverride_Enable]
                (graphicsEntry 255 32 BinningOverride_Disable) [] eq_refl eq_refl
                (fun e' F => match F with end)) as [Hu Hl].
    split; [exact Hu|split; [exact Hl|]].
    exact (Hbin [graphicsEntry 15 64 BinningOverride_Enable]
             (graphicsEntry 255 32 BinningOverride_Disable) [] eq_refl eq_refl
             (fun e' F => match F with end)).
Defined.

Lemma graphics_cuEnableMask_overrides_witness :
  exists st' infos',
    ApplyProfileToGraphicsPipelineCreateInfo sampleConfig graphicsOptimizer member_appProfile
      fragmentOnlyKey vertexAndFragment sampleGraphicsState = Some st'
    /\ graphicsShaderInfos st' = Some infos'
    /\ Pal.cuEnableMask (slotInfo slot_ps infos') = 255
    /\ slotInfo slot_gs infos' = sampleShaderInfo.
Proof.
  eexists; edestruct (graphics_cuEnableMask_overrides sampleConfig graphicsOptimizer
                        member_appProfile fragmentOnlyKey vertexAndFragment
                        sampleGraphicsState)
    as (infos' & Hi & Hslots).
  - exact graphicsOptimizer_app_valid.
  - reflexivity.
  - vm_compute; reflexivity.
  - exists infos'; split; [reflexivity|split; [exact Hi|]].
    split.
    + destruct (Hslots slot_ps) as (_ & _ & _ & Hlast).
      exact (Hlast [graphicsEntry 15 64 BinningOverride_Enable]
               (graphicsEntry 255 32 BinningOverride_Disable) [] eq_refl eq_refl
               (fun e' F => match F with end)).
    + destruct (Hslots slot_gs) as (_ & Hoff & _).
      exact (Hoff eq_refl).
Defined.

Lemma forEntries_fixed {St : Type} (body : nat -> Update St) (count first : nat) (s : St) :
  (forall i, (first <= i < first + count)%nat -> body i s = Some s) ->
  forEntries count first body s = Some s.
Proof.
  revert first; induction count as [|n IH]; intros first Hbody; [reflexivity|].
  simpl; unfold andThen; rewrite (Hbody first) by lia.
  apply IH; intros i Hi; apply Hbody; lia.
Qed.

Lemma nth_error_in_firstn {A : Type} (block : list A) (n i : nat) (e : A) :
  nth_error block i = Some e -> (i < n)%nat -> In e (firstn n block).
Proof.
  revert n i; induction block as [|a rest IH]; intros n i H Hi.
  - destruct i; discriminate.
  - destruct n as [|n]; [lia|]; destruct i as [|i]; simpl in *.
    + injection H as ->; left; reflexivity.
    + right; apply (IH n i); [exact H|lia].
Qed.

Lemma graphics_pass_unmatched {R C : Type} (cfg : BuildConfig) (this : ShaderOptimizer)
    (profile : ProfileMember) (pipelineKey : PipelineOptimizerKey) (shaderStages : Z)
    (st : GraphicsPassState R C) :
  validProfile (profileOf this profile) ->
  (forall e, In e (entriesInUse (profileOf this profile)) ->
     ProfilePatternMatchesPipeline (pattern e) pipelineKey = false) ->
  ApplyProfileToGraphicsPipelineCreateInfo cfg this profile pipelineKey shaderStages st
  = Some st.
Proof.
  intros (block & Hb & Hlen) Hnone.
  unfold ApplyProfileToGraphicsPipelineCreateInfo, entryAt; rewrite Hb.
  unfold entriesInUse in Hnone; rewrite Hb in Hnone.
  apply forEntries_fixed; intros i Hi.
  destruct (nth_error block i) as [e|] eqn:He; [|apply nth_error_None in He; lia].
  rewrite (Hnone e); [reflexivity|].
  apply (nth_error_in_firstn block _ i); [exact He|lia].
Qed.

(** X15. A pipeline that no rule in use matches goes through
    [OverrideGraphicsPipelineCreateInfo] untouched: over valid profiles the
    function completes and returns the create-info, the shader infos and the
    debug output exactly as they were, even when the two pointers are null. *)
Theorem unmatched_pipeline_graphics_noop {R C : Type} (cfg : BuildConfig)
    (this : ShaderOptimizer) (pipelineKey : PipelineOptimizerKey) (shaderStages : Z)
    (st : GraphicsPassState R C) :
  validOptimizer cfg this ->
  (forall profile e,
     (profile = member_runtimeProfile -> ICD_RUNTIME_APP_PROFILE cfg = true) ->
     In e (entriesInUse (profileOf this profile)) ->
     ProfilePatternMatchesPipeline (pattern e) pipelineKey = false) ->
  OverrideGraphicsPipelineCreateInfo cfg this pipelineKey shaderStages st = Some st.
Proof.
  intros (Happ & Htun & Hrun) Hnone.
  unfold OverrideGraphicsPipelineCreateInfo, andThen.
  rewrite (graphics_pass_unmatched cfg this member_appProfile) by
    (first [exact Happ
           |intros e He; apply (Hnone member_appProfile e); [discriminate|exact He]]).
  rewrite (graphics_pass_unmatched cfg this member_tuningProfile) by
    (first [exact Htun
           |intros e He; apply (Hnone member_tuningProfile e); [discriminate|exact He]]).
  destruct (ICD_RUNTIME_APP_PROFILE cfg) eqn:Hon; [|reflexivity].
  apply graphics_pass_unmatched; [exact (Hrun eq_refl)|].
  intros e He; apply (Hnone member_runtimeProfile e); [intros _; reflexivity|exact He].
Qed.

Lemma unmatched_pipeline_graphics_noop_witness :
  OverrideGraphicsPipelineCreateInfo sampleConfig
    (mkShaderOptimizer sampleSettings
       (profileWith
          [mkPipelineProfileEntry (fragmentPattern 0 5 (mkShaderHash 1 2) 0)
             (action (graphicsEntry 15 64 BinningOverride_Enable))])
       (profileWith []) (profileWith []))
    fragmentOnlyKey vertexAndFragment sampleGraphicsState = Some sampleGraphicsState.
Proof.
  apply unmatched_pipeline_graphics_noop.
  - repeat split; intros; apply profileWith_valid.
  - intros profile e _ He; destruct profile; cbn in He.
    + destruct He as [<-|[]]; reflexivity.
    + destruct He.
    + destruct He.
Defined.

(** *** The diagnostics and the target *)

Lemma sameOnTarget_seq {R C : Type} (a1 a2 b1 b2 : Update (GraphicsPassState R C)) :
  sameOnTarget a1 a2 -> sameOnTarget b1 b2 -> sameOnTarget (a1 ;; b1) (a2 ;; b2).
Proof.
  intros Ha Hb s1 s2 Hs; unfold andThen.
  specialize (Ha s1 s2 Hs).
  destruct (a1 s1) as [t1|], (a2 s2) as [t2|]; try discriminate; [|reflexivity].
  apply Hb; cbn in Ha; congruence.
Qed.

Lemma sameOnTarget_skip {R C : Type} : @sameOnTarget R C skip skip.
Proof. intros s1 s2 Hs; cbn; f_equal; exact Hs. Qed.

Lemma sameOnTarget_when {R C : Type} (c : bool) (m1 m2 : Update (GraphicsPassState R C)) :
  sameOnTarget m1 m2 -> sameOnTarget (when c m1) (when c m2).
Proof. destruct c; [exact (fun H => H)|intros _; apply sameOnTarget_skip]. Qed.

Lemma sameOnTarget_via_slot {R C : Type} (slot : GraphicsSlot)
    (f : Pal.DynamicGraphicsShaderInfo R -> Pal.DynamicGraphicsShaderInfo R) :
  @sameOnTarget R C (via_slot slot f) (via_slot slot f).
Proof.
  intros [c1 i1 d1] [c2 i2 d2] Hs; unfold graphicsTarget in Hs; cbn in Hs.
  injection Hs as -> ->; unfold via_slot; cbn.
  destruct i2; reflexivity.
Qed.

Lemma sameOnTarget_addressOfSlot {R C : Type} (slot : GraphicsSlot) :
  @sameOnTarget R C (addressOfSlot slot) (addressOfSlot slot).
Proof.
  intros [c1 i1 d1] [c2 i2 d2] Hs; unfold graphicsTarget in Hs; cbn in Hs.
  injection Hs as -> ->; unfold addressOfSlot; cbn.
  destruct i2; reflexivity.
Qed.

Lemma sameOnTarget_via_pPalCreateInfo {R C : Type}
    (f : Pal.GraphicsPipelineCreateInfo C -> Pal.GraphicsPipelineCreateInfo C) :
  @sameOnTarget R C (via_pPalCreateInfo f) (via_pPalCreateInfo f).
Proof.
  intros [c1 i1 d1] [c2 i2 d2] Hs; unfold graphicsTarget in Hs; cbn in Hs.
  injection Hs as -> ->; unfold via_pPalCreateInfo; cbn.
  destruct c2; reflexivity.
Qed.

Lemma sameOnTarget_print {R C : Type} (cfg cfg' : BuildConfig) (this this' : ShaderOptimizer)
    (lines lines' : list DbgLine) :
  @sameOnTarget R C
    (if PAL_ENABLE_PRINTS_ASSERTS cfg
     then when (pipelineProfileDbgPrintProfileMatch (m_settings this)) (graphicsDbgPrint lines)
     else skip)
    (if PAL_ENABLE_PRINTS_ASSERTS cfg'
     then when (pipelineProfileDbgPrintProfileMatch (m_settings this'))
            (graphicsDbgPrint lines')
     else skip).
Proof.
  intros s1 s2 Hs.
  destruct (PAL_ENABLE_PRINTS_ASSERTS cfg), (PAL_ENABLE_PRINTS_ASSERTS cfg'),
    (pipelineProfileDbgPrintProfileMatch (m_settings this)),
    (pipelineProfileDbgPrintProfileMatch (m_settings this'));
    cbn; f_equal; exact Hs.
Qed.

Lemma sameOnTarget_forEntries {R C : Type} (body1 body2 : nat -> Update (GraphicsPassState R C))
    (count first : nat) :
  (forall i, sameOnTarget (body1 i) (body2 i)) ->
  sameOnTarget (forEntries count first body1) (forEntries count first body2).
Proof.
  intros Hbody; revert first; induction count as [|n IH]; intros first.
  - apply sameOnTarget_skip.
  - simpl; apply sameOnTarget_seq; [apply Hbody|apply IH].
Qed.

Lemma sameOnTarget_entry {R C : Type} (cfg cfg' : BuildConfig) (this this' : ShaderOptimizer)
    (profile : ProfileMember) (entry : nat) (e : PipelineProfileEntry)
    (pipelineKey : PipelineOptimizerKey) (shaderStages : Z) :
  @sameOnTarget R C
    (applyEntryToGraphicsPipelineCreateInfo cfg this profile entry e pipelineKey shaderStages)
    (applyEntryToGraphicsPipelineCreateInfo cfg' this' profile entry e pipelineKey
       shaderStages).
Proof.
  unfold applyEntryToGraphicsPipelineCreateInfo; cbv zeta.
  repeat (apply sameOnTarget_seq;
          [apply sameOnTarget_when;
           first [ apply sameOnTarget_via_pPalCreateInfo
                 | apply sameOnTarget_seq;
                   [apply sameOnTarget_addressOfSlot
                   |unfold ApplyProfileToDynamicGraphicsShaderInfo;
                    apply sameOnTarget_when, sameOnTarget_via_slot] ]|]).
  apply sameOnTarget_print.
Qed.

Lemma sameOnTarget_pass {R C : Type} (cfg cfg' : BuildConfig) (this this' : ShaderOptimizer)
    (profile : ProfileMember) (pipelineKey : PipelineOptimizerKey) (shaderStages : Z) :
  profileOf this profile = profileOf this' profile ->
  @sameOnTarget R C
    (ApplyProfileToGraphicsPipelineCreateInfo cfg this profile pipelineKey shaderStages)
    (ApplyProfileToGraphicsPipelineCreateInfo cfg' this' profile pipelineKey shaderStages).
Proof.
  intros Hp; unfold ApplyProfileToGraphicsPipelineCreateInfo; rewrite Hp.
  apply sameOnTarget_forEntries; intros i s1 s2 Hs.
  destruct (entryAt (profileOf this' profile) i) as [e|]; [|reflexivity].
  destruct (ProfilePatternMatchesPipeline (pattern e) pipelineKey).
  - apply sameOnTarget_entry; exact Hs.
  - cbn; f_equal; exact Hs.
Qed.

(** X16. The diagnostics never reach the target.  What
    [OverrideGraphicsPipelineCreateInfo] does to the create-info and the
    shader infos (whether it completes, and with which values) is the same
    whether or not the debug prints are compiled in, whatever the print
    setting and the other settings are, and whatever the debug output held
    before: it depends only on the three profiles, the key, the stage mask
    and the incoming target. *)
Theorem graphics_diagnostics_leave_target {R C : Type} (cfg cfg' : BuildConfig)
    (this this' : ShaderOptimizer) (pipelineKey : PipelineOptimizerKey) (shaderStages : Z)
    (st st2 : GraphicsPassState R C) :
  ICD_RUNTIME_APP_PROFILE cfg = ICD_RUNTIME_APP_PROFILE cfg' ->
  m_appProfile this = m_appProfile this' ->
  m_tuningProfile this = m_tuningProfile this' ->
  m_runtimeProfile this = m_runtimeProfile this' ->
  graphicsTarget st = graphicsTarget st2 ->
  option_map graphicsTarget
    (OverrideGraphicsPipelineCreateInfo cfg this pipelineKey shaderStages st)
  = option_map graphicsTarget
      (OverrideGraphicsPipelineCreateInfo cfg' this' pipelineKey shaderStages st2).
Proof.
  intros Hicd Ha Ht Hr; unfold OverrideGraphicsPipelineCreateInfo.
  rewrite <- Hicd.
  apply sameOnTarget_seq; [apply sameOnTarget_pass; exact Ha|].
  apply sameOnTarget_seq; [apply sameOnTarget_pass; exact Ht|].
  destruct (ICD_RUNTIME_APP_PROFILE cfg);
    [apply sameOnTarget_pass; exact Hr|apply sameOnTarget_skip].
Qed.

Lemma graphics_diagnostics_leave_target_witness :
  option_map graphicsTarget
    (OverrideGraphicsPipelineCreateInfo sampleConfig graphicsOptimizer fragmentOnlyKey
       vertexAndFragment sampleGraphicsState)
  = option_map graphicsTarget
      (OverrideGraphicsPipelineCreateInfo quietConfig
         (mkShaderOptimizer binningSettings (m_appProfile graphicsOptimizer)
            (m_tuningProfile graphicsOptimizer) (m_runtimeProfile graphicsOptimizer))
         fragmentOnlyKey vertexAndFragment
         (mkGraphicsPassState (palCreateInfo sampleGraphicsState)
            (graphicsShaderInfos sampleGraphicsState) [DbgNeverCalled])).
Proof. apply graphics_diagnostics_leave_target; reflexivity. Defined.

(** *** The tuning rule in the graphics pass *)

Lemma tuning_rule_graphics_action (settings : RuntimeSettings) (stage : ShaderStage)
    (entry : PipelineProfileEntry) :
  overrideShaderParams settings = true ->
  stageOfIndex (overrideShaderStage settings) = Some stage ->
  tuningRuleOf settings = Some entry ->
  (forall slot,
     DynApply.cuEnableMask (DynamicShaderInfo.apply (dynamicInfoOf entry slot)) = false)
  /\ CreateInfoApply.lateAllocVsLimit (CreateInfo.apply (Action.createInfo (action entry)))
     = false
  /\ CreateInfoApply.binningOverride (CreateInfo.apply (Action.createInfo (action entry)))
     = match tuningBinning settings with Some _ => true | None => false end
  /\ forall b, tuningBinning settings = Some b ->
               CreateInfo.binningOverride (Action.createInfo (action entry)) = b.
Proof.
  intros Hon Hs H; unfold tuningRuleOf, BuildTuningProfile in H.
  cbn [m_settings] in H; rewrite Hon, Hs in H; cbn [negb orb repeat] in H.
  cbn [m_tuningProfile set_m_tuningProfile pEntries] in H; injection H as <-.
  cbn [action Action.shaders Action.createInfo].
  split; [intros slot|].
  - unfold dynamicInfoOf; cbn [action Action.shaders].
    destruct (ShaderStage_eq_dec (slotStage slot) stage) as [<-|Hne].
    + rewrite idx_upd_same; cbn [dynamicShaderInfo].
      change (Action.shaders (action zeroPipelineProfileEntry))
        with (fill zeroShaderProfileAction).
      rewrite idx_fill.
      destruct (negb (overrideWavesPerCu settings =? 0));
        destruct (negb (overrideCsTgPerCu settings =? 0)
                  && (if ShaderStage_eq_dec (slotStage slot) ShaderStageCompute
                      then true else false));
        reflexivity.
    + rewrite idx_upd_other by (intros E; apply Hne; symmetry; exact E).
      change (Action.shaders (action zeroPipelineProfileEntry))
        with (fill zeroShaderProfileAction).
      rewrite idx_fill; reflexivity.
  - unfold tuningBinning; destruct (overrideUsePbbPerCrc settings);
      (split; [reflexivity|split; [reflexivity|]]; intros b Hb;
       first [discriminate|injection Hb as <-; reflexivity]).
Qed.

(** X17. The tuning rule in the graphics pass.  With the override switch on,
    room for one entry, a non-null block and a configured stage below six,
    [BuildTuningProfile] succeeds, and a graphics pass over the profile it
    built that completes leaves all five dynamic shader infos as they were
    (the rule's wave and thread-group limits reach no target), leaves the
    late-alloc members alone, and changes the create-info only like this:
    if the key matches the rule and the binning setting is not
    [PipelineBinningModeDefault], [binningOverride] becomes what the rule
    stores, that is Enable or Disable for these two settings and Default for
    a setting that is none of the three enumerators; with the setting
    [PipelineBinningModeDefault], or if the key does not match, the
    create-info is untouched. *)
Theorem tuning_rule_in_graphics_pass {R C : Type} (cfg : BuildConfig)
    (InitialPipelineProfileEntries : nat) (this : ShaderOptimizer)
    (block : list PipelineProfileEntry) (stage : ShaderStage)
    (pipelineKey : PipelineOptimizerKey) (shaderStages : Z)
    (st st' : GraphicsPassState R C) :
  overrideShaderParams (m_settings this) = true ->
  (0 < InitialPipelineProfileEntries)%nat ->
  stageOfIndex (overrideShaderStage (m_settings this)) = Some stage ->
  exists this',
    BuildTuningProfile InitialPipelineProfileEntries this (Some block) = Some this'
    /\ (ApplyProfileToGraphicsPipelineCreateInfo cfg this' member_tuningProfile pipelineKey
          shaderStages st = Some st' ->
        graphicsShaderInfos st' = graphicsShaderInfos st
        /\ (tuningRuleMatches (m_settings this) stage pipelineKey ->
            palCreateInfo st'
            = option_map (withBinning (tuningBinning (m_settings this))) (palCreateInfo st))
        /\ (~ tuningRuleMatches (m_settings this) stage pipelineKey ->
            palCreateInfo st' = palCreateInfo st)).
Proof.
  intros Hon Hcap Hs.
  destruct (tuning_rule_built InitialPipelineProfileEntries this block stage Hon Hcap Hs)
    as (entry & Hrule & Hbuilt).
  eexists; split; [exact Hbuilt|]; intros Hpass.
  destruct (tuning_rule_graphics_action _ _ _ Hon Hs Hrule) as (Hcu & Hlate & Hbit & Hval).
  pose proof (tuning_rule_matches _ _ _ pipelineKey Hon Hs Hrule) as Hm.
  apply graphics_pass_views in Hpass.
  2:{ cbn [profileOf m_tuningProfile set_m_tuningProfile].
      eexists; split; [reflexivity|].
      cbn [entryCount length]; rewrite repeat_length; lia. }
  destruct Hpass as [Hc Hslots].
  cbn [profileOf m_tuningProfile set_m_tuningProfile] in Hc, Hslots.
  unfold entriesInUse in Hc, Hslots; cbn [pEntries entryCount firstn fold_left] in Hc, Hslots.
  assert (Hslot : forall slot i,
             @slotAfterEntry R pipelineKey shaderStages slot entry i = i).
  { intros slot i; unfold slotAfterEntry, setsCuEnableMask.
    rewrite Hcu, andb_false_r; reflexivity. }
  split; [|split].
  - destruct (graphicsShaderInfos st') as [[v' h' d' g' p']|],
             (graphicsShaderInfos st) as [[v h d g p]|];
      try (specialize (Hslots slot_vs); discriminate); [|reflexivity].
    pose proof (Hslots slot_vs) as Hv; pose proof (Hslots slot_hs) as Hh;
      pose proof (Hslots slot_ds) as Hd; pose proof (Hslots slot_gs) as Hg;
      pose proof (Hslots slot_ps) as Hp.
    cbn [option_map slotInfo Pal.vs Pal.hs Pal.ds Pal.gs Pal.ps] in Hv, Hh, Hd, Hg, Hp.
    rewrite Hslot in Hv, Hh, Hd, Hg, Hp.
    congruence.
  - intros Hmatch; apply Hm in Hmatch.
    rewrite Hc; destruct (palCreateInfo st) as [info|]; [|reflexivity].
    cbn [option_map]; f_equal.
    unfold createInfoAfterEntry, setsLateAllocVsLimit, setsBinningOverride; cbv zeta.
    rewrite Hmatch, Hlate, Hbit; cbn [andb].
    destruct (tuningBinning (m_settings this)) as [b|] eqn:Hb.
    + rewrite (Hval b eq_refl); reflexivity.
    + destruct info; reflexivity.
  - intros Hno; rewrite Hc; destruct (palCreateInfo st) as [info|]; [|reflexivity].
    cbn [option_map]; f_equal; apply createInfoAfterEntry_unmatched.
    destruct (ProfilePatternMatchesPipeline (pattern entry) pipelineKey) eqn:E;
      [|reflexivity].
    exfalso; apply Hno, Hm; reflexivity.
Qed.

Lemma tuning_rule_in_graphics_pass_witness :
  (exists this' st',
     BuildTuningProfile 4 binningOptimizer (Some []) = Some this'
     /\ ApplyProfileToGraphicsPipelineCreateInfo sampleConfig this' member_tuningProfile
          fragmentOnlyKey vertexAndFragment sampleGraphicsState
        = Some st'
     /\ graphicsShaderInfos st' = graphicsShaderInfos sampleGraphicsState
     /\ palCreateInfo st'
        = Some (Pal.mkGraphicsPipelineCreateInfo false 0 BinningOverride_Disable tt))
  /\ (exists this' st',
        BuildTuningProfile 4 unnamedBinningOptimizer (Some []) = Some this'
        /\ ApplyProfileToGraphicsPipelineCreateInfo sampleConfig this' member_tuningProfile
             fragmentOnlyKey vertexAndFragment enabledBinningState
           = Some st'
        /\ graphicsShaderInfos st' = graphicsShaderInfos enabledBinningState
        /\ palCreateInfo st'
           = Some (Pal.mkGraphicsPipelineCreateInfo false 0 BinningOverride_Default tt)).
Proof.
  split.
  - destruct (tuning_rule_in_graphics_pass sampleConfig 4 binningOptimizer []
                ShaderStageCompute fragmentOnlyKey vertexAndFragment sampleGraphicsState
                (mkGraphicsPassState
                   (Some (Pal.mkGraphicsPipelineCreateInfo false 0 BinningOverride_Disable
                            tt))
                   (graphicsShaderInfos sampleGraphicsState)
                   (graphicsDbgOutput sampleGraphicsState)))
      as (this' & Hbuilt & Hpass); [reflexivity|lia|reflexivity|].
    exists this'; eexists; split; [exact Hbuilt|].
    assert (Hrun : ApplyProfileToGraphicsPipelineCreateInfo sampleConfig this'
                     member_tuningProfile fragmentOnlyKey vertexAndFragment
                     sampleGraphicsState
                   = Some (mkGraphicsPassState
                             (Some (Pal.mkGraphicsPipelineCreateInfo false 0
                                      BinningOverride_Disable tt))
                             (graphicsShaderInfos sampleGraphicsState)
                             (graphicsDbgOutput sampleGraphicsState))).
    { vm_compute in Hbuilt; injection Hbuilt as <-; vm_compute; reflexivity. }
    split; [exact Hrun|].
    destruct (Hpass Hrun) as (Hinfos & Hmatch & _).
    split; [exact Hinfos|].
    rewrite Hmatch; [reflexivity|left; split; reflexivity].
  - destruct (tuning_rule_in_graphics_pass sampleConfig 4 unnamedBinningOptimizer []
                ShaderStageCompute fragmentOnlyKey vertexAndFragment enabledBinningState
                (mkGraphicsPassState
                   (Some (Pal.mkGraphicsPipelineCreateInfo false 0 BinningOverride_Default
                            tt))
                   (graphicsShaderInfos enabledBinningState)
                   (graphicsDbgOutput enabledBinningState)))
      as (this' & Hbuilt & Hpass); [reflexivity|lia|reflexivity|].
    exists this'; eexists; split; [exact Hbuilt|].
    assert (Hrun : ApplyProfileToGraphicsPipelineCreateInfo sampleConfig this'
                     member_tuningProfile fragmentOnlyKey vertexAndFragment
                     enabledBinningState
                   = Some (mkGraphicsPassState
                             (Some (Pal.mkGraphicsPipelineCreateInfo false 0
                                      BinningOverride_Default tt))
                             (graphicsShaderInfos enabledBinningState)
                             (graphicsDbgOutput enabledBinningState))).
    { vm_compute in Hbuilt; injection Hbuilt as <-; vm_compute; reflexivity. }
    split; [exact Hrun|].
    destruct (Hpass Hrun) as (Hinfos & Hmatch & _).
    split; [exact Hinfos|].
    rewrite Hmatch; [reflexivity|left; split; reflexivity].
Defined.

(** *** What the passes print *)

Lemma forEntries_output {St : Type} (out : St -> list DbgLine)
    (lines : nat -> PipelineProfileEntry -> list DbgLine)
    (block : list PipelineProfileEntry) (body : nat -> Update St) :
  (forall i e s s', nth_error block i = Some e -> body i s = Some s' ->
     out s' = out s ++ lines i e) ->
  forall count first s s',
    (first + count <= length block)%nat ->
    forEntries count first body s = Some s' ->
    out s'
    = out s ++ flat_map (fun ie => lines (fst ie) (snd ie))
                 (combine (seq first count) (firstn count (skipn first block))).
Proof.
  intros Hbody; induction count as [|n IH]; intros first s s' Hlen H.
  - injection H as <-; cbn; rewrite app_nil_r; reflexivity.
  - simpl in H; unfold andThen in H.
    destruct (body first s) as [s1|] eqn:H1; [|discriminate].
    destruct (nth_error block first) as [e|] eqn:He;
      [|apply nth_error_None in He; lia].
    rewrite (nth_error_skipn _ _ _ He); cbn [firstn seq combine flat_map fst snd].
    rewrite app_assoc, <- (Hbody first e s s1 He H1).
    apply (IH (S first)); [lia|exact H].
Qed.

Lemma pass_output_lines (cfg : BuildConfig) (this : ShaderOptimizer) (profile : ProfileMember)
    (pipelineKey : PipelineOptimizerKey) (block : list PipelineProfileEntry) :
  pEntries (profileOf this profile) = Some block ->
  flat_map
    (fun ie =>
       if PAL_ENABLE_PRINTS_ASSERTS cfg
          && pipelineProfileDbgPrintProfileMatch (m_settings this)
          && ProfilePatternMatchesPipeline (pattern (snd ie)) pipelineKey
       then PrintProfileEntryMatch cfg profile (fst ie) pipelineKey
       else [])
    (combine (seq 0 (entryCount (profileOf this profile)))
       (firstn (entryCount (profileOf this profile)) (skipn 0 block)))
  = matchLines cfg this profile pipelineKey.
Proof.
  intros Hb; unfold matchLines, indexedEntriesInUse, entriesInUse; rewrite Hb; reflexivity.
Qed.

Lemma compute_pass_output {D : Type} (cfg : BuildConfig) (this : ShaderOptimizer)
    (profile : ProfileMember) (pipelineKey : PipelineOptimizerKey)
    (st st' : ComputePassState D) :
  validProfile (profileOf this profile) ->
  ApplyProfileToComputePipelineCreateInfo cfg this profile pipelineKey st = Some st' ->
  dbgOutput st' = dbgOutput st ++ matchLines cfg this profile pipelineKey.
Proof.
  intros (block & Hb & Hlen) H.
  unfold ApplyProfileToComputePipelineCreateInfo, entryAt in H; rewrite Hb in H.
  rewrite <- (pass_output_lines cfg this profile pipelineKey block Hb).
  assert (Hlen0 : (0 + entryCount (profileOf this profile) <= length block)%nat)
    by exact Hlen.
  match type of H with
  | forEntries _ _ ?body _ = _ =>
      refine (forEntries_output (fun s : ComputePassState D => dbgOutput s)
                (fun i e =>
                   if PAL_ENABLE_PRINTS_ASSERTS cfg
                      && pipelineProfileDbgPrintProfileMatch (m_settings this)
                      && ProfilePatternMatchesPipeline (pattern e) pipelineKey
                   then PrintProfileEntryMatch cfg profile i pipelineKey
                   else [])
                block body _ _ 0%nat st st' Hlen0 H)
  end.
  intros i e s s' He Hs; cbv beta in Hs; rewrite He in Hs.
  destruct (ProfilePatternMatchesPipeline (pattern e) pipelineKey);
    [|injection Hs as <-; rewrite andb_false_r, app_nil_r; reflexivity].
  unfold andThen, ApplyProfileToDynamicComputeShaderInfo, skip in Hs.
  destruct (PAL_ENABLE_PRINTS_ASSERTS cfg);
    [destruct (pipelineProfileDbgPrintProfileMatch (m_settings this))|];
    cbn in Hs; injection Hs as <-; cbn; rewrite ?app_nil_r; reflexivity.
Qed.

Lemma graphics_entry_output {R C : Type} (cfg : BuildConfig) (this : ShaderOptimizer)
    (profile : ProfileMember) (entry : nat) (e : PipelineProfileEntry)
    (pipelineKey : PipelineOptimizerKey) (shaderStages : Z)
    (st st' : GraphicsPassState R C) :
  applyEntryToGraphicsPipelineCreateInfo cfg this profile entry e pipelineKey shaderStages st
  = Some st' ->
  graphicsDbgOutput st'
  = graphicsDbgOutput st
    ++ (if PAL_ENABLE_PRINTS_ASSERTS cfg
           && pipelineProfileDbgPrintProfileMatch (m_settings this)
        then PrintProfileEntryMatch cfg profile entry pipelineKey else []).
Proof.
  intros H; unfold applyEntryToGraphicsPipelineCreateInfo in H; cbv zeta in H.
  apply andThen_split in H; destruct H as (s1 & H1 & H).
  apply andThen_split in H; destruct H as (s2 & H2 & H).
  apply andThen_split in H; destruct H as (s3 & H3 & H).
  apply andThen_split in H; destruct H as (s4 & H4 & H).
  apply andThen_split in H; destruct H as (s5 & H5 & H).
  apply andThen_split in H; destruct H as (s6 & H6 & H).
  apply andThen_split in H; destruct H as (s7 & H7 & H).
  apply dynamic_step in H1, H2, H3, H4, H5.
  apply createInfo_step in H6, H7.
  destruct H1 as (_ & O1 & _), H2 as (_ & O2 & _), H3 as (_ & O3 & _),
    H4 as (_ & O4 & _), H5 as (_ & O5 & _), H6 as (_ & O6 & _), H7 as (_ & O7 & _).
  rewrite <- O1, <- O2, <- O3, <- O4, <- O5, <- O6, <- O7.
  destruct (PAL_ENABLE_PRINTS_ASSERTS cfg);
    [destruct (pipelineProfileDbgPrintProfileMatch (m_settings this))|];
    cbn in H; injection H as <-; cbn; rewrite ?app_nil_r; reflexivity.
Qed.

Lemma graphics_pass_output {R C : Type} (cfg : BuildConfig) (this : ShaderOptimizer)
    (profile : ProfileMember) (pipelineKey : PipelineOptimizerKey) (shaderStages : Z)
    (st st' : GraphicsPassState R C) :
  validProfile (profileOf this profile) ->
  ApplyProfileToGraphicsPipelineCreateInfo cfg this profile pipelineKey shaderStages st
  = Some st' ->
  graphicsDbgOutput st' = graphicsDbgOutput st ++ matchLines cfg this profile pipelineKey.
Proof.
  intros (block & Hb & Hlen) H.
  unfold ApplyProfileToGraphicsPipelineCreateInfo, entryAt in H; rewrite Hb in H.
  rewrite <- (pass_output_lines cfg this profile pipelineKey block Hb).
  assert (Hlen0 : (0 + entryCount (profileOf this profile) <= length block)%nat)
    by exact Hlen.
  match type of H with
  | forEntries _ _ ?body _ = _ =>
      refine (forEntries_output (fun s : GraphicsPassState R C => graphicsDbgOutput s)
                (fun i e =>
                   if PAL_ENABLE_PRINTS_ASSERTS cfg
                      && pipelineProfileDbgPrintProfileMatch (m_settings this)
                      && ProfilePatternMatchesPipeline (pattern e) pipelineKey
                   then PrintProfileEntryMatch cfg profile i pipelineKey
                   else [])
                block body _ _ 0%nat st st' Hlen0 H)
  end.
  intros i e s s' He Hs; cbv beta in Hs; rewrite He in Hs.
  destruct (ProfilePatternMatchesPipeline (pattern e) pipelineKey);
    [|injection Hs as <-; rewrite andb_false_r, app_nil_r; reflexivity].
  rewrite andb_true_r; apply (graphics_entry_output _ _ _ _ _ _ _ _ _ Hs).
Qed.

(** X18. What [OverrideComputePipelineCreateInfo] prints.  Over valid profiles
    the function completes, and its debug output is what it was before
    followed by the report of every matching entry in use, profile by profile
    (application, tuning, then runtime when that profile is compiled in) and
    inside a profile in entry order; without the debug prints compiled in, or
    with the print setting off, nothing is added. *)
Theorem compute_override_transcript {D : Type} (cfg : BuildConfig) (this : ShaderOptimizer)
    (pipelineKey : PipelineOptimizerKey) (st : ComputePassState D) :
  validOptimizer cfg this ->
  exists st',
    OverrideComputePipelineCreateInfo cfg this pipelineKey st = Some st'
    /\ dbgOutput st' = dbgOutput st ++ overrideLines cfg this pipelineKey
    /\ (PAL_ENABLE_PRINTS_ASSERTS cfg
        && pipelineProfileDbgPrintProfileMatch (m_settings this) = false ->
        dbgOutput st' = dbgOutput st).
Proof.
  intros (Ha & Ht & Hr); unfold OverrideComputePipelineCreateInfo, andThen, overrideLines.
  destruct (ApplyProfileToComputePipelineCreateInfo cfg this member_appProfile pipelineKey st)
    as [s1|] eqn:H1;
    [|exfalso; exact (ApplyProfileToComputePipelineCreateInfo_total cfg this member_appProfile pipelineKey st Ha H1)].
  destruct (ApplyProfileToComputePipelineCreateInfo cfg this member_tuningProfile
              pipelineKey s1) as [s2|] eqn:H2;
    [|exfalso; exact (ApplyProfileToComputePipelineCreateInfo_total cfg this member_tuningProfile
                 pipelineKey s1 Ht H2)].
  apply (compute_pass_output cfg this member_appProfile) in H1; [|exact Ha].
  apply (compute_pass_output cfg this member_tuningProfile) in H2; [|exact Ht].
  assert (Hoff : PAL_ENABLE_PRINTS_ASSERTS cfg
                 && pipelineProfileDbgPrintProfileMatch (m_settings this) = false ->
                 forall profile, matchLines cfg this profile pipelineKey = []).
  { intros Hc profile; unfold matchLines; rewrite Hc; cbn [andb].
    induction (indexedEntriesInUse (profileOf this profile)) as [|ie rest IH];
      [reflexivity|exact IH]. }
  destruct (ICD_RUNTIME_APP_PROFILE cfg) eqn:Hicd.
  - destruct (ApplyProfileToComputePipelineCreateInfo cfg this member_runtimeProfile
                pipelineKey s2) as [s3|] eqn:H3;
      [|exfalso;
        exact (ApplyProfileToComputePipelineCreateInfo_total cfg this member_runtimeProfile
                 pipelineKey s2 (Hr eq_refl) H3)].
    apply (compute_pass_output cfg this member_runtimeProfile) in H3;
      [|exact (Hr eq_refl)].
    exists s3; split; [reflexivity|split].
    + rewrite H3, H2, H1, <- !app_assoc; reflexivity.
    + intros Hc; rewrite H3, H2, H1, !(Hoff Hc), !app_nil_r; reflexivity.
  - exists s2; split; [reflexivity|split].
    + rewrite H2, H1, <- !app_assoc, app_nil_r; reflexivity.
    + intros Hc; rewrite H2, H1, !(Hoff Hc), !app_nil_r; reflexivity.
Qed.

Lemma printingOptimizer_valid (cfg : BuildConfig) : validOptimizer cfg printingOptimizer.
Proof. repeat split; intros; apply profileWith_valid. Qed.

Lemma compute_override_transcript_witness :
  exists st',
    OverrideComputePipelineCreateInfo sampleConfig printingOptimizer computeKey
      (mkComputePassState (Some tt) []) = Some st'
    /\ dbgOutput st'
       = [DbgEntryTriggered "Application" 0; DbgStage "CS" 9 7 256;
          DbgNeverCalled; DbgEntryTriggered "Unknown profile" 0; DbgStage "CS" 9 7 256;
          DbgEntryTriggered "Runtime" 0; DbgStage "CS" 9 7 256].
Proof.
  destruct (compute_override_transcript sampleConfig printingOptimizer computeKey
              (mkComputePassState (Some tt) []) (printingOptimizer_valid sampleConfig))
    as (st' & Hrun & Hout & _).
  exists st'; split; [exact Hrun|rewrite Hout; vm_compute; reflexivity].
Defined.

(** X19. [OverrideGraphicsPipelineCreateInfo] prints the same report as the
    compute function: when it completes over valid profiles, its debug output
    is what it was before followed by the report of every matching entry in
    use, profile by profile and in entry order, whatever the stage mask and
    the actions of the entries are. *)
Theorem graphics_override_transcript {R C : Type} (cfg : BuildConfig)
    (this : ShaderOptimizer) (pipelineKey : PipelineOptimizerKey) (shaderStages : Z)
    (st st' : GraphicsPassState R C) :
  validOptimizer cfg this ->
  OverrideGraphicsPipelineCreateInfo cfg this pipelineKey shaderStages st = Some st' ->
  graphicsDbgOutput st' = graphicsDbgOutput st ++ overrideLines cfg this pipelineKey.
Proof.
  intros (Ha & Ht & Hr) H; unfold OverrideGraphicsPipelineCreateInfo in H.
  apply andThen_split in H; destruct H as (s1 & H1 & H).
  apply andThen_split in H; destruct H as (s2 & H2 & H).
  apply (graphics_pass_output cfg this member_appProfile) in H1; [|exact Ha].
  apply (graphics_pass_output cfg this member_tuningProfile) in H2; [|exact Ht].
  unfold overrideLines.
  destruct (ICD_RUNTIME_APP_PROFILE cfg).
  - apply (graphics_pass_output cfg this member_runtimeProfile) in H;
      [|exact (Hr eq_refl)].
    rewrite H, H2, H1, <- !app_assoc; reflexivity.
  - injection H as <-; rewrite H2, H1, <- !app_assoc, app_nil_r; reflexivity.
Qed.

Lemma graphics_override_transcript_witness :
  exists st',
    OverrideGraphicsPipelineCreateInfo sampleConfig printingOptimizer fragmentOnlyKey
      vertexAndFragment sampleGraphicsState = Some st'
    /\ graphicsDbgOutput st'
       = [DbgEntryTriggered "Application" 0;
          DbgStage "PS" 0x751207727c904749 0xdd6c573c46e6adf8 4096;
          DbgNeverCalled; DbgEntryTriggered "Unknown profile" 0;
          DbgStage "PS" 0x751207727c904749 0xdd6c573c46e6adf8 4096;
          DbgEntryTriggered "Runtime" 0;
          DbgStage "PS" 0x751207727c904749 0xdd6c573c46e6adf8 4096].
Proof.
  destruct (OverrideGraphicsPipelineCreateInfo sampleConfig printingOptimizer
              fragmentOnlyKey vertexAndFragment sampleGraphicsState) as [st'|] eqn:Hrun;
    [|vm_compute in Hrun; discriminate].
  exists st'; split; [reflexivity|].
  rewrite (graphics_override_transcript sampleConfig printingOptimizer fragmentOnlyKey
             vertexAndFragment sampleGraphicsState st'
             (printingOptimizer_valid sampleConfig) Hrun).
  vm_compute; reflexivity.
Defined.

Lemma PrintProfileEntryMatch_never_called (cfg : BuildConfig) (profile : ProfileMember)
    (index : nat) (key : PipelineOptimizerKey) :
  In DbgNeverCalled (PrintProfileEntryMatch cfg profile index key)
  <-> profile = member_tuningProfile
      \/ (profile = member_runtimeProfile /\ ICD_RUNTIME_APP_PROFILE cfg = false).
Proof.
  unfold PrintProfileEntryMatch; cbv zeta; rewrite !in_app_iff.
  assert (Hstages : forall stages,
             ~ In DbgNeverCalled
                 (flat_map
                    (fun stageIdx =>
                       let shader := idx (Key.shaders key) stageIdx in
                       if negb (Key.codeSize shader =? 0)
                       then [DbgStage (stageLabel stageIdx) (upper (Key.codeHash shader))
                               (lower (Key.codeHash shader)) (Key.codeSize shader)]
                       else []) stages)).
  { intros stages H; apply in_flat_map in H; destruct H as (s & _ & H); cbv zeta in H.
    destruct (negb (Key.codeSize (idx (Key.shaders key) s) =? 0));
      [destruct H as [H|[]]; discriminate|destruct H]. }
  split.
  - intros [H|[[H|[]]|H]]; [|discriminate|exfalso; exact (Hstages _ H)].
    destruct profile; [destruct H|left; reflexivity|].
    destruct (ICD_RUNTIME_APP_PROFILE cfg); [destruct H|right; split; reflexivity].
  - intros [->|[-> ->]]; left; left; reflexivity.
Qed.

Lemma in_indexed {A : Type} (e : A) (l : list A) :
  In e l -> forall first count, (length l <= count)%nat ->
  exists i, In (i, e) (combine (seq first count) l).
Proof.
  induction l as [|a rest IH]; intros H first count Hlen; [destruct H|].
  destruct count as [|n]; [simpl in Hlen; lia|].
  destruct H as [->|H].
  - exists first; left; reflexivity.
  - destruct (IH H (S first) n) as (i & Hi); [simpl in Hlen; lia|].
    exists i; right; exact Hi.
Qed.

Lemma matchLines_never_called (cfg : BuildConfig) (this : ShaderOptimizer)
    (profile : ProfileMember) (pipelineKey : PipelineOptimizerKey) :
  In DbgNeverCalled (matchLines cfg this profile pipelineKey)
  <-> (PAL_ENABLE_PRINTS_ASSERTS cfg = true
       /\ pipelineProfileDbgPrintProfileMatch (m_settings this) = true
       /\ (profile = member_tuningProfile
           \/ (profile = member_runtimeProfile /\ ICD_RUNTIME_APP_PROFILE cfg = false))
       /\ exists e, In e (entriesInUse (profileOf this profile))
                    /\ ProfilePatternMatchesPipeline (pattern e) pipelineKey = true).
Proof.
  unfold matchLines, indexedEntriesInUse; rewrite in_flat_map; split.
  - intros ([i e] & Hin & H); cbn [fst snd] in H.
    destruct (PAL_ENABLE_PRINTS_ASSERTS cfg); [|destruct H].
    destruct (pipelineProfileDbgPrintProfileMatch (m_settings this)); [|destruct H].
    destruct (ProfilePatternMatchesPipeline (pattern e) pipelineKey) eqn:Hm; [|destruct H].
    cbn [andb] in H; apply PrintProfileEntryMatch_never_called in H.
    repeat split; [exact H|].
    exists e; split; [exact (in_combine_r _ _ _ _ Hin)|exact Hm].
  - intros (Hp & Hs & Hnamed & e & He & Hm).
    destruct (in_indexed e _ He 0%nat (entryCount (profileOf this profile))) as (i & Hi).
    { unfold entriesInUse; destruct (pEntries (profileOf this profile));
        [rewrite length_firstn; lia|simpl; lia]. }
    exists (i, e); split; [exact Hi|].
    cbn [fst snd]; rewrite Hp, Hs, Hm; cbn [andb].
    apply PrintProfileEntryMatch_never_called; exact Hnamed.
Qed.

(** X20. When the match report reaches [VK_NEVER_CALLED].  Over valid profiles
    [OverrideComputePipelineCreateInfo], started with an output free of the
    marker, reaches [VK_NEVER_CALLED] exactly when the debug prints are
    compiled in, the print setting is on and some entry in use of the tuning
    profile matches the key: [PrintProfileEntryMatch] knows the application
    and the runtime profile only, so a match in either of them never reaches
    it, and every reported match of the tuning profile does. *)
Theorem never_called_iff_tuning_rule_matches {D : Type} (cfg : BuildConfig)
    (this : ShaderOptimizer) (pipelineKey : PipelineOptimizerKey)
    (st : ComputePassState D) :
  validOptimizer cfg this ->
  ~ In DbgNeverCalled (dbgOutput st) ->
  exists st',
    OverrideComputePipelineCreateInfo cfg this pipelineKey st = Some st'
    /\ (In DbgNeverCalled (dbgOutput st')
        <-> PAL_ENABLE_PRINTS_ASSERTS cfg = true
            /\ pipelineProfileDbgPrintProfileMatch (m_settings this) = true
            /\ exists e, In e (entriesInUse (m_tuningProfile this))
                         /\ ProfilePatternMatchesPipeline (pattern e) pipelineKey = true).
Proof.
  intros Hvalid Hclean; pose proof Hvalid as (Ha & Ht & Hr).
  unfold OverrideComputePipelineCreateInfo, andThen.
  destruct (ApplyProfileToComputePipelineCreateInfo cfg this member_appProfile pipelineKey st)
    as [s1|] eqn:H1;
    [|exfalso; exact (ApplyProfileToComputePipelineCreateInfo_total cfg this
                        member_appProfile pipelineKey st Ha H1)].
  destruct (ApplyProfileToComputePipelineCreateInfo cfg this member_tuningProfile
              pipelineKey s1) as [s2|] eqn:H2;
    [|exfalso; exact (ApplyProfileToComputePipelineCreateInfo_total cfg this
                        member_tuningProfile pipelineKey s1 Ht H2)].
  apply (compute_pass_output cfg this member_appProfile) in H1; [|exact Ha].
  apply (compute_pass_output cfg this member_tuningProfile) in H2; [|exact Ht].
  assert (Happ : ~ In DbgNeverCalled (matchLines cfg this member_appProfile pipelineKey)).
  { intros H; apply matchLines_never_called in H.
    destruct H as (_ & _ & [H|[H _]] & _); discriminate. }
  assert (Htun : In DbgNeverCalled (matchLines cfg this member_tuningProfile pipelineKey)
                 <-> PAL_ENABLE_PRINTS_ASSERTS cfg = true
                     /\ pipelineProfileDbgPrintProfileMatch (m_settings this) = true
                     /\ exists e, In e (entriesInUse (m_tuningProfile this))
                                  /\ ProfilePatternMatchesPipeline (pattern e) pipelineKey
                                     = true).
  { rewrite matchLines_never_called; cbn [profileOf]; split.
    - intros (Hp & Hs & _ & He); repeat split; assumption.
    - intros (Hp & Hs & He); repeat split; try assumption; left; reflexivity. }
  destruct (ICD_RUNTIME_APP_PROFILE cfg) eqn:Hicd.
  - destruct (ApplyProfileToComputePipelineCreateInfo cfg this member_runtimeProfile
                pipelineKey s2) as [s3|] eqn:H3;
      [|exfalso; exact (ApplyProfileToComputePipelineCreateInfo_total cfg this
                          member_runtimeProfile pipelineKey s2 (Hr eq_refl) H3)].
    apply (compute_pass_output cfg this member_runtimeProfile) in H3;
      [|exact (Hr eq_refl)].
    exists s3; split; [reflexivity|].
    rewrite H3, H2, H1, !in_app_iff, <- Htun.
    assert (Hrun : ~ In DbgNeverCalled
                       (matchLines cfg this member_runtimeProfile pipelineKey)).
    { intros H; apply matchLines_never_called in H.
      destruct H as (_ & _ & [H|[_ H]] & _); [discriminate|].
      rewrite Hicd in H; discriminate. }
    tauto.
  - exists s2; split; [reflexivity|].
    rewrite H2, H1, !in_app_iff, <- Htun; tauto.
Qed.

Lemma never_called_iff_tuning_rule_matches_witness :
  exists st',
    OverrideComputePipelineCreateInfo sampleConfig printingOptimizer computeKey
      (mkComputePassState (Some tt) []) = Some st'
    /\ In DbgNeverCalled (dbgOutput st').
Proof.
  destruct (never_called_iff_tuning_rule_matches sampleConfig printingOptimizer computeKey
              (mkComputePassState (Some tt) []) (printingOptimizer_valid sampleConfig))
    as (st' & Hrun & Hiff); [intros []|].
  exists st'; split; [exact Hrun|].
  apply Hiff; split; [reflexivity|split; [reflexivity|]].
  exists (alwaysEntry 0 zeroShaderTuningOptions); split; [left; reflexivity|reflexivity].
Defined.

(** ** The application profile *)

Lemma appendDota2Rules_run (hashes : list ShaderHash) :
  forall (pre overwritten post : list PipelineProfileEntry) (capacity : nat),
    length overwritten = length hashes ->
    appendDota2Rules hashes
      (mkPipelineProfile (length pre) capacity (Some (pre ++ overwritten ++ post)))
    = Some (mkPipelineProfile (length pre + length hashes) capacity
              (Some (pre ++ tableRules hashes overwritten ++ post))).
Proof.
  induction hashes as [|[l u] rest IH]; intros pre overwritten post capacity Hlen.
  - destruct overwritten; [|discriminate]; cbn; rewrite Nat.add_0_r; reflexivity.
  - destruct overwritten as [|e olds]; [discriminate|].
    injection Hlen as Hlen.
    cbn [appendDota2Rules lower upper]; unfold andThen, appendDota2Rule.
    cbn [entryCount pEntries entryCapacity].
    rewrite nth_error_app2, Nat.sub_diag by lia; cbn [nth_error app].
    replace (setEntry (pre ++ e :: olds ++ post) (length pre)
               (dota2Rule (mkShaderHash l u) e))
      with ((pre ++ [dota2Rule (mkShaderHash l u) e]) ++ olds ++ post).
    + replace (S (length pre)) with (length (pre ++ [dota2Rule (mkShaderHash l u) e]))
        by (rewrite length_app; simpl; lia).
      rewrite (IH _ olds post capacity Hlen).
      rewrite length_app; cbn [length tableRules combine map fst snd].
      rewrite <- app_assoc; cbn [app].
      do 2 f_equal; lia.
    + unfold setEntry.
      rewrite firstn_app, firstn_all, Nat.sub_diag; cbn [firstn].
      rewrite app_nil_r, <- app_assoc; cbn [app]; do 2 f_equal.
      change (S (length pre)) with (1 + length pre)%nat.
      rewrite <- skipn_skipn, skipn_app, skipn_all, Nat.sub_diag; reflexivity.
Qed.

Lemma appendDota2Rules_overflow (hashes : list ShaderHash) :
  forall (profile : PipelineProfile) (block : list PipelineProfileEntry),
    hashes <> [] ->
    pEntries profile = Some block ->
    (length block < entryCount profile + length hashes)%nat ->
    appendDota2Rules hashes profile = None.
Proof.
  induction hashes as [|[l u] rest IH]; intros profile block Hne Hb Hlen;
    [contradiction Hne; reflexivity|].
  cbn [appendDota2Rules lower upper]; unfold andThen, appendDota2Rule; rewrite Hb.
  destruct (nth_error block (entryCount profile)) as [e|] eqn:He; [|reflexivity].
  assert (Hlt : (entryCount profile < length block)%nat)
    by (apply nth_error_Some; rewrite He; discriminate).
  destruct rest as [|h rest']; [simpl in Hlen; lia|].
  apply (IH _ (setEntry block (entryCount profile) (dota2Rule (mkShaderHash l u) e)));
    [discriminate|reflexivity|].
  cbn [entryCount]; unfold setEntry.
  rewrite length_app, length_firstn; cbn [length]; rewrite length_skipn.
  cbn [length] in Hlen; lia.
Qed.

Lemma table_blocks (profile : PipelineProfile) :
  (appendDota2Rule 0xdd6c573c46e6adf8 0x751207727c904749 ;;
   appendDota2Rule 0x71093bf7c6e98da8 0xfbc956d87a6d6631 ;;
   appendDota2Rule 0xedd89880de2091f9 0x506d0ac3995d2f1b ;;
   appendDota2Rule 0xbc583b30527e9f1d 0x1ef8276d42a14220 ;;
   appendDota2Rule 0x012ddab000f80610 0x3a65a6325756203d ;;
   appendDota2Rule 0x78095b5acf62f4d5 0x2c1afc1c6f669e33 ;;
   appendDota2Rule 0x22803b077988ec36 0x7ba50586c34e1662 ;;
   appendDota2Rule 0x313dab8ff9408da0 0xbb11905194a55485) profile
  = appendDota2Rules dota2Hashes profile.
Proof.
  unfold dota2Hashes; cbn [appendDota2Rules lower upper]; unfold andThen, skip.
  repeat match goal with
         | |- context [match appendDota2Rule ?l ?u ?p with _ => _ end] =>
             destruct (appendDota2Rule l u p); [|reflexivity]
         end.
  reflexivity.
Qed.

(** [BuildAppProfile] on the path that adds the table, from what the
    generated builder left. *)
Lemma BuildAppProfile_with_table (constants : HeaderConstants)
    (InitialPipelineProfileEntries : nat)
    (generatedBuildAppProfileLlpc : Z -> Z -> Update PipelineProfile)
    (builderSettings : BuilderSettings) (device : DeviceProperties)
    (this : ShaderOptimizer) (pMemory : list PipelineProfileEntry)
    (built : PipelineProfile) :
  pipelineProfileIgnoresAppProfile builderSettings = false ->
  onDota2Polaris constants device = true ->
  generatedBuildAppProfileLlpc (GetAppProfile device) (gfxLevel device)
    (zeroedProfile InitialPipelineProfileEntries) = Some built ->
  BuildAppProfile constants InitialPipelineProfileEntries generatedBuildAppProfileLlpc
    builderSettings device this (Some pMemory)
  = option_map (set_m_appProfile this) (appendDota2Rules dota2Hashes built).
Proof.
  intros Hign Hdev Hgen; unfold BuildAppProfile, BuildAppProfileLlpc; cbv zeta.
  rewrite Hign; cbn [negb andb].
  fold (zeroedProfile InitialPipelineProfileEntries).
  assert (Hseq : forall (a b : Update PipelineProfile) s,
             (a ;; b) s = match a s with Some s' => b s' | None => None end)
    by reflexivity.
  rewrite Hseq, Hgen.
  unfold onDota2Polaris in Hdev.
  apply andb_true_iff in Hdev; destruct Hdev as [Hdev H12].
  apply andb_true_iff in Hdev; destruct Hdev as [Happ H10].
  rewrite Happ, H10, H12; cbn [andb when].
  rewrite table_blocks; reflexivity.
Qed.

Lemma table_appended (constants : HeaderConstants) (InitialPipelineProfileEntries : nat)
    (generatedBuildAppProfileLlpc : Z -> Z -> Update PipelineProfile)
    (builderSettings : BuilderSettings) (device : DeviceProperties)
    (this : ShaderOptimizer) (pMemory block : list PipelineProfileEntry)
    (built : PipelineProfile) :
  pipelineProfileIgnoresAppProfile builderSettings = false ->
  onDota2Polaris constants device = true ->
  generatedBuildAppProfileLlpc (GetAppProfile device) (gfxLevel device)
    (zeroedProfile InitialPipelineProfileEntries) = Some built ->
  pEntries built = Some block ->
  (entryCount built + 8 <= length block)%nat ->
  BuildAppProfile constants InitialPipelineProfileEntries generatedBuildAppProfileLlpc
    builderSettings device this (Some pMemory)
  = Some (set_m_appProfile this
            (mkPipelineProfile (entryCount built + 8) (entryCapacity built)
               (Some (firstn (entryCount built) block
                      ++ tableRules dota2Hashes (firstn 8 (skipn (entryCount built) block))
                      ++ skipn 8 (skipn (entryCount built) block))))).
Proof.
  intros Hign Hdev Hgen Hb Hlen.
  rewrite (BuildAppProfile_with_table _ _ _ _ _ this pMemory built Hign Hdev Hgen).
  destruct built as [n capacity entries]; cbn [pEntries entryCount entryCapacity] in *.
  subst entries.
  set (pre := firstn n block); set (olds := firstn 8 (skipn n block)).
  set (post := skipn 8 (skipn n block)).
  assert (Hpre : length pre = n) by (unfold pre; rewrite length_firstn; lia).
  assert (Holds : length olds = length dota2Hashes)
    by (unfold olds; rewrite length_firstn, length_skipn;
        change (length dota2Hashes) with 8%nat; lia).
  assert (Hblock : block = pre ++ olds ++ post).
  { unfold pre, olds, post; rewrite !firstn_skipn; reflexivity. }
  assert (Hp : mkPipelineProfile n capacity (Some block)
               = mkPipelineProfile (length pre) capacity (Some (pre ++ olds ++ post)))
    by (rewrite Hpre, <- Hblock; reflexivity).
  rewrite Hp, (appendDota2Rules_run dota2Hashes pre olds post capacity Holds), Hpre.
  reflexivity.
Qed.

Lemma table_profile_entries (n capacity : nat) (block : list PipelineProfileEntry) :
  (n + 8 <= length block)%nat ->
  let profile :=
    mkPipelineProfile (n + 8) capacity
      (Some (firstn n block ++ tableRules dota2Hashes (firstn 8 (skipn n block))
             ++ skipn 8 (skipn n block))) in
  validProfile profile
  /\ entriesInUse profile
     = firstn n block ++ tableRules dota2Hashes (firstn 8 (skipn n block)).
Proof.
  intros Hlen profile; subst profile.
  assert (Hpre : length (firstn n block) = n) by (rewrite length_firstn; lia).
  assert (Hrules : length (tableRules dota2Hashes (firstn 8 (skipn n block))) = 8%nat).
  { unfold tableRules; rewrite length_map, length_combine, length_firstn, length_skipn.
    change (length dota2Hashes) with 8%nat; lia. }
  split.
  - eexists; split; [reflexivity|].
    cbn [entryCount]; rewrite !length_app, Hpre, Hrules; lia.
  - unfold entriesInUse; cbn [pEntries entryCount].
    rewrite app_assoc, firstn_app.
    replace (n + 8 - length (firstn n block
                             ++ tableRules dota2Hashes (firstn 8 (skipn n block))))%nat
      with 0%nat by (rewrite length_app, Hpre, Hrules; lia).
    rewrite firstn_all2 by (rewrite length_app, Hpre, Hrules; lia).
    cbn [firstn]; rewrite app_nil_r; reflexivity.
Qed.

(** X21. The built-in table.  For Dota 2 on a Polaris 10 to Polaris 12, with
    the application profile not ignored and the allocation successful, when
    the generated builder leaves a profile with room for eight more entries,
    [BuildAppProfile] completes; the entries in use are then those of the
    generated builder followed by the eight rules of the table, each made
    from the entry it overwrites; they lie inside the block, and the capacity
    and every other member of the optimizer are unchanged. *)
Theorem dota2_table_appended (constants : HeaderConstants)
    (InitialPipelineProfileEntries : nat)
    (generatedBuildAppProfileLlpc : Z -> Z -> Update PipelineProfile)
    (builderSettings : BuilderSettings) (device : DeviceProperties)
    (this : ShaderOptimizer) (pMemory block : list PipelineProfileEntry)
    (built : PipelineProfile) :
  pipelineProfileIgnoresAppProfile builderSettings = false ->
  onDota2Polaris constants device = true ->
  generatedBuildAppProfileLlpc (GetAppProfile device) (gfxLevel device)
    (zeroedProfile InitialPipelineProfileEntries) = Some built ->
  pEntries built = Some block ->
  (entryCount built + 8 <= length block)%nat ->
  exists this',
    BuildAppProfile constants InitialPipelineProfileEntries generatedBuildAppProfileLlpc
      builderSettings device this (Some pMemory) = Some this'
    /\ entryCount (m_appProfile this') = (entryCount built + 8)%nat
    /\ entryCapacity (m_appProfile this') = entryCapacity built
    /\ validProfile (m_appProfile this')
    /\ entriesInUse (m_appProfile this')
       = entriesInUse built
         ++ tableRules dota2Hashes (firstn 8 (skipn (entryCount built) block))
    /\ m_settings this' = m_settings this
    /\ m_tuningProfile this' = m_tuningProfile this
    /\ m_runtimeProfile this' = m_runtimeProfile this.
Proof.
  intros Hign Hdev Hgen Hb Hlen.
  eexists; split;
    [exact (table_appended constants _ _ _ _ this pMemory block built Hign Hdev Hgen Hb
              Hlen)|].
  cbn [set_m_appProfile m_appProfile m_settings m_tuningProfile m_runtimeProfile].
  destruct (table_profile_entries (entryCount built) (entryCapacity built) block Hlen)
    as [Hvalid Huse].
  split; [reflexivity|split; [reflexivity|split; [exact Hvalid|]]].
  split; [|repeat split].
  rewrite Huse; unfold entriesInUse at 1; rewrite Hb; reflexivity.
Qed.

Lemma dota2_table_appended_witness :
  exists this',
    BuildAppProfile sampleConstants 32 oneGeneratedRule defaultBuilderSettings dota2Device
      sampleOptimizer (Some []) = Some this'
    /\ entryCount (m_appProfile this') = 9%nat
    /\ entriesInUse (m_appProfile this')
       = alwaysEntry 1 (vgprPayload 24)
         :: map (fun hash => dota2Rule hash zeroPipelineProfileEntry) dota2Hashes.
Proof.
  destruct (dota2_table_appended sampleConstants 32 oneGeneratedRule defaultBuilderSettings
              dota2Device sampleOptimizer []
              (alwaysEntry 1 (vgprPayload 24) :: repeat zeroPipelineProfileEntry 31)
              (mkPipelineProfile 1 32
                 (Some (alwaysEntry 1 (vgprPayload 24)
                        :: repeat zeroPipelineProfileEntry 31))))
    as (this' & Hrun & Hcount & _ & _ & Huse & _);
    [reflexivity|reflexivity|reflexivity|reflexivity|simpl; lia|].
  exists this'; split; [exact Hrun|split; [exact Hcount|exact Huse]].
Defined.

Lemma appendDota2Rules_null (profile : PipelineProfile) :
  pEntries profile = None -> appendDota2Rules dota2Hashes profile = None.
Proof.
  intros Hb; unfold dota2Hashes; cbn [appendDota2Rules]; unfold andThen, appendDota2Rule.
  rewrite Hb; reflexivity.
Qed.

(** X22. The table is appended without a capacity check.  On the path that
    adds the table, [BuildAppProfile] is undefined (a store outside the block,
    or through a null pointer) exactly when the generated builder leaves a
    null block or fewer than eight entries free in it. *)
Theorem dota2_table_needs_room (constants : HeaderConstants)
    (InitialPipelineProfileEntries : nat)
    (generatedBuildAppProfileLlpc : Z -> Z -> Update PipelineProfile)
    (builderSettings : BuilderSettings) (device : DeviceProperties)
    (this : ShaderOptimizer) (pMemory : list PipelineProfileEntry)
    (built : PipelineProfile) :
  pipelineProfileIgnoresAppProfile builderSettings = false ->
  onDota2Polaris constants device = true ->
  generatedBuildAppProfileLlpc (GetAppProfile device) (gfxLevel device)
    (zeroedProfile InitialPipelineProfileEntries) = Some built ->
  (BuildAppProfile constants InitialPipelineProfileEntries generatedBuildAppProfileLlpc
     builderSettings device this (Some pMemory) = None
   <-> match pEntries built with
       | Some block => (length block < entryCount built + 8)%nat
       | None => True
       end).
Proof.
  intros Hign Hdev Hgen.
  destruct (pEntries built) as [block|] eqn:Hb.
  - destruct (Nat.lt_ge_cases (length block) (entryCount built + 8)) as [Hlt|Hge].
    + split; [intros _; exact Hlt|intros _].
      rewrite (BuildAppProfile_with_table _ _ _ _ _ this pMemory built Hign Hdev Hgen).
      rewrite (appendDota2Rules_overflow dota2Hashes built block); try reflexivity;
        [discriminate|exact Hb|exact Hlt].
    + rewrite (table_appended constants _ _ _ _ this pMemory block built Hign Hdev Hgen Hb
                 Hge).
      split; [discriminate|lia].
  - split; [intros _; exact I|intros _].
    rewrite (BuildAppProfile_with_table _ _ _ _ _ this pMemory built Hign Hdev Hgen).
    rewrite (appendDota2Rules_null built Hb); reflexivity.
Qed.

Lemma dota2_table_needs_room_witness :
  BuildAppProfile sampleConstants 4 noGeneratedRules defaultBuilderSettings dota2Device
    sampleOptimizer (Some []) = None.
Proof.
  apply (dota2_table_needs_room sampleConstants 4 noGeneratedRules defaultBuilderSettings
           dota2Device sampleOptimizer [] (zeroedProfile 4));
    [reflexivity|reflexivity|reflexivity|simpl; lia].
Defined.

Lemma dota2Rule_matches (hash : ShaderHash) (pipelineKey : PipelineOptimizerKey) :
  ProfilePatternMatchesPipeline (pattern (dota2Rule hash zeroPipelineProfileEntry))
    pipelineKey
  = negb (Key.codeSize (idx (Key.shaders pipelineKey) ShaderStageFragment) =? 0)
    && hashEqb hash (Key.codeHash (idx (Key.shaders pipelineKey) ShaderStageFragment)).
Proof.
  unfold ProfilePatternMatchesPipeline.
  change (PipelineMatch.always
            (Pattern.pmatch (pattern (dota2Rule hash zeroPipelineProfileEntry))))
    with false; cbn iota.
  rewrite stageLoop_forallb; unfold allStages; cbn [forallb].
  change (Pattern.shaders (pattern (dota2Rule hash zeroPipelineProfileEntry)))
    with (upd (fill zeroShaderProfilePattern) ShaderStageFragment
            (Pattern.mkShaderProfilePattern (ShaderMatch.mk 5) hash 0)).
  rewrite idx_upd_same, !idx_upd_other, !idx_fill by discriminate.
  rewrite !stageBody_zero, stageBody_tests; cbn [andb]; rewrite andb_true_r.
  unfold stageActiveTestFails, stageInactiveTestFails, codeHashTestFails,
    codeSizeLessThanTestFails, hashEqb.
  cbn [Pattern.match_ Pattern.codeHash Pattern.codeSizeLessThanValue].
  change (ShaderMatch.stageActive (ShaderMatch.mk 5)) with true.
  change (ShaderMatch.stageInactive (ShaderMatch.mk 5)) with false.
  change (ShaderMatch.codeHash (ShaderMatch.mk 5)) with true.
  change (ShaderMatch.codeSizeLessThan (ShaderMatch.mk 5)) with false.
  cbn [andb negb Z.b2z]; rewrite Z.eqb_refl; cbn [negb andb].
  rewrite !andb_true_r.
  destruct (lower hash =? _), (upper hash =? _); cbn; rewrite ?andb_true_r, ?andb_false_r;
    reflexivity.
Qed.

Lemma dota2Rule_writes (cfg : BuildConfig) (f : OptionField) (shaderStage : ShaderStage)
    (hash : ShaderHash) :
  writes cfg f (shaderCreateOf (dota2Rule hash zeroPipelineProfileEntry) shaderStage)
  = match f, shaderStage with
    | F_allowReZ, ShaderStageFragment => true
    | _, _ => false
    end.
Proof. destruct f, shaderStage; reflexivity. Qed.

Lemma tableRules_zero (hashes : list ShaderHash) :
  forall overwritten,
    length overwritten = length hashes ->
    (forall e, In e overwritten -> e = zeroPipelineProfileEntry) ->
    tableRules hashes overwritten
    = map (fun hash => dota2Rule hash zeroPipelineProfileEntry) hashes.
Proof.
  induction hashes as [|h rest IH]; intros [|e olds] Hlen Hz; try discriminate;
    [reflexivity|].
  unfold tableRules; cbn [combine map fst snd].
  rewrite (Hz e (or_introl eq_refl)); f_equal.
  apply IH; [injection Hlen as Hlen; exact Hlen|intros e' He'; apply Hz; right; exact He'].
Qed.

Lemma afterEntries_table (cfg : BuildConfig) (f : OptionField)
    (pipelineKey : PipelineOptimizerKey) (shaderStage : ShaderStage)
    (hashes : list ShaderHash) :
  forall v,
    afterEntries cfg f pipelineKey shaderStage
      (map (fun hash => dota2Rule hash zeroPipelineProfileEntry) hashes) v
    = if match f, shaderStage with
         | F_allowReZ, ShaderStageFragment => true
         | _, _ => false
         end
         && negb (Key.codeSize (idx (Key.shaders pipelineKey) ShaderStageFragment) =? 0)
         && existsb
              (fun hash =>
                 hashEqb hash
                   (Key.codeHash (idx (Key.shaders pipelineKey) ShaderStageFragment)))
              hashes
      then 1 else v.
Proof.
  induction hashes as [|h rest IH]; intros v.
  - cbn [map existsb]; rewrite andb_false_r; reflexivity.
  - cbn [map existsb].
    change (dota2Rule h zeroPipelineProfileEntry
            :: map (fun hash => dota2Rule hash zeroPipelineProfileEntry) rest)
      with ([dota2Rule h zeroPipelineProfileEntry]
            ++ map (fun hash => dota2Rule hash zeroPipelineProfileEntry) rest).
    rewrite afterEntries_app, IH; unfold afterEntries; cbn [fold_left].
    unfold setsField; rewrite dota2Rule_matches, dota2Rule_writes.
    destruct f, shaderStage; cbn [andb]; rewrite ?andb_false_r; try reflexivity.
    destruct (negb (Key.codeSize (idx (Key.shaders pipelineKey) ShaderStageFragment) =? 0));
      cbn [andb]; [|reflexivity].
    destruct (hashEqb h _); cbn [orb andb];
      [destruct (existsb _ rest); reflexivity|reflexivity].
Qed.

(** X23. What the table does.  With the table added after the rules of the
    generated builder, in entries that were still zero, a shader-stage pass
    over the application profile with all handles valid completes; for the
    fragment stage of a pipeline whose fragment shader is active and has one
    of the eight hashes it leaves [allowReZ] set; in every other case, and for
    every other member, the result is what the rules of the generated builder
    alone give. *)
Theorem dota2_rules_effect (constants : HeaderConstants)
    (InitialPipelineProfileEntries : nat)
    (generatedBuildAppProfileLlpc : Z -> Z -> Update PipelineProfile)
    (builderSettings : BuilderSettings) (device : DeviceProperties)
    (this : ShaderOptimizer) (pMemory block : list PipelineProfileEntry)
    (built : PipelineProfile) (cfg : BuildConfig) (pipelineKey : PipelineOptimizerKey)
    (shaderStage : ShaderStage) (options : PipelineShaderOptionsPtr) :
  pipelineProfileIgnoresAppProfile builderSettings = false ->
  onDota2Polaris constants device = true ->
  generatedBuildAppProfileLlpc (GetAppProfile device) (gfxLevel device)
    (zeroedProfile InitialPipelineProfileEntries) = Some built ->
  pEntries built = Some block ->
  (entryCount built + 8 <= length block)%nat ->
  (forall e, In e (firstn 8 (skipn (entryCount built) block)) ->
             e = zeroPipelineProfileEntry) ->
  validOptions options ->
  exists this' options',
    BuildAppProfile constants InitialPipelineProfileEntries generatedBuildAppProfileLlpc
      builderSettings device this (Some pMemory) = Some this'
    /\ ApplyProfileToShaderCreateInfo cfg (m_appProfile this') pipelineKey shaderStage
         options = Some options'
    /\ (shaderStage = ShaderStageFragment -> dota2Pipeline pipelineKey = true ->
        fieldValue F_allowReZ options' = Some 1)
    /\ (forall f v,
          f <> F_allowReZ \/ shaderStage <> ShaderStageFragment
          \/ dota2Pipeline pipelineKey = false ->
          fieldValue f options = Some v ->
          fieldValue f options'
          = Some (afterEntries cfg f pipelineKey shaderStage (entriesInUse built) v)).
Proof.
  intros Hign Hdev Hgen Hb Hlen Hzero Hv.
  destruct (table_profile_entries (entryCount built) (entryCapacity built) block Hlen)
    as [Hvalid Huse].
  cbv zeta in Hvalid, Huse.
  assert (Hz : tableRules dota2Hashes (firstn 8 (skipn (entryCount built) block))
               = map (fun hash => dota2Rule hash zeroPipelineProfileEntry) dota2Hashes).
  { apply tableRules_zero; [|exact Hzero].
    rewrite length_firstn, length_skipn; change (length dota2Hashes) with 8%nat; lia. }
  destruct (ApplyProfile_total cfg _ pipelineKey shaderStage options Hvalid Hv)
    as (options' & Hrun & _ & Hfields).
  eexists; exists options'; split;
    [exact (table_appended constants _ _ _ _ this pMemory block built Hign Hdev Hgen Hb
              Hlen)|].
  cbn [set_m_appProfile m_appProfile]; split; [exact Hrun|].
  assert (Hall : forall f v, fieldValue f options = Some v ->
             fieldValue f options'
             = Some (if match f, shaderStage with
                        | F_allowReZ, ShaderStageFragment => true
                        | _, _ => false
                        end && dota2Pipeline pipelineKey
                     then 1
                     else afterEntries cfg f pipelineKey shaderStage (entriesInUse built)
                            v)).
  { intros f v Hf; rewrite (Hfields f v Hf), Huse, Hz, afterEntries_app, afterEntries_table.
    unfold dota2Pipeline, entriesInUse; rewrite Hb; cbv zeta.
    rewrite andb_assoc; reflexivity. }
  split.
  - intros -> Hkey; destruct (fieldValue_valid F_allowReZ options Hv) as (v & Hf).
    rewrite (Hall _ v Hf), Hkey; reflexivity.
  - intros f v Hcase Hf; rewrite (Hall f v Hf).
    destruct Hcase as [Hne|[Hne| ->]]; [| |rewrite andb_false_r; reflexivity].
    + destruct f; try reflexivity; contradiction Hne; reflexivity.
    + destruct f, shaderStage; try reflexivity; contradiction Hne; reflexivity.
Qed.

Lemma dota2_rules_effect_witness :
  exists this' options',
    BuildAppProfile sampleConstants 32 oneGeneratedRule defaultBuilderSettings dota2Device
      sampleOptimizer (Some []) = Some this'
    /\ ApplyProfileToShaderCreateInfo sampleConfig (m_appProfile this') dota2Key
         ShaderStageFragment sampleOptions = Some options'
    /\ fieldValue F_allowReZ options' = Some 1
    /\ fieldValue F_vgprLimit options' = Some 24.
Proof.
  destruct (dota2_rules_effect sampleConstants 32 oneGeneratedRule defaultBuilderSettings
              dota2Device sampleOptimizer []
              (alwaysEntry 1 (vgprPayload 24) :: repeat zeroPipelineProfileEntry 31)
              (mkPipelineProfile 1 32
                 (Some (alwaysEntry 1 (vgprPayload 24)
                        :: repeat zeroPipelineProfileEntry 31)))
              sampleConfig dota2Key ShaderStageFragment sampleOptions)
    as (this' & options' & Hrun & Hpass & Hrez & Hother);
    [reflexivity|reflexivity|reflexivity|reflexivity|simpl; lia| |exact sampleOptions_valid|].
  - intros e He; cbn in He.
    repeat (destruct He as [He|He]; [symmetry; exact He|]); destruct He.
  - exists this', options'; split; [exact Hrun|split; [exact Hpass|split]].
    + apply Hrez; reflexivity.
    + destruct (fieldValue_valid F_vgprLimit sampleOptions sampleOptions_valid) as (v & Hf).
      assert (Hne : F_vgprLimit <> F_allowReZ
                    \/ ShaderStageFragment <> ShaderStageFragment
                    \/ dota2Pipeline dota2Key = false) by (left; discriminate).
      rewrite (Hother F_vgprLimit v Hne Hf); vm_compute; reflexivity.
Defined.

(** ** The runtime profile *)

(** [BuildRuntimeProfile] on its three kinds of path. *)
Lemma BuildRuntimeProfile_paths (InitialPipelineProfileEntries : nat)
    (builderSettings : BuilderSettings) (file : RuntimeProfileFile)
    (this : ShaderOptimizer) (pMemory : list PipelineProfileEntry) :
  BuildRuntimeProfile InitialPipelineProfileEntries builderSettings file this (Some pMemory)
  = if parseFailure InitialPipelineProfileEntries builderSettings file then
      match RuntimeProfileParseError builderSettings with
      | Some _ =>
          Some (set_m_runtimeProfile this
                  (if jsonParses file
                   then snd (ParseJsonProfile file (zeroedProfile InitialPipelineProfileEntries))
                   else zeroedProfile InitialPipelineProfileEntries))
      | None => None
      end
    else if parseSuccess InitialPipelineProfileEntries builderSettings file then
      Some (set_m_runtimeProfile this
              (snd (ParseJsonProfile file (zeroedProfile InitialPipelineProfileEntries))))
    else Some (set_m_runtimeProfile this (zeroedProfile InitialPipelineProfileEntries)).
Proof.
  unfold BuildRuntimeProfile, parseFailure, parseSuccess; cbv zeta.
  destruct (pipelineProfileRuntimeFileIsEmpty builderSettings); [reflexivity|].
  destruct (fileOpens file); [|reflexivity].
  destruct (jsonBufferAllocated file); [|reflexivity].
  destruct (0 <? bytesRead file)%nat; [|reflexivity].
  destruct (jsonParses file); [|reflexivity].
  destruct (ParseJsonProfile file (zeroedProfile InitialPipelineProfileEntries))
    as [[|] parsed]; reflexivity.
Qed.

(** X24. Where [BuildRuntimeProfile] is defined.  After a successful
    allocation the function reaches the loop of [RuntimeProfileParseError]
    with the halt setting on, a loop without side effects that cannot end and
    so has no defined behaviour (a build may spin in it or drop it and
    return), exactly when the halt setting is on and the runtime file is read
    as far as the parser and fails to parse ([JsonParse] returns no document
    or [ParseJsonProfile] reports failure).  In every other case the function
    returns and changes nothing but [m_runtimeProfile].  A file name that is
    empty, a file that cannot be opened, a failed buffer allocation and an
    empty read are not parse failures: the profile is then left zeroed with
    no entry in use, whatever the halt setting is. *)
Theorem runtime_profile_undefined_iff (InitialPipelineProfileEntries : nat)
    (builderSettings : BuilderSettings) (file : RuntimeProfileFile)
    (this : ShaderOptimizer) (pMemory : list PipelineProfileEntry) :
  (BuildRuntimeProfile InitialPipelineProfileEntries builderSettings file this
     (Some pMemory) = None
   <-> pipelineProfileHaltOnParseFailure builderSettings
       && parseFailure InitialPipelineProfileEntries builderSettings file = true)
  /\ (pipelineProfileHaltOnParseFailure builderSettings
      && parseFailure InitialPipelineProfileEntries builderSettings file = false ->
      exists this',
        BuildRuntimeProfile InitialPipelineProfileEntries builderSettings file this
          (Some pMemory) = Some this'
        /\ m_settings this' = m_settings this
        /\ m_appProfile this' = m_appProfile this
        /\ m_tuningProfile this' = m_tuningProfile this
        /\ (parseFailure InitialPipelineProfileEntries builderSettings file = false ->
            parseSuccess InitialPipelineProfileEntries builderSettings file = false ->
            m_runtimeProfile this' = zeroedProfile InitialPipelineProfileEntries
            /\ entriesInUse (m_runtimeProfile this') = [])).
Proof.
  rewrite BuildRuntimeProfile_paths; unfold RuntimeProfileParseError.
  destruct (parseFailure InitialPipelineProfileEntries builderSettings file) eqn:Hf.
  - rewrite andb_true_r.
    destruct (pipelineProfileHaltOnParseFailure builderSettings).
    + split; [split; reflexivity|discriminate].
    + split; [split; discriminate|intros _].
      eexists; split; [reflexivity|repeat split]; discriminate.
  - rewrite andb_false_r; split; [split; [|discriminate]|intros _].
    + destruct (parseSuccess InitialPipelineProfileEntries builderSettings file);
        discriminate.
    + destruct (parseSuccess InitialPipelineProfileEntries builderSettings file) eqn:Hs;
        (eexists; split; [reflexivity|repeat split]); discriminate.
Qed.

Lemma runtime_profile_undefined_iff_witness :
  BuildRuntimeProfile 8 haltingSettings brokenFile sampleOptimizer (Some []) = None
  /\ exists this',
       BuildRuntimeProfile 8 fileSettings brokenFile sampleOptimizer (Some []) = Some this'
       /\ m_appProfile this' = m_appProfile sampleOptimizer.
Proof.
  split.
  - apply (proj1 (runtime_profile_undefined_iff 8 haltingSettings brokenFile
                    sampleOptimizer [])); reflexivity.
  - destruct (proj2 (runtime_profile_undefined_iff 8 fileSettings brokenFile
                       sampleOptimizer []) eq_refl) as (this' & Hrun & _ & Happ & _).
    exists this'; split; [exact Hrun|exact Happ].
Defined.

(** ** [Init] *)

Lemma BuildAppProfile_without_table (constants : HeaderConstants)
    (InitialPipelineProfileEntries : nat)
    (generatedBuildAppProfileLlpc : Z -> Z -> Update PipelineProfile)
    (builderSettings : BuilderSettings) (device : DeviceProperties)
    (this : ShaderOptimizer) (pMemory : list PipelineProfileEntry) :
  pipelineProfileIgnoresAppProfile builderSettings = false ->
  onDota2Polaris constants device = false ->
  BuildAppProfile constants InitialPipelineProfileEntries generatedBuildAppProfileLlpc
    builderSettings device this (Some pMemory)
  = option_map (set_m_appProfile this)
      (generatedBuildAppProfileLlpc (GetAppProfile device) (gfxLevel device)
         (zeroedProfile InitialPipelineProfileEntries)).
Proof.
  intros Hign Hdev; unfold BuildAppProfile, BuildAppProfileLlpc; cbv zeta.
  rewrite Hign; cbn [negb andb].
  fold (zeroedProfile InitialPipelineProfileEntries).
  assert (Hseq : forall (a b : Update PipelineProfile) s,
             (a ;; b) s = match a s with Some s' => b s' | None => None end)
    by reflexivity.
  rewrite Hseq.
  destruct (generatedBuildAppProfileLlpc (GetAppProfile device) (gfxLevel device)
              (zeroedProfile InitialPipelineProfileEntries)) as [built|]; [|reflexivity].
  unfold onDota2Polaris in Hdev.
  destruct (GetAppProfile device =? AppProfile_Dota2 constants); [|reflexivity].
  cbn [andb] in Hdev; rewrite Hdev; reflexivity.
Qed.

Lemma BuildTuningProfile_valid (InitialPipelineProfileEntries : nat) (this : ShaderOptimizer)
    (block : list PipelineProfileEntry) :
  (overrideShaderParams (m_settings this) = true ->
   (0 < InitialPipelineProfileEntries)%nat
   /\ stageOfIndex (overrideShaderStage (m_settings this)) <> None) ->
  exists profile,
    BuildTuningProfile InitialPipelineProfileEntries this (Some block)
    = Some (set_m_tuningProfile this profile)
    /\ validProfile profile.
Proof.
  intros Hon; destruct (overrideShaderParams (m_settings this)) eqn:Hsw.
  - destruct (Hon eq_refl) as [Hcap Hs].
    destruct (stageOfIndex (overrideShaderStage (m_settings this))) as [stage|] eqn:Hst;
      [|contradiction Hs; reflexivity].
    destruct (tuning_rule_built InitialPipelineProfileEntries this block stage Hsw Hcap Hst)
      as (entry & _ & Hb).
    eexists; split; [exact Hb|].
    eexists; split; [reflexivity|]; cbn [entryCount length]; lia.
  - unfold BuildTuningProfile; cbv zeta; rewrite Hsw; cbn [negb orb].
    eexists; split; [reflexivity|].
    exists block; split; [reflexivity|cbn [entryCount]; lia].
Qed.

Lemma zeroedProfile_valid (n : nat) : validProfile (zeroedProfile n).
Proof. unfold zeroedProfile; eexists; split; [reflexivity|cbn [entryCount]; lia]. Qed.

(** X25. [Init] establishes the invariant the passes rely on.  When the three
    allocations succeed, the tuning settings are usable (with the switch on:
    a capacity of at least one and a stage index below six), the generated
    builder returns a profile whose entries in use lie inside its block, with
    eight entries to spare where the table is added, [ParseJsonProfile]
    leaves such a profile, and no parse failure meets the halt setting, then
    [Init] returns; every profile it leaves is valid, the settings are
    untouched, the profile handed to [PipelineProfileToJson] is the tuning
    profile as built, and without [ICD_RUNTIME_APP_PROFILE] the runtime
    profile is not touched. *)
Theorem Init_establishes_valid_profiles (cfg : BuildConfig)
    (constants : HeaderConstants) (InitialPipelineProfileEntries : nat)
    (generatedBuildAppProfileLlpc : Z -> Z -> Update PipelineProfile)
    (builderSettings : BuilderSettings) (device : DeviceProperties)
    (file : RuntimeProfileFile) (this : ShaderOptimizer)
    (blockApp blockTuning blockRuntime : list PipelineProfileEntry) :
  (overrideShaderParams (m_settings this) = true ->
   (0 < InitialPipelineProfileEntries)%nat
   /\ stageOfIndex (overrideShaderStage (m_settings this)) <> None) ->
  (pipelineProfileIgnoresAppProfile builderSettings = false ->
   exists built block,
     generatedBuildAppProfileLlpc (GetAppProfile device) (gfxLevel device)
       (zeroedProfile InitialPipelineProfileEntries) = Some built
     /\ pEntries built = Some block
     /\ (entryCount built + (if onDota2Polaris constants device then 8 else 0)
         <= length block)%nat) ->
  validProfile (snd (ParseJsonProfile file (zeroedProfile InitialPipelineProfileEntries))) ->
  pipelineProfileHaltOnParseFailure builderSettings
  && parseFailure InitialPipelineProfileEntries builderSettings file = false ->
  exists result,
    Init cfg constants InitialPipelineProfileEntries generatedBuildAppProfileLlpc
      builderSettings device file this (Some blockApp) (Some blockTuning)
      (Some blockRuntime) = Returns result
    /\ validProfile (m_appProfile (optimizer result))
    /\ validProfile (m_tuningProfile (optimizer result))
    /\ (ICD_RUNTIME_APP_PROFILE cfg = true ->
        validProfile (m_runtimeProfile (optimizer result)))
    /\ (ICD_RUNTIME_APP_PROFILE cfg = false ->
        m_runtimeProfile (optimizer result) = m_runtimeProfile this)
    /\ m_settings (optimizer result) = m_settings this
    /\ dumpedProfile result
       = if enablePipelineProfileDumping builderSettings
         then Some (m_tuningProfile (optimizer result)) else None.
Proof.
  intros Htuning Hgenerated Hparsed Hhalt.
  assert (Happ : exists profile,
             BuildAppProfile constants InitialPipelineProfileEntries
               generatedBuildAppProfileLlpc builderSettings device this (Some blockApp)
             = Some (set_m_appProfile this profile)
             /\ validProfile profile).
  { destruct (pipelineProfileIgnoresAppProfile builderSettings) eqn:Hign.
    - unfold BuildAppProfile; cbv zeta; rewrite Hign; cbn [negb andb].
      eexists; split; [reflexivity|].
      exists blockApp; split; [reflexivity|cbn [entryCount]; lia].
    - destruct (Hgenerated eq_refl) as (built & block & Hgen & Hb & Hlen).
      destruct (onDota2Polaris constants device) eqn:Hdev.
      + rewrite (table_appended constants _ _ _ _ this blockApp block built Hign Hdev Hgen
                   Hb Hlen).
        eexists; split; [reflexivity|].
        exact (proj1 (table_profile_entries (entryCount built) (entryCapacity built) block
                        Hlen)).
      + rewrite (BuildAppProfile_without_table constants _ _ _ device this blockApp Hign
                   Hdev), Hgen.
        eexists; split; [reflexivity|].
        exists block; split; [exact Hb|lia]. }
  destruct Happ as (app & Happ & Hvapp).
  unfold Init; rewrite Happ.
  destruct (BuildTuningProfile_valid InitialPipelineProfileEntries
              (set_m_appProfile this app) blockTuning Htuning)
    as (tuning & Htun & Hvtun).
  rewrite Htun; cbv zeta.
  destruct (ICD_RUNTIME_APP_PROFILE cfg) eqn:Hicd.
  - rewrite BuildRuntimeProfile_paths.
    destruct (parseFailure InitialPipelineProfileEntries builderSettings file) eqn:Hf.
    + rewrite andb_true_r in Hhalt.
      unfold RuntimeProfileParseError; rewrite Hhalt.
      eexists; split; [reflexivity|].
      cbn [optimizer dumpedProfile set_m_runtimeProfile set_m_tuningProfile set_m_appProfile
           m_appProfile m_tuningProfile m_runtimeProfile m_settings].
      repeat split; try assumption; try discriminate.
      intros _; destruct (jsonParses file); [exact Hparsed|apply zeroedProfile_valid].
    + destruct (parseSuccess InitialPipelineProfileEntries builderSettings file);
        (eexists; split; [reflexivity|]);
        cbn [optimizer dumpedProfile set_m_runtimeProfile set_m_tuningProfile
             set_m_appProfile m_appProfile m_tuningProfile m_runtimeProfile m_settings];
        repeat split; try assumption; try discriminate;
        intros _; first [exact Hparsed|apply zeroedProfile_valid].
  - eexists; split; [reflexivity|].
    cbn [optimizer dumpedProfile set_m_runtimeProfile set_m_tuningProfile set_m_appProfile
         m_appProfile m_tuningProfile m_runtimeProfile m_settings].
    repeat split; try assumption; discriminate.
Qed.

Lemma Init_establishes_valid_profiles_witness :
  exists result,
    Init sampleConfig sampleConstants 32 oneGeneratedRule fileSettings dota2Device goodFile
      sampleOptimizer (Some []) (Some []) (Some []) = Returns result
    /\ entryCount (m_appProfile (optimizer result)) = 9%nat
    /\ entryCount (m_tuningProfile (optimizer result)) = 1%nat
    /\ entryCount (m_runtimeProfile (optimizer result)) = 1%nat
    /\ validProfile (m_appProfile (optimizer result))
    /\ dumpedProfile result = Some (m_tuningProfile (optimizer result)).
Proof.
  destruct (Init_establishes_valid_profiles sampleConfig sampleConstants 32
              oneGeneratedRule fileSettings dota2Device goodFile sampleOptimizer [] [] [])
    as (result & Hrun & Hvapp & _ & _ & _ & _ & Hdump).
  - intros _; split; [lia|discriminate].
  - intros _.
    exists (mkPipelineProfile 1 32
              (Some (alwaysEntry 1 (vgprPayload 24) :: repeat zeroPipelineProfileEntry 31))),
      (alwaysEntry 1 (vgprPayload 24) :: repeat zeroPipelineProfileEntry 31).
    split; [reflexivity|split; [reflexivity|simpl; lia]].
  - eexists; split; [reflexivity|simpl; lia].
  - reflexivity.
  - exists result; split; [exact Hrun|].
    assert (Hcounts : entryCount (m_appProfile (optimizer result)) = 9%nat
                      /\ entryCount (m_tuningProfile (optimizer result)) = 1%nat
                      /\ entryCount (m_runtimeProfile (optimizer result)) = 1%nat).
    { vm_compute in Hrun; injection Hrun as <-; repeat split. }
    destruct Hcounts as (Ha & Ht & Hr).
    repeat (split; [assumption|]); exact Hdump.
Defined.

(** ** Stores through unchecked pointers *)

Lemma guarded_ext {St : Type} (ok : St -> Prop) (nullA nullB : St -> bool)
    (m : Update St) (cA cB dA dB : bool) :
  guarded ok nullA nullB m cA cB -> cA = dA -> cB = dB -> guarded ok nullA nullB m dA dB.
Proof. intros H <- <-; exact H. Qed.

Lemma guarded_skip {St : Type} (ok : St -> Prop) (nullA nullB : St -> bool) :
  guarded ok nullA nullB skip false false.
Proof.
  split.
  - intros t t' Hok H; injection H as <-; repeat split; assumption.
  - intros t _; split; discriminate.
Qed.

Lemma guarded_when {St : Type} (ok : St -> Prop) (nullA nullB : St -> bool)
    (c : bool) (m : Update St) (cA cB : bool) :
  guarded ok nullA nullB m cA cB -> guarded ok nullA nullB (when c m) (c && cA) (c && cB).
Proof. destruct c; [exact (fun H => H)|intros _; apply guarded_skip]. Qed.

Lemma guarded_if {St : Type} (ok : St -> Prop) (nullA nullB : St -> bool)
    (c : bool) (m1 m2 : Update St) (cA cB dA dB : bool) :
  guarded ok nullA nullB m1 cA cB -> guarded ok nullA nullB m2 dA dB ->
  guarded ok nullA nullB (if c then m1 else m2)
    (if c then cA else dA) (if c then cB else dB).
Proof. destruct c; [intros H _; exact H|intros _ H; exact H]. Qed.

Lemma guarded_seq {St : Type} (ok : St -> Prop) (nullA nullB : St -> bool)
    (a b : Update St) (cA cB dA dB : bool) :
  guarded ok nullA nullB a cA cB -> guarded ok nullA nullB b dA dB ->
  guarded ok nullA nullB (a ;; b) (cA || dA) (cB || dB).
Proof.
  intros [Hka Hna] [Hkb Hnb]; split.
  - intros t t' Hok H; unfold andThen in H.
    destruct (a t) as [t1|] eqn:Ha; [|discriminate].
    destruct (Hka t t1 Hok Ha) as (Hok1 & HA1 & HB1).
    destruct (Hkb t1 t' Hok1 H) as (Hok' & HA' & HB').
    repeat split; [exact Hok'|rewrite HA'; exact HA1|rewrite HB'; exact HB1].
  - intros t Hok; unfold andThen.
    destruct (a t) as [t1|] eqn:Ha.
    + destruct (Hka t t1 Hok Ha) as (Hok1 & HA1 & HB1).
      rewrite (Hnb t1 Hok1), HA1, HB1.
      assert (Hgood : (cA && nullA t) || (cB && nullB t) = false).
      { destruct ((cA && nullA t) || (cB && nullB t)) eqn:E; [|reflexivity].
        apply (Hna t Hok) in E; rewrite Ha in E; discriminate. }
      destruct cA, cB, dA, dB, (nullA t), (nullB t); cbn in *;
        split; intros; congruence.
    + apply (Hna t Hok) in Ha.
      split; [intros _|reflexivity].
      destruct cA, cB, dA, dB, (nullA t), (nullB t); cbn in *; congruence.
Qed.

Lemma guarded_forEntries {St : Type} (ok : St -> Prop) (nullA nullB : St -> bool)
    (block : list PipelineProfileEntry) (body : nat -> Update St)
    (cA cB : PipelineProfileEntry -> bool) :
  (forall i e, nth_error block i = Some e ->
     guarded ok nullA nullB (body i) (cA e) (cB e)) ->
  forall count first,
    (first + count <= length block)%nat ->
    guarded ok nullA nullB (forEntries count first body)
      (existsb cA (firstn count (skipn first block)))
      (existsb cB (firstn count (skipn first block))).
Proof.
  intros Hbody; induction count as [|n IH]; intros first Hlen.
  - apply guarded_skip.
  - destruct (nth_error block first) as [e|] eqn:He;
      [|apply nth_error_None in He; lia].
    rewrite (nth_error_skipn _ _ _ He); cbn [firstn existsb forEntries].
    apply guarded_seq; [apply (Hbody first e He)|apply IH; lia].
Qed.

(** *** The shader-stage pass *)

Lemma guarded_via_pOptions
    (f : Options.PipelineShaderOptions -> Options.PipelineShaderOptions) :
  guarded (fun t => pOptions t <> None) (fun t => isNull (pPipelineOptions t))
    (fun t => isNull (pNggState t)) (via_pOptions f) false false.
Proof.
  split.
  - intros t t' _ H; unfold via_pOptions in H.
    destruct (pOptions t); [|discriminate]; injection H as <-; cbn.
    repeat split; discriminate.
  - intros t Hok; unfold via_pOptions.
    destruct (pOptions t); [|contradiction Hok; reflexivity].
    split; discriminate.
Qed.

Lemma guarded_via_pPipelineOptions (f : PipelineOptions -> PipelineOptions) :
  guarded (fun t => pOptions t <> None) (fun t => isNull (pPipelineOptions t))
    (fun t => isNull (pNggState t)) (via_pPipelineOptions f) true false.
Proof.
  split.
  - intros t t' Hok H; unfold via_pPipelineOptions in H.
    destruct (pPipelineOptions t) eqn:E; [|discriminate]; injection H as <-; cbn.
    repeat split; exact Hok.
  - intros t _; unfold via_pPipelineOptions.
    destruct (pPipelineOptions t); cbn; split; congruence.
Qed.

Lemma guarded_via_pNggState (f : Ngg.NggState -> Ngg.NggState) :
  guarded (fun t => pOptions t <> None) (fun t => isNull (pPipelineOptions t))
    (fun t => isNull (pNggState t)) (via_pNggState f) false true.
Proof.
  split.
  - intros t t' Hok H; unfold via_pNggState in H.
    destruct (pNggState t) eqn:E; [|discriminate]; injection H as <-; cbn.
    repeat split; exact Hok.
  - intros t _; unfold via_pNggState.
    destruct (pNggState t); cbn; split; congruence.
Qed.

Lemma guarded_applyShaderCreate (cfg : BuildConfig) (shaderCreate : ShaderCreate.t) :
  guarded (fun t => pOptions t <> None) (fun t => isNull (pPipelineOptions t))
    (fun t => isNull (pNggState t)) (applyShaderCreate cfg shaderCreate)
    (writes cfg F_reconfigWorkgroupLayout shaderCreate)
    (existsb (fun f => writes cfg f shaderCreate) nggFields).
Proof.
  unfold applyShaderCreate; cbv zeta.
  eapply guarded_ext.
  - repeat (apply guarded_seq;
            [first [ apply guarded_when;
                     first [ apply guarded_via_pOptions
                           | apply guarded_via_pPipelineOptions
                           | apply guarded_via_pNggState ]
                   | apply guarded_if;
                     [apply guarded_when, guarded_via_pNggState|apply guarded_skip] ]|]).
    apply guarded_when, guarded_via_pNggState.
  - unfold writes; cbn [applyBitOf payloadGuard].
    rewrite !andb_false_r, ?andb_true_r; cbn [orb].
    destruct (LLPC_CLIENT_INTERFACE_MAJOR_VERSION cfg <? 45),
      (Tuning.reconfigWorkgroupLayout (ShaderCreate.tuningOptions shaderCreate));
      reflexivity.
  - unfold nggFields, writes; cbn [existsb applyBitOf payloadGuard].
    rewrite !andb_false_r, ?andb_true_r; cbn [orb].
    unfold CreateApply.nggDisable, CreateApply.nggFasterLaunchRate,
      CreateApply.nggVertexReuse, CreateApply.nggEnableFrustumCulling,
      CreateApply.nggEnableBoxFilterCulling, CreateApply.nggEnableSphereCulling,
      CreateApply.nggEnableBackfaceCulling, CreateApply.nggEnableSmallPrimFilter.
    destruct (LLPC_CLIENT_INTERFACE_MAJOR_VERSION cfg <? 45);
      rewrite ?andb_false_r, ?andb_true_r, ?orb_false_r; cbn [orb]; reflexivity.
Qed.

Lemma guarded_entry (cfg : BuildConfig) (e : PipelineProfileEntry)
    (pipelineKey : PipelineOptimizerKey) (shaderStage : ShaderStage) :
  guarded (fun t => pOptions t <> None) (fun t => isNull (pPipelineOptions t))
    (fun t => isNull (pNggState t))
    (applyEntryToShaderCreateInfo cfg e pipelineKey shaderStage)
    (setsField cfg F_reconfigWorkgroupLayout pipelineKey shaderStage e)
    (existsb (fun f => setsField cfg f pipelineKey shaderStage e) nggFields).
Proof.
  unfold setsField, applyEntryToShaderCreateInfo.
  destruct (ProfilePatternMatchesPipeline (pattern e) pipelineKey).
  - destruct (guarded_applyShaderCreate cfg (shaderCreateOf e shaderStage)) as [Hk Hn].
    unfold nggFields; cbn [existsb andb]; split.
    + intros t t' Hok H; apply (Hk t t' Hok).
      destruct (pOptions t); [exact H|contradiction Hok; reflexivity].
    + intros t Hok; rewrite <- (Hn t Hok).
      destruct (pOptions t); [reflexivity|contradiction Hok; reflexivity].
  - unfold nggFields; cbn [existsb andb orb]; apply guarded_skip.
Qed.

(** X26. Only [pOptions] is tested before the stores.  Over a valid profile
    and with a non-null [pOptions], the shader-stage pass is undefined exactly
    when some entry in use matches the key and writes a member whose pointer
    is null: [reconfigWorkgroupLayout] with a null [pPipelineOptions], or one
    of the NGG members with a null [pNggState]. *)
Theorem shader_pass_undefined_iff (cfg : BuildConfig) (profile : PipelineProfile)
    (pipelineKey : PipelineOptimizerKey) (shaderStage : ShaderStage)
    (options : PipelineShaderOptionsPtr) :
  validProfile profile ->
  pOptions options <> None ->
  (ApplyProfileToShaderCreateInfo cfg profile pipelineKey shaderStage options = None
   <-> exists e f,
         In e (entriesInUse profile)
         /\ setsField cfg f pipelineKey shaderStage e = true
         /\ fieldValue f options = None).
Proof.
  intros (block & Hb & Hlen) Hok.
  unfold ApplyProfileToShaderCreateInfo, entryAt, entriesInUse; rewrite Hb.
  assert (Hloop :
    guarded (fun t => pOptions t <> None) (fun t => isNull (pPipelineOptions t))
      (fun t => isNull (pNggState t))
      (forEntries (entryCount profile) 0
         (fun entry options0 =>
            match nth_error block entry with
            | Some profileEntry =>
                applyEntryToShaderCreateInfo cfg profileEntry pipelineKey shaderStage
                  options0
            | None => None
            end))
      (existsb (fun e => setsField cfg F_reconfigWorkgroupLayout pipelineKey shaderStage e)
         (firstn (entryCount profile) (skipn 0 block)))
      (existsb (fun e => existsb (fun f => setsField cfg f pipelineKey shaderStage e)
                           nggFields)
         (firstn (entryCount profile) (skipn 0 block)))).
  { apply guarded_forEntries; [|exact Hlen].
    intros i e He; rewrite He; apply guarded_entry. }
  rewrite (proj2 Hloop options Hok); cbn [skipn].
  set (entries := firstn (entryCount profile) block).
  rewrite orb_true_iff, !andb_true_iff, !existsb_exists; split.
  - intros [[(e & He & Hw) Hnull]|[(e & He & Hw) Hnull]].
    + exists e, F_reconfigWorkgroupLayout; repeat split; try assumption.
      cbn [fieldValue]; destruct (pPipelineOptions options); [discriminate|reflexivity].
    + apply existsb_exists in Hw; destruct Hw as (f & Hf & Hw).
      exists e, f; repeat split; try assumption.
      destruct (pNggState options) eqn:Hn; [discriminate|].
      unfold nggFields in Hf; cbn [In] in Hf.
      repeat (destruct Hf as [<-|Hf];
              [cbn [fieldValue]; unfold viaNgg; rewrite Hn; reflexivity|]);
        destruct Hf.
  - intros (e & f & He & Hw & Hnull).
    assert (Hopt : forall p, viaOptions p options <> None).
    { intros p; unfold viaOptions; destruct (pOptions options);
        [discriminate|contradiction Hok; reflexivity]. }
    destruct f; cbn [fieldValue] in Hnull;
      try (exfalso; exact (Hopt _ Hnull)).
    1: { left; split; [exists e; split; assumption|].
         revert Hnull; destruct (pPipelineOptions options);
           [discriminate|intros _; reflexivity]. }
    all: right; split;
      [|revert Hnull; unfold viaNgg; destruct (pNggState options);
        [discriminate|intros _; reflexivity]].
    all: exists e; split; [exact He|]; unfold nggFields; cbn [existsb]; rewrite Hw.
    all: rewrite ?orb_true_r; reflexivity.
Qed.

Lemma shader_pass_undefined_iff_witness :
  ApplyProfileToShaderCreateInfo sampleConfig (profileWith [nggDisableEntry])
    fragmentOnlyKey ShaderStageFragment noNggOptions = None.
Proof.
  apply (shader_pass_undefined_iff sampleConfig (profileWith [nggDisableEntry])
           fragmentOnlyKey ShaderStageFragment noNggOptions);
    [apply profileWith_valid|discriminate|].
  exists nggDisableEntry, F_enableNgg; split; [left; reflexivity|split; reflexivity].
Defined.

(** *** The graphics pass *)

Lemma guarded_via_slot {R C : Type} (slot : GraphicsSlot)
    (f : Pal.DynamicGraphicsShaderInfo R -> Pal.DynamicGraphicsShaderInfo R) :
  guarded (fun _ : GraphicsPassState R C => True)
    (fun st => isNull (graphicsShaderInfos st)) (fun st => isNull (palCreateInfo st))
    (via_slot slot f) true false.
Proof.
  split.
  - intros t t' _ H; unfold via_slot in H.
    destruct (graphicsShaderInfos t) eqn:E; [|discriminate]; injection H as <-; cbn.
    repeat split.
  - intros t _; unfold via_slot.
    destruct (graphicsShaderInfos t); cbn; split; congruence.
Qed.

Lemma guarded_addressOfSlot {R C : Type} (slot : GraphicsSlot) :
  guarded (fun _ : GraphicsPassState R C => True)
    (fun st => isNull (graphicsShaderInfos st)) (fun st => isNull (palCreateInfo st))
    (addressOfSlot slot) true false.
Proof.
  split.
  - intros t t' _ H; unfold addressOfSlot in H.
    destruct (graphicsShaderInfos t) eqn:E; [|discriminate]; injection H as <-.
    rewrite E; repeat split.
  - intros t _; unfold addressOfSlot.
    destruct (graphicsShaderInfos t); cbn; split; congruence.
Qed.

Lemma guarded_via_pPalCreateInfo {R C : Type}
    (f : Pal.GraphicsPipelineCreateInfo C -> Pal.GraphicsPipelineCreateInfo C) :
  guarded (fun _ : GraphicsPassState R C => True)
    (fun st => isNull (graphicsShaderInfos st)) (fun st => isNull (palCreateInfo st))
    (via_pPalCreateInfo f) false true.
Proof.
  split.
  - intros t t' _ H; unfold via_pPalCreateInfo in H.
    destruct (palCreateInfo t) eqn:E; [|discriminate]; injection H as <-; cbn.
    repeat split.
  - intros t _; unfold via_pPalCreateInfo.
    destruct (palCreateInfo t); cbn; split; congruence.
Qed.

Lemma guarded_graphicsDbgPrint {R C : Type} (lines : list DbgLine) :
  guarded (fun _ : GraphicsPassState R C => True)
    (fun st => isNull (graphicsShaderInfos st)) (fun st => isNull (palCreateInfo st))
    (graphicsDbgPrint lines) false false.
Proof.
  split.
  - intros t t' _ H; injection H as <-; repeat split.
  - intros t _; split; discriminate.
Qed.

Lemma guarded_graphics_entry {R C : Type} (cfg : BuildConfig) (this : ShaderOptimizer)
    (profile : ProfileMember) (entry : nat) (e : PipelineProfileEntry)
    (pipelineKey : PipelineOptimizerKey) (shaderStages : Z) :
  guarded (fun _ : GraphicsPassState R C => True)
    (fun st => isNull (graphicsShaderInfos st)) (fun st => isNull (palCreateInfo st))
    (fun st =>
       if ProfilePatternMatchesPipeline (pattern e) pipelineKey
       then applyEntryToGraphicsPipelineCreateInfo cfg this profile entry e pipelineKey
              shaderStages st
       else Some st)
    (existsb (fun slot => reachesSlot pipelineKey shaderStages slot e) allSlots)
    (setsLateAllocVsLimit pipelineKey e || setsBinningOverride pipelineKey e).
Proof.
  unfold reachesSlot, setsLateAllocVsLimit, setsBinningOverride, allSlots.
  destruct (ProfilePatternMatchesPipeline (pattern e) pipelineKey).
  - cbn [existsb andb slotBit].
    eapply guarded_ext.
    + unfold applyEntryToGraphicsPipelineCreateInfo, ApplyProfileToDynamicGraphicsShaderInfo.
      cbv zeta.
      repeat (apply guarded_seq;
              [apply guarded_when;
               first [ apply guarded_seq;
                       [apply guarded_addressOfSlot|apply guarded_when, guarded_via_slot]
                     | apply guarded_via_pPalCreateInfo ]|]).
      apply guarded_if; [apply guarded_when, guarded_graphicsDbgPrint|apply guarded_skip].
    + cbn [orb]; rewrite !andb_false_r, !andb_true_r.
      destruct (PAL_ENABLE_PRINTS_ASSERTS cfg); rewrite ?orb_false_r; reflexivity.
    + rewrite !andb_false_r, !andb_true_r; cbn [orb].
      destruct (PAL_ENABLE_PRINTS_ASSERTS cfg); rewrite ?orb_false_r; reflexivity.
  - cbn [existsb andb orb]; apply guarded_skip.
Qed.

(** X27. The graphics pass tests neither pointer.  Over a valid profile the
    pass is undefined exactly when some entry in use matches the key and
    either a graphics stage is present in [shaderStages] while
    [pGraphicsShaderInfos] is null (the member of that stage is reached
    through the pointer for the call, whether or not the entry sets the
    compute-unit mask), or the entry sets the late-alloc limit or the binning
    override while [pPalCreateInfo] is null. *)
Theorem graphics_pass_undefined_iff {R C : Type} (cfg : BuildConfig)
    (this : ShaderOptimizer) (profile : ProfileMember) (pipelineKey : PipelineOptimizerKey)
    (shaderStages : Z) (st : GraphicsPassState R C) :
  validProfile (profileOf this profile) ->
  (ApplyProfileToGraphicsPipelineCreateInfo cfg this profile pipelineKey shaderStages st
   = None
   <-> exists e,
         In e (entriesInUse (profileOf this profile))
         /\ ((graphicsShaderInfos st = None
              /\ exists slot, reachesSlot pipelineKey shaderStages slot e = true)
             \/ (palCreateInfo st = None
                 /\ (setsLateAllocVsLimit pipelineKey e = true
                     \/ setsBinningOverride pipelineKey e = true)))).
Proof.
  intros (block & Hb & Hlen).
  unfold ApplyProfileToGraphicsPipelineCreateInfo, entryAt, entriesInUse; rewrite Hb.
  assert (Hloop :
    guarded (fun _ : GraphicsPassState R C => True)
      (fun st => isNull (graphicsShaderInfos st)) (fun st => isNull (palCreateInfo st))
      (forEntries (entryCount (profileOf this profile)) 0
         (fun entry st0 =>
            match nth_error block entry with
            | Some profileEntry =>
                if ProfilePatternMatchesPipeline (pattern profileEntry) pipelineKey
                then applyEntryToGraphicsPipelineCreateInfo cfg this profile entry
                       profileEntry pipelineKey shaderStages st0
                else Some st0
            | None => None
            end))
      (existsb (fun e => existsb (fun slot => reachesSlot pipelineKey shaderStages slot e)
                           allSlots)
         (firstn (entryCount (profileOf this profile)) (skipn 0 block)))
      (existsb (fun e => setsLateAllocVsLimit pipelineKey e
                         || setsBinningOverride pipelineKey e)
         (firstn (entryCount (profileOf this profile)) (skipn 0 block)))).
  { apply guarded_forEntries; [|exact Hlen].
    intros i e He; rewrite He; apply guarded_graphics_entry. }
  rewrite (proj2 Hloop st I); cbn [skipn].
  rewrite orb_true_iff, !andb_true_iff, !existsb_exists; split.
  - intros [[(e & He & Hw) Hnull]|[(e & He & Hw) Hnull]].
    + apply existsb_exists in Hw; destruct Hw as (slot & _ & Hw).
      exists e; split; [exact He|left; split; [|exists slot; exact Hw]].
      destruct (graphicsShaderInfos st); [discriminate|reflexivity].
    + apply orb_true_iff in Hw.
      exists e; split; [exact He|right; split; [|exact Hw]].
      destruct (palCreateInfo st); [discriminate|reflexivity].
  - intros (e & He & [[Hnull (slot & Hw)]|[Hnull Hw]]).
    + left; split; [|rewrite Hnull; reflexivity].
      exists e; split; [exact He|apply existsb_exists].
      exists slot; split; [destruct slot; cbn; tauto|exact Hw].
    + right; split; [|rewrite Hnull; reflexivity].
      exists e; split; [exact He|apply orb_true_iff; exact Hw].
Qed.

Lemma graphics_pass_undefined_iff_witness :
  ApplyProfileToGraphicsPipelineCreateInfo sampleConfig
    (mkShaderOptimizer sampleSettings
       (profileWith [alwaysEntry 0 zeroShaderTuningOptions]) (profileWith [])
       (profileWith []))
    member_appProfile fragmentOnlyKey vertexAndFragment noShaderInfosState = None.
Proof.
  apply (graphics_pass_undefined_iff sampleConfig
           (mkShaderOptimizer sampleSettings
              (profileWith [alwaysEntry 0 zeroShaderTuningOptions]) (profileWith [])
              (profileWith []))
           member_appProfile fragmentOnlyKey vertexAndFragment noShaderInfosState);
    [apply profileWith_valid|].
  exists (alwaysEntry 0 zeroShaderTuningOptions).
  split; [left; reflexivity|left; split; [reflexivity|]].
  exists slot_ps; reflexivity.
Defined.
